(** * The playbook variable protocol: PlaybookCreate and PlaybookRead

    A shallow embedding of [playbook_create.py] and [playbook_read.py].

    Conventions of the embedding.
    - A Python [str] is a Rocq [string] read as a sequence of code points
      below 256; text outside that range is outside the model and is
      reported by the outcome [Unmodelled], never silently altered.
    - A Python [bytes] is a [list byte].
    - A Python value is a [pyval]; a [float] is carried as its literal text.
    - A method is a function in the monad [M]: it threads the key value
      store together with the log of the calls made to it, and ends in a
      returned value or a raised exception.
    - Calls to the logger have no effect on any result and are left out.
    - What the two files import from outside (the [Util] helper with its
      regular expressions, the input registry, the key value store client)
      is a collaborator: a type class whose operations the methods call. *)

From Stdlib Require Import ZArith NArith Lia List String Ascii Bool.
From Stdlib Require Import Strings.Byte.
From stdpp Require Import base strings list pretty.

Local Open Scope string_scope.
Local Open Scope list_scope.

(** ** Python text *)

Module PyStr.

Definition chars (s : string) : list ascii := list_ascii_of_string s.
Definition text (cs : list ascii) : string := string_of_list_ascii cs.

Definition code (c : ascii) : N := N_of_ascii c.

Definition dquote : ascii := "034"%char.
Definition backslash : ascii := "\"%char.

(** [str.isspace] for one character. *)
Definition is_space (c : ascii) : bool :=
  let n := code c in
  ((9 <=? n) && (n <=? 13) || (28 <=? n) && (n <=? 32)
   || (n =? 133) || (n =? 160))%N.

Fixpoint lstrip (cs : list ascii) : list ascii :=
  match cs with
  | c :: r => if is_space c then lstrip r else cs
  | [] => []
  end.

Definition rstrip (cs : list ascii) : list ascii := rev (lstrip (rev cs)).

(** [s.strip()] *)
Definition strip (s : string) : string := text (rstrip (lstrip (chars s))).

Definition lower_char (c : ascii) : ascii :=
  let n := code c in
  if ((65 <=? n) && (n <=? 90)
      || (192 <=? n) && (n <=? 222) && negb (n =? 215))%N
  then ascii_of_N (n + 32) else c.

(** [s.lower()] *)
Definition lower (s : string) : string := text (map lower_char (chars s)).

Fixpoint starts_with (p cs : list ascii) : bool :=
  match p, cs with
  | [], _ => true
  | a :: p', b :: cs' => bool_decide (a = b) && starts_with p' cs'
  | _ :: _, [] => false
  end.

(** The scan of [str.replace] for a non-empty [old]: [skip] counts the
    characters of an occurrence already replaced that are still ahead. *)
Fixpoint replace_scan (old new : list ascii) (skip : nat) (cs : list ascii)
  : list ascii :=
  match cs with
  | [] => []
  | c :: r =>
      match skip with
      | S k => replace_scan old new k r
      | O =>
          if starts_with old cs
          then new ++ replace_scan old new (length old - 1) r
          else c :: replace_scan old new 0 r
      end
  end.

(** [s.replace(old, new)]: every non-overlapping occurrence, left to right;
    an empty [old] matches before every character and at the end. *)
Definition replace (s old new : string) : string :=
  match chars old with
  | [] => text (chars new ++ flat_map (fun c => c :: chars new) (chars s))
  | o => text (replace_scan o (chars new) 0 (chars s))
  end.

End PyStr.

(** ** Python values, exceptions, outcomes *)

#[local] Unset Elimination Schemes.
Inductive pyval : Type :=
| VNone
| VBool (b : bool)
| VInt (z : Z)
| VFloat (literal : string)
| VStr (s : string)
| VBytes (b : list byte)
| VList (l : list pyval)
| VDict (d : list (string * pyval))
| VModel (fields : list (string * pyval))
| VSensitive (value : string)
| VStringVariable (s : string)
| VBinaryVariable (b : list byte).
#[local] Set Elimination Schemes.

Inductive exn : Type :=
| RuntimeError (msg : string)
| TypeError (msg : string)
| KeyError (key : string)
| ValueError (msg : string)
| UnicodeDecodeError (msg : string)
| OtherError (name : string)
| Unmodelled (what : string)
| RecursionDepth.

(** [UnicodeDecodeError] is a subclass of [ValueError]. *)
Definition is_ValueError (e : exn) : bool :=
  match e with
  | ValueError _ | UnicodeDecodeError _ => true
  | _ => false
  end.

Definition is_RuntimeError (e : exn) : bool :=
  match e with
  | RuntimeError _ => true
  | _ => false
  end.

Inductive outcome (A : Type) : Type :=
| Returned (a : A)
| Raised (e : exn).
Arguments Returned {A} a.
Arguments Raised {A} e.

Definition isinstance_str (v : pyval) : bool :=
  match v with
  | VStr _ | VStringVariable _ => true
  | _ => false
  end.

Definition isinstance_bytes (v : pyval) : bool :=
  match v with
  | VBytes _ | VBinaryVariable _ => true
  | _ => false
  end.

Definition is_none (v : pyval) : bool :=
  match v with
  | VNone => true
  | _ => false
  end.

(** ** base64 (the [binascii] codec behind [base64.b64encode] and
    [base64.b64decode]) *)

Module Base64.

Definition alphabet : string :=
  "ABCDEFGHIJKLMNOPQRSTUVWXYZabcdefghijklmnopqrstuvwxyz0123456789+/".

Definition pad : ascii := "="%char.

(** [table_b2a_base64] *)
Definition b2a (n : N) : ascii :=
  default pad (String.get (N.to_nat n) alphabet).

(** [table_a2b_base64]; [None] for a character outside the alphabet. *)
Definition a2b (c : ascii) : option N :=
  let n := N_of_ascii c in
  if ((65 <=? n) && (n <=? 90))%N then Some (n - 65)%N
  else if ((97 <=? n) && (n <=? 122))%N then Some (n - 71)%N
  else if ((48 <=? n) && (n <=? 57))%N then Some (n + 4)%N
  else if (n =? 43)%N then Some 62%N
  else if (n =? 47)%N then Some 63%N
  else None.

Definition byte_of (n : N) : byte := default x00 (Byte.of_N (n mod 256)).

(** [binascii.b2a_base64] without the trailing newline: three bytes give
    four characters, a short last group is padded. *)
Fixpoint b2a_base64 (bs : list byte) : list ascii :=
  match bs with
  | [] => []
  | [a] =>
      let a := Byte.to_N a in
      [b2a (a / 4); b2a ((a mod 4) * 16); pad; pad]%N
  | [a; b] =>
      let a := Byte.to_N a in
      let b := Byte.to_N b in
      [b2a (a / 4); b2a ((a mod 4) * 16 + b / 16);
       b2a ((b mod 16) * 4); pad]%N
  | a :: b :: c :: r =>
      let a := Byte.to_N a in
      let b := Byte.to_N b in
      let c := Byte.to_N c in
      [b2a (a / 4); b2a ((a mod 4) * 16 + b / 16);
       b2a ((b mod 16) * 4 + c / 64); b2a (c mod 64)]%N
      ++ b2a_base64 r
  end.

(** [binascii.a2b_base64] in its default, non-strict mode: characters
    outside the alphabet are skipped, a complete pad sequence ends the
    scan, and data left in an open quad is an error. *)
Fixpoint a2b_scan (cs : list ascii) (quad_pos : nat) (leftchar : N)
    (pads : nat) (out : list byte) : outcome (list byte) :=
  match cs with
  | [] =>
      match quad_pos with
      | O => Returned out
      | 1 => Raised (ValueError "Invalid base64-encoded string")
      | _ => Raised (ValueError "Incorrect padding")
      end
  | c :: r =>
      if bool_decide (c = pad) then
        if (2 <=? quad_pos)%nat then
          if (4 <=? quad_pos + S pads)%nat then Returned out
          else a2b_scan r quad_pos leftchar (S pads) out
        else a2b_scan r quad_pos leftchar pads out
      else
        match a2b c with
        | None => a2b_scan r quad_pos leftchar pads out
        | Some v =>
            match quad_pos with
            | 0 => a2b_scan r 1 v 0 out
            | 1 => a2b_scan r 2 (v mod 16)%N 0
                     (out ++ [byte_of (leftchar * 4 + v / 16)])
            | 2 => a2b_scan r 3 (v mod 4)%N 0
                     (out ++ [byte_of (leftchar * 16 + v / 4)])
            | _ => a2b_scan r 0 0%N 0
                     (out ++ [byte_of (leftchar * 64 + v)])
            end
        end
  end.

(** Every character of an encoding is an alphabet character or the pad. *)
Definition b64_char (c : ascii) : Prop :=
  (exists n, (n < 64)%N /\ c = b2a n) \/ c = pad.

Definition is_ascii_text (s : string) : bool :=
  forallb (fun c => (N_of_ascii c <? 128)%N) (PyStr.chars s).

(** [base64.b64encode(b)]; the result is ASCII bytes. *)
Definition b64encode (b : list byte) : list byte :=
  map byte_of_ascii (b2a_base64 b).

(** [base64.b64decode(s)] for a [str] argument, [validate=False]. *)
Definition b64decode (s : string) : outcome (list byte) :=
  if is_ascii_text s then a2b_scan (PyStr.chars s) 0 0 0 []
  else Raised (ValueError "string argument should contain only ASCII characters").

End Base64.

(** ** JSON (the [json] module: [json.dumps] with its defaults and
    [json.loads] with [object_pairs_hook=OrderedDict]) *)

Module Json.
Import PyStr.

Definition hex_digit (n : N) : ascii :=
  default "0"%char (String.get (N.to_nat n) "0123456789abcdef").

(** One character under [ensure_ascii]. *)
Definition escape_char (c : ascii) : list ascii :=
  let n := code c in
  if bool_decide (c = dquote) then [backslash; dquote]
  else if bool_decide (c = backslash) then [backslash; backslash]
  else if (n =? 10)%N then [backslash; "n"%char]
  else if (n =? 13)%N then [backslash; "r"%char]
  else if (n =? 9)%N then [backslash; "t"%char]
  else if (n =? 12)%N then [backslash; "f"%char]
  else if (n =? 8)%N then [backslash; "b"%char]
  else if ((32 <=? n) && (n <=? 126))%N then [c]
  else [backslash; "u"%char; "0"%char; "0"%char;
        hex_digit (n / 16); hex_digit (n mod 16)].

Definition encode_string (s : string) : list ascii :=
  dquote :: flat_map escape_char (chars s) ++ [dquote].

Definition not_serializable (type : string) : exn :=
  TypeError ("Object of type " +:+ type +:+ " is not JSON serializable").

Definition join_items (a b : outcome (list ascii)) : outcome (list ascii) :=
  match a, b with
  | Returned x, Returned [] => Returned x
  | Returned x, Returned y => Returned (x ++ chars ", " ++ y)
  | Raised e, _ => Raised e
  | _, Raised e => Raised e
  end.

Fixpoint dumps_chars (v : pyval) : outcome (list ascii) :=
  match v with
  | VNone => Returned (chars "null")
  | VBool true => Returned (chars "true")
  | VBool false => Returned (chars "false")
  | VInt z => Returned (chars (pretty z))
  | VFloat t => Returned (chars t)
  | VStr s | VStringVariable s => Returned (encode_string s)
  | VList l =>
      match (fix items (l : list pyval) : outcome (list ascii) :=
               match l with
               | [] => Returned []
               | x :: r => join_items (dumps_chars x) (items r)
               end) l with
      | Returned body => Returned ("["%char :: body ++ ["]"%char])
      | Raised e => Raised e
      end
  | VDict d =>
      match (fix items (d : list (string * pyval)) : outcome (list ascii) :=
               match d with
               | [] => Returned []
               | (k, x) :: r =>
                   join_items
                     (match dumps_chars x with
                      | Returned t => Returned (encode_string k ++ chars ": " ++ t)
                      | Raised e => Raised e
                      end)
                     (items r)
               end) d with
      | Returned body => Returned ("{"%char :: body ++ ["}"%char])
      | Raised e => Raised e
      end
  | VBytes _ | VBinaryVariable _ => Raised (not_serializable "bytes")
  | VModel _ => Raised (not_serializable "BaseModel")
  | VSensitive _ => Raised (not_serializable "Sensitive")
  end.

(** [json.dumps(value)] *)
Definition dumps (v : pyval) : outcome string :=
  match dumps_chars v with
  | Returned cs => Returned (text cs)
  | Raised e => Raised e
  end.

(** *** Decoding *)

Definition is_ws (c : ascii) : bool :=
  let n := code c in ((n =? 32) || (n =? 9) || (n =? 10) || (n =? 13))%N.

Fixpoint skip_ws (cs : list ascii) : list ascii :=
  match cs with
  | c :: r => if is_ws c then skip_ws r else cs
  | [] => []
  end.

Definition is_digit (c : ascii) : bool :=
  let n := code c in ((48 <=? n) && (n <=? 57))%N.

Definition hex_value (c : ascii) : option N :=
  let n := code c in
  if ((48 <=? n) && (n <=? 57))%N then Some (n - 48)%N
  else if ((97 <=? n) && (n <=? 102))%N then Some (n - 87)%N
  else if ((65 <=? n) && (n <=? 70))%N then Some (n - 55)%N
  else None.

Definition decode_error (msg : string) : exn := ValueError msg.

Definition simple_escape (e : ascii) : option ascii :=
  if bool_decide (e = dquote) then Some dquote
  else if bool_decide (e = backslash) then Some backslash
  else if bool_decide (e = "/"%char) then Some "/"%char
  else if bool_decide (e = "b"%char) then Some "008"%char
  else if bool_decide (e = "f"%char) then Some "012"%char
  else if bool_decide (e = "n"%char) then Some "010"%char
  else if bool_decide (e = "r"%char) then Some "013"%char
  else if bool_decide (e = "t"%char) then Some "009"%char
  else None.

(** The body of a string literal, after its opening quote (strict mode:
    a raw control character is an error). *)
Fixpoint scan_string (cs : list ascii) : outcome (list ascii * list ascii) :=
  let cons c r :=
    match r with
    | Returned (s, rest) => Returned (c :: s, rest)
    | Raised e => Raised e
    end in
  match cs with
  | [] => Raised (decode_error "Unterminated string starting at")
  | c :: r =>
      if bool_decide (c = dquote) then Returned ([], r)
      else if bool_decide (c = backslash) then
        match r with
        | [] => Raised (decode_error "Unterminated string starting at")
        | e :: r' =>
            if bool_decide (e = "u"%char) then
              match r' with
              | h1 :: h2 :: h3 :: h4 :: r'' =>
                  match hex_value h1, hex_value h2, hex_value h3, hex_value h4 with
                  | Some a, Some b, Some c', Some d =>
                      let n := (((a * 16 + b) * 16 + c') * 16 + d)%N in
                      if (n <? 256)%N then cons (ascii_of_N n) (scan_string r'')
                      else Raised (Unmodelled "code point above 255")
                  | _, _, _, _ => Raised (decode_error "Invalid \uXXXX escape")
                  end
              | _ => Raised (decode_error "Invalid \uXXXX escape")
              end
            else
              match simple_escape e with
              | Some x => cons x (scan_string r')
              | None => Raised (decode_error "Invalid \escape")
              end
        end
      else if (code c <? 32)%N then
        Raised (decode_error "Invalid control character at")
      else cons c (scan_string r)
  end.

Fixpoint span_digits (cs : list ascii) : list ascii * list ascii :=
  match cs with
  | c :: r =>
      if is_digit c then let '(d, rest) := span_digits r in (c :: d, rest)
      else ([], cs)
  | [] => ([], [])
  end.

Definition digits_value (ds : list ascii) : Z :=
  fold_left (fun acc c => (acc * 10 + Z.of_N (code c - 48))%Z) ds 0%Z.

(** The number pattern: an optional minus, an integer part without a
    leading zero, an optional fraction, an optional exponent. *)
Definition scan_number (cs : list ascii) : option (pyval * list ascii) :=
  let '(sign, r0) :=
    match cs with
    | "-"%char :: r => (["-"%char], r)
    | _ => ([], cs)
    end in
  let int_part :=
    match r0 with
    | "0"%char :: r => Some (["0"%char], r)
    | c :: _ => if is_digit c then Some (span_digits r0) else None
    | [] => None
    end in
  match int_part with
  | None => None
  | Some (ds, r1) =>
      let '(frac, r2) :=
        match r1 with
        | "."%char :: r =>
            match span_digits r with
            | ([], _) => ([], r1)
            | (fd, rest) => ("."%char :: fd, rest)
            end
        | _ => ([], r1)
        end in
      let '(expo, r3) :=
        match r2 with
        | e :: r =>
            if bool_decide (e = "e"%char) || bool_decide (e = "E"%char) then
              let '(sg, r') :=
                match r with
                | s :: r' =>
                    if bool_decide (s = "-"%char) || bool_decide (s = "+"%char)
                    then ([s], r') else ([], r)
                | [] => ([], r)
                end in
              match span_digits r' with
              | ([], _) => ([], r2)
              | (ed, rest) => (e :: sg ++ ed, rest)
              end
            else ([], r2)
        | [] => ([], r2)
        end in
      match frac, expo with
      | [], [] =>
          Some (VInt (match sign with
                      | [] => digits_value ds
                      | _ => - digits_value ds
                      end)%Z, r3)
      | _, _ => Some (VFloat (text (sign ++ ds ++ frac ++ expo)), r3)
      end
  end.

(** [OrderedDict(pairs)]: a repeated key keeps its first position and
    takes the last value. *)
Fixpoint dict_set (d : list (string * pyval)) (k : string) (v : pyval)
  : list (string * pyval) :=
  match d with
  | [] => [(k, v)]
  | (k', v') :: r =>
      if bool_decide (k' = k) then (k, v) :: r else (k', v') :: dict_set r k v
  end.

Definition strip_prefix (p : string) (cs : list ascii) : option (list ascii) :=
  if starts_with (chars p) cs then Some (drop (String.length p) cs) else None.

Fixpoint scan_value (fuel : nat) (cs : list ascii)
  : outcome (pyval * list ascii) :=
  match fuel with
  | O => Raised RecursionDepth
  | S fuel =>
      match cs with
      | [] => Raised (decode_error "Expecting value")
      | c :: r =>
          if bool_decide (c = dquote) then
            match scan_string r with
            | Returned (s, rest) => Returned (VStr (text s), rest)
            | Raised e => Raised e
            end
          else if bool_decide (c = "{"%char) then
            match skip_ws r with
            | "}"%char :: rest => Returned (VDict [], rest)
            | r' => scan_members fuel r' []
            end
          else if bool_decide (c = "["%char) then
            match skip_ws r with
            | "]"%char :: rest => Returned (VList [], rest)
            | r' => scan_items fuel r' []
            end
          else
            match strip_prefix "null" cs, strip_prefix "true" cs,
                  strip_prefix "false" cs with
            | Some rest, _, _ => Returned (VNone, rest)
            | _, Some rest, _ => Returned (VBool true, rest)
            | _, _, Some rest => Returned (VBool false, rest)
            | _, _, _ =>
                match scan_number cs with
                | Some res => Returned res
                | None =>
                    match strip_prefix "NaN" cs, strip_prefix "Infinity" cs,
                          strip_prefix "-Infinity" cs with
                    | Some rest, _, _ => Returned (VFloat "nan", rest)
                    | _, Some rest, _ => Returned (VFloat "inf", rest)
                    | _, _, Some rest => Returned (VFloat "-inf", rest)
                    | _, _, _ => Raised (decode_error "Expecting value")
                    end
                end
            end
      end
  end
with scan_items (fuel : nat) (cs : list ascii) (acc : list pyval)
  : outcome (pyval * list ascii) :=
  match fuel with
  | O => Raised RecursionDepth
  | S fuel =>
      match scan_value fuel cs with
      | Raised e => Raised e
      | Returned (v, r) =>
          match skip_ws r with
          | "]"%char :: rest => Returned (VList (acc ++ [v]), rest)
          | ","%char :: rest => scan_items fuel (skip_ws rest) (acc ++ [v])
          | _ => Raised (decode_error "Expecting ',' delimiter")
          end
      end
  end
with scan_members (fuel : nat) (cs : list ascii) (acc : list (string * pyval))
  : outcome (pyval * list ascii) :=
  match fuel with
  | O => Raised RecursionDepth
  | S fuel =>
      match cs with
      | c :: r =>
          if bool_decide (c = dquote) then
            match scan_string r with
            | Raised e => Raised e
            | Returned (k, r1) =>
                match skip_ws r1 with
                | ":"%char :: r2 =>
                    match scan_value fuel (skip_ws r2) with
                    | Raised e => Raised e
                    | Returned (v, r3) =>
                        let acc' := dict_set acc (text k) v in
                        match skip_ws r3 with
                        | "}"%char :: rest => Returned (VDict acc', rest)
                        | ","%char :: rest =>
                            scan_members fuel (skip_ws rest) acc'
                        | _ => Raised (decode_error "Expecting ',' delimiter")
                        end
                    end
                | _ => Raised (decode_error "Expecting ':' delimiter")
                end
            end
          else Raised (decode_error
                 "Expecting property name enclosed in double quotes")
      | [] => Raised (decode_error
                "Expecting property name enclosed in double quotes")
      end
  end.

(** [JSONDecoder.decode]: one value between optional whitespace. *)
Definition decode (s : string) : outcome pyval :=
  let cs := skip_ws (chars s) in
  match scan_value (S (length cs)) cs with
  | Raised e => Raised e
  | Returned (v, rest) =>
      match skip_ws rest with
      | [] => Returned v
      | _ => Raised (decode_error "Extra data")
      end
  end.

End Json.

(** ** Text codecs and built-ins *)

Module Builtin.
Import PyStr.

Definition cons_char (c : ascii) (r : outcome (list ascii))
  : outcome (list ascii) :=
  match r with
  | Returned s => Returned (c :: s)
  | Raised e => Raised e
  end.

(** [b.decode('utf-8')], for text whose code points stay below 256. *)
Fixpoint utf8_chars (bs : list byte) : outcome (list ascii) :=
  match bs with
  | [] => Returned []
  | b :: r =>
      let n := Byte.to_N b in
      if (n <? 128)%N then cons_char (ascii_of_byte b) (utf8_chars r)
      else if (n <? 194)%N then
        Raised (UnicodeDecodeError "invalid start byte")
      else if (n <? 196)%N then
        match r with
        | b2 :: r' =>
            let m := Byte.to_N b2 in
            if ((128 <=? m) && (m <? 192))%N
            then cons_char (ascii_of_N ((n - 192) * 64 + (m - 128)))
                           (utf8_chars r')
            else Raised (UnicodeDecodeError "invalid continuation byte")
        | [] => Raised (UnicodeDecodeError "unexpected end of data")
        end
      else if (n <? 245)%N then Raised (Unmodelled "code point above 255")
      else Raised (UnicodeDecodeError "invalid start byte")
  end.

Definition decode_utf8 (bs : list byte) : outcome string :=
  match utf8_chars bs with
  | Returned cs => Returned (text cs)
  | Raised e => Raised e
  end.

(** [b.decode('latin-1')] *)
Definition decode_latin1 (bs : list byte) : string :=
  text (map ascii_of_byte bs).

(** [str(b)] for a [bool]. *)
Definition str_bool (b : bool) : string := if b then "True" else "False".

(** [type(v)] as an f-string prints it. *)
Definition type_repr (v : pyval) : string :=
  "<class '" +:+
  match v with
  | VNone => "NoneType"
  | VBool _ => "bool"
  | VInt _ => "int"
  | VFloat _ => "float"
  | VStr _ => "str"
  | VBytes _ => "bytes"
  | VList _ => "list"
  | VDict _ => "dict"
  | VModel _ => "pydantic.main.BaseModel"
  | VSensitive _ => "tcex.input.field_type.sensitive.Sensitive"
  | VStringVariable _ => "tcex.util.variable.StringVariable"
  | VBinaryVariable _ => "tcex.util.variable.BinaryVariable"
  end +:+ "'>".

(** [isinstance(v, Iterable)] *)
Definition is_iterable (v : pyval) : bool :=
  match v with
  | VList _ | VStr _ | VStringVariable _ | VBytes _ | VBinaryVariable _
  | VDict _ | VModel _ => true
  | _ => false
  end.

(** The elements a [for] loop over [v] visits. A pydantic model yields
    (name, value) pairs; a pair is carried as a two-element list, which
    the code of this development treats exactly as a tuple. *)
Definition iterate (v : pyval) : outcome (list pyval) :=
  match v with
  | VList l => Returned l
  | VStr s | VStringVariable s =>
      Returned (map (fun c => VStr (String c EmptyString)) (chars s))
  | VBytes b | VBinaryVariable b =>
      Returned (map (fun x => VInt (Z.of_N (Byte.to_N x))) b)
  | VDict d => Returned (map (fun kv => VStr (fst kv)) d)
  | VModel f => Returned (map (fun kv => VList [VStr (fst kv); snd kv]) f)
  | _ => Raised (TypeError (type_repr v +:+ " object is not iterable"))
  end.

Fixpoint dict_get (d : list (string * pyval)) (k : string) : option pyval :=
  match d with
  | [] => None
  | (k', v) :: r => if bool_decide (k' = k) then Some v else dict_get r k
  end.

(** [json.loads(value, object_pairs_hook=OrderedDict)]: text is decoded
    directly; bytes are first decoded with the encoding their first bytes
    announce, of which only UTF-8 without a byte order mark is modelled. *)
Definition json_loads (value : pyval) : outcome pyval :=
  match value with
  | VStr s | VStringVariable s => Json.decode s
  | VBytes b | VBinaryVariable b =>
      let other_encoding :=
        match map Byte.to_N b with
        | n0 :: rest =>
            ((n0 =? 0) || (n0 =? 239) || (n0 =? 254) || (n0 =? 255)
             || match rest with n1 :: _ => (n1 =? 0) | [] => false end)%N
        | [] => false
        end in
      if other_encoding then Raised (Unmodelled "JSON bytes not in UTF-8")
      else
        match decode_utf8 b with
        | Returned s => Json.decode s
        | Raised e => Raised e
        end
  | _ => Raised (TypeError ("the JSON object must be str, bytes or bytearray, not "
                            +:+ type_repr value))
  end.

End Builtin.

(** The Python name of the type of text. *)
Abbreviation str := String.string (only parsing).

(** ** Collaborators *)

(** [PlaybookVariableModel]: the parts of a variable
    [#App:1234:app.output!String]. *)
Record PlaybookVariableModel : Type := {
  model_app_type : string;
  model_job_id : string;
  model_key : string;
  model_type : string
}.

(** What the code reads off a regular expression match object:
    [group(0)], [group('origin')] and [group('type')]. *)
Record Match : Type := {
  group0 : string;
  group_origin : string;
  group_type : option string
}.

(** [tcex.util.Util], as far as the two classes call it. *)
Class Util : Type := {
  is_playbook_variable : pyval -> bool;
  get_playbook_variable_type : string -> string;
  get_playbook_variable_model : string -> option PlaybookVariableModel;
  (** [re.finditer(util.variable_expansion_pattern, s)] *)
  variable_expansion_finditer : string -> list Match;
  (** [re.match(util.variable_playbook_match, s)] found a match *)
  variable_playbook_match : string -> bool
}.

(** [registry.inputs] and the built-in [str] on values whose text this
    development does not spell out (containers, bytes, [Sensitive]). *)
Class Host : Type := {
  resolve_variable : string -> outcome pyval;
  str_other : pyval -> string;
  (** [os.getenv] *)
  getenv : string -> option string
}.

(** The key value store: its client, and the Redis connection the null
    shadow write goes through. *)
Class KeyValueStore : Type := {
  kv_state : Type;
  client_create : string -> string -> pyval -> kv_state -> outcome pyval * kv_state;
  client_read : string -> string -> kv_state -> outcome pyval * kv_state;
  redis_client_hset : string -> string -> pyval -> kv_state -> outcome pyval * kv_state;
  (** [isinstance(key_value_store.client, KeyValueRedis)] *)
  client_is_KeyValueRedis : bool
}.

(** ** The monad of a method *)

Inductive Call : Type :=
| CallCreate (context key : string) (value : pyval)
| CallRead (context key : string)
| CallHset (context key : string) (value : pyval).

Record World `{KeyValueStore} : Type := {
  store : kv_state;
  calls : list Call
}.

Definition M `{KeyValueStore} (A : Type) : Type := World -> outcome A * World.

Section Monad.
Context `{KeyValueStore}.

Definition ret {A} (a : A) : M A := fun w => (Returned a, w).

Definition raise {A} (e : exn) : M A := fun w => (Raised e, w).

Definition bind {A B} (m : M A) (k : A -> M B) : M B :=
  fun w =>
    match m w with
    | (Returned a, w') => k a w'
    | (Raised e, w') => (Raised e, w')
    end.

(** A pure computation that may raise. *)
Definition lift {A} (o : outcome A) : M A := fun w => (o, w).

(** [try: m  except RuntimeError: h] *)
Definition except_RuntimeError {A} (m : M A) (h : M A) : M A :=
  fun w =>
    match m w with
    | (Raised e, w') => if is_RuntimeError e then h w' else (Raised e, w')
    | r => r
    end.

Definition call_create (context key : string) (value : pyval) : M pyval :=
  fun w =>
    let '(r, s) := client_create context key value (store w) in
    (r, {| store := s; calls := calls w ++ [CallCreate context key value] |}).

Definition call_read (context key : string) : M pyval :=
  fun w =>
    let '(r, s) := client_read context key (store w) in
    (r, {| store := s; calls := calls w ++ [CallRead context key] |}).

Definition call_hset (context key : string) (value : pyval) : M pyval :=
  fun w =>
    let '(r, s) := redis_client_hset context key value (store w) in
    (r, {| store := s; calls := calls w ++ [CallHset context key value] |}).

(** [for x in xs: body], threading an accumulator. *)
Fixpoint for_each {A B} (xs : list A) (acc : B) (body : B -> A -> M B) : M B :=
  match xs with
  | [] => ret acc
  | x :: r => bind (body acc x) (fun acc' => for_each r acc' body)
  end.

End Monad.

Notation "'do' x <- m ; k" := (bind m (fun x => k))
  (at level 10, x name, m at level 100, k at level 200,
   format "'[v' 'do'  x  <-  m ; '/' k ']'").
Notation "'run' m ; k" := (bind m (fun _ => k))
  (at level 10, m at level 100, k at level 200,
   format "'[v' 'run'  m ; '/' k ']'").

(** ** playbook_create.py *)

Module PlaybookCreate.
Import PyStr Builtin.

(** The instance: [self.context] and [self.output_variables]; the store
    [self.key_value_store] is the [KeyValueStore] in scope. *)
Record t : Type := {
  context : string;
  output_variables : list string
}.

Section Methods.
Context `{Util} `{Host} `{KeyValueStore}.
Variable self : t.

(** [str(value)] *)
Definition py_str (value : pyval) : str :=
  match value with
  | VStr s | VStringVariable s => s
  | VBool b => str_bool b
  | VInt z => pretty z
  | VFloat t => t
  | VNone => "None"
  | _ => str_other value
  end.

(** The text of an exception inside an f-string. *)
Definition exn_text (e : exn) : str :=
  match e with
  | RuntimeError m | TypeError m | ValueError m | UnicodeDecodeError m
  | OtherError m | Unmodelled m => m
  | KeyError k => "'" +:+ k +:+ "'"
  | RecursionDepth => "maximum recursion depth exceeded"
  end.

(** A key as a Python value: [None] or a [str]. *)
Definition key_value_of (key : option str) : pyval :=
  match key with
  | Some k => VStr k
  | None => VNone
  end.

(** An optional [str] inside an f-string. *)
Definition fmt (s : option str) : str :=
  match s with
  | Some s => s
  | None => "None"
  end.

Definition _check_iterable (value : pyval) (validate : bool) : M unit :=
  if validate
     && (match value with
         | VDict _ | VStr _ | VStringVariable _ => true
         | _ => false
         end || negb (is_iterable value))
  then raise (RuntimeError "Invalid data provided for KeyValueArray.")
  else ret tt.

(** The loop of [_get_variable] over the requested output variables. *)
Fixpoint lookup_requested (key : option str) (variable_type : option str)
    (outputs : list str) : option str :=
  match outputs with
  | [] => None
  | output_variable :: rest =>
      match get_playbook_variable_model output_variable with
      | Some variable_model =>
          if bool_decide (Some (model_key variable_model) = key)
             && match variable_type with
                | None => true
                | Some ty => bool_decide (model_type variable_model = ty)
                end
          then Some output_variable
          else lookup_requested key variable_type rest
      | None => lookup_requested key variable_type rest
      end
  end.

Definition _get_variable (key : option str) (variable_type : option str)
  : option str :=
  if negb (is_playbook_variable (key_value_of key))
  then lookup_requested key variable_type (output_variables self)
  else key.

Definition _check_null (key : option str) (value : pyval) : M bool :=
  let invalid := match key with None => true | Some _ => false end in
  if is_none value then
    if match getenv "TC_PLAYBOOK_WRITE_NULL" with Some _ => true | None => false end
       && client_is_KeyValueRedis
    then
      let variable := _get_variable key None in
      run call_hset (context self) (fmt variable +:+ "_NULL_VALIDATION")
                    (VStr EmptyString);
      ret true
    else ret true
  else ret invalid.

Definition is_requested (variable : str) : bool :=
  bool_decide (variable ∈ output_variables self).

Definition _check_requested (variable : str) (when_requested : bool) : bool :=
  if when_requested && negb (is_requested variable) then false else true.

Definition _check_variable_type (variable : str) (type_ : str) : M unit :=
  if negb (bool_decide (lower (get_playbook_variable_type variable) = lower type_))
  then raise (RuntimeError ("Invalid variable provided (" +:+ variable
                            +:+ "), variable must be of type " +:+ type_ +:+ "."))
  else ret tt.

Definition _coerce_string_value (value : pyval) : pyval :=
  match value with
  | VBool b => VStr (lower (str_bool b))
  | VInt z => VStr (pretty z)
  | VFloat t => VStr t
  | _ => value
  end.

Definition _create_data (key : str) (value : pyval) : M pyval :=
  except_RuntimeError
    (call_create (context self) (strip key) value)
    (ret VNone).

(** [json.dumps] raises no [ValueError] on a [pyval] (no value contains
    itself), so the handler of the source has nothing to catch. *)
Definition _serialize_data (value : pyval) : M pyval :=
  match Json.dumps value with
  | Returned s => ret (VStr s)
  | Raised e =>
      if is_ValueError e
      then raise (RuntimeError ("Invalid data provided, failed to serialize value ("
                                +:+ exn_text e +:+ ")."))
      else raise e
  end.

Definition _process_object_types (value : pyval) (validate allow_none : bool)
  : M pyval :=
  let in_types :=
    match value with
    | VModel _ | VDict _ => true
    | VNone => allow_none
    | _ => false
    end in
  if validate && negb in_types
  then raise (RuntimeError ("Invalid type provided for object type ("
                            +:+ type_repr value +:+ ")."))
  else
    match value with
    | VModel fields => ret (VDict fields)
    | _ => ret value
    end.

Definition has_keys (d : list (str * pyval)) (keys : list str) : bool :=
  forallb (fun x => match dict_get d x with Some _ => true | None => false end) keys.

Definition is_key_value (data : pyval) : bool :=
  match data with
  | VDict d => has_keys d ["key"; "value"]
  | _ => false
  end.

Definition is_list (v : pyval) : bool :=
  match v with
  | VList _ => true
  | _ => false
  end.

Definition is_tc_batch (data : pyval) : bool :=
  match data with
  | VDict d =>
      if negb (is_list (default (VList []) (dict_get d "indicator"))) then false
      else is_list (default (VList []) (dict_get d "group"))
  | _ => false
  end.

Definition is_tc_entity (data : pyval) : bool :=
  match data with
  | VDict d => has_keys d ["id"; "value"; "type"]
  | _ => false
  end.

(** [base64.b64encode(value).decode('utf-8')] *)
Definition b64_text (value : pyval) : M pyval :=
  match value with
  | VBytes b | VBinaryVariable b =>
      match decode_utf8 (Base64.b64encode b) with
      | Returned s => ret (VStr s)
      | Raised e => raise e
      end
  | _ => raise (TypeError ("a bytes-like object is required, not "
                           +:+ type_repr value))
  end.

(** The steps every typed write starts with, after the null check and, for
    the array types, the iterable check: resolve the key, drop what was not
    requested, verify the type tag. [None] stands for [return None]. *)
Definition resolve_for_write (key : option str) (type_ : str)
    (when_requested : bool) (body : str -> M pyval) : M pyval :=
  match _get_variable key (Some type_) with
  | None => ret VNone
  | Some variable =>
      if negb (_check_requested variable when_requested) then ret VNone
      else
        run _check_variable_type variable type_;
        body variable
  end.

Definition binary (key : option str) (value : pyval)
    (validate when_requested : bool) : M pyval :=
  do null <- _check_null key value;
  if null then ret VNone else
  resolve_for_write key "Binary" when_requested (fun variable =>
    if validate && negb (isinstance_bytes value)
    then raise (RuntimeError "Invalid data provided for Binary.")
    else
      do value_ <- b64_text value;
      do value_ <- _serialize_data value_;
      _create_data variable value_).

Definition binary_array (key : option str) (value : pyval)
    (validate when_requested : bool) : M pyval :=
  do null <- _check_null key value;
  if null then ret VNone else
  run _check_iterable value validate;
  resolve_for_write key "BinaryArray" when_requested (fun variable =>
    do items <- lift (iterate value);
    do value_encoded <- for_each items [] (fun acc v =>
      if is_none v then ret (acc ++ [v])
      else if validate && negb (isinstance_bytes v)
      then raise (RuntimeError "Invalid data provided for Binary.")
      else do v_ <- b64_text v; ret (acc ++ [v_]));
    do data <- _serialize_data (VList value_encoded);
    _create_data variable data).

Definition key_value (key : option str) (value : pyval)
    (validate when_requested : bool) : M pyval :=
  do null <- _check_null key value;
  if null then ret VNone else
  resolve_for_write key "KeyValue" when_requested (fun variable =>
    do value <- _process_object_types value validate false;
    if validate && negb (is_key_value value)
    then raise (RuntimeError "Invalid data provided for KeyValueArray.")
    else
      do data <- _serialize_data value;
      _create_data variable data).

Definition key_value_array (key : option str) (value : pyval)
    (validate when_requested : bool) : M pyval :=
  do null <- _check_null key value;
  if null then ret VNone else
  run _check_iterable value validate;
  resolve_for_write key "KeyValueArray" when_requested (fun variable =>
    do items <- lift (iterate value);
    do _value <- for_each items [] (fun acc v =>
      do v_ <- _process_object_types v validate true;
      if validate && negb (is_key_value v_)
      then raise (RuntimeError "Invalid data provided for KeyValueArray.")
      else ret (acc ++ [v_]));
    do data <- _serialize_data (VList _value);
    _create_data variable data).

Definition string (key : option str) (value : pyval)
    (validate when_requested : bool) : M pyval :=
  do null <- _check_null key value;
  if null then ret VNone else
  resolve_for_write key "String" when_requested (fun variable =>
    let value := _coerce_string_value value in
    if validate && negb (isinstance_str value)
    then raise (RuntimeError ("Invalid data provided for String ("
                              +:+ py_str value +:+ ")."))
    else
      do data <- _serialize_data value;
      _create_data variable data).

Definition string_array (key : option str) (value : pyval)
    (validate when_requested : bool) : M pyval :=
  do null <- _check_null key value;
  if null then ret VNone else
  run _check_iterable value validate;
  resolve_for_write key "StringArray" when_requested (fun variable =>
    do items <- lift (iterate value);
    do value_coerced <- for_each items [] (fun acc v =>
      let v_ := _coerce_string_value v in
      if validate && negb (is_none v_ || isinstance_str v_)
      then raise (RuntimeError "Invalid data provided for StringArray.")
      else ret (acc ++ [v_]));
    do data <- _serialize_data (VList value_coerced);
    _create_data variable data).

Definition raw (key : option str) (value : pyval)
    (_validate _when_requested : bool) : M pyval :=
  do null <- _check_null key value;
  if null then ret VNone else
  match key with
  | Some key => _create_data key value
  | None => ret VNone
  end.

Definition tc_batch (key : option str) (value : pyval)
    (validate when_requested : bool) : M pyval :=
  do null <- _check_null key value;
  if null then ret VNone else
  resolve_for_write key "TCBatch" when_requested (fun variable =>
    do value <- _process_object_types value validate false;
    if validate && negb (is_tc_batch value)
    then raise (RuntimeError "Invalid data provided for TcBatch.")
    else
      do data <- _serialize_data value;
      _create_data variable data).

Definition tc_entity (key : option str) (value : pyval)
    (validate when_requested : bool) : M pyval :=
  do null <- _check_null key value;
  if null then ret VNone else
  resolve_for_write key "TCEntity" when_requested (fun variable =>
    do value <- _process_object_types value validate false;
    if validate && negb (is_tc_entity value)
    then raise (RuntimeError "Invalid data provided for TcEntityArray.")
    else
      do data <- _serialize_data value;
      _create_data variable data).

Definition tc_entity_array (key : option str) (value : pyval)
    (validate when_requested : bool) : M pyval :=
  do null <- _check_null key value;
  if null then ret VNone else
  run _check_iterable value validate;
  resolve_for_write key "TCEntityArray" when_requested (fun variable =>
    do items <- lift (iterate value);
    do _value <- for_each items [] (fun acc v =>
      do v_ <- _process_object_types v validate true;
      if validate && negb (is_tc_entity v_)
      then raise (RuntimeError "Invalid data provided for TcEntityArray.")
      else ret (acc ++ [v_]));
    do data <- _serialize_data (VList _value);
    _create_data variable data).

(** The nine typed write operations, one per wire type. *)
Inductive typed_op : Type :=
| OpBinary | OpBinaryArray | OpKeyValue | OpKeyValueArray | OpString
| OpStringArray | OpTCBatch | OpTCEntity | OpTCEntityArray.

Definition op_type (op : typed_op) : str :=
  match op with
  | OpBinary => "Binary"
  | OpBinaryArray => "BinaryArray"
  | OpKeyValue => "KeyValue"
  | OpKeyValueArray => "KeyValueArray"
  | OpString => "String"
  | OpStringArray => "StringArray"
  | OpTCBatch => "TCBatch"
  | OpTCEntity => "TCEntity"
  | OpTCEntityArray => "TCEntityArray"
  end.

Definition op_is_array (op : typed_op) : bool :=
  match op with
  | OpBinaryArray | OpKeyValueArray | OpStringArray | OpTCEntityArray => true
  | _ => false
  end.

Definition write (op : typed_op)
  : option str -> pyval -> bool -> bool -> M pyval :=
  match op with
  | OpBinary => binary
  | OpBinaryArray => binary_array
  | OpKeyValue => key_value
  | OpKeyValueArray => key_value_array
  | OpString => string
  | OpStringArray => string_array
  | OpTCBatch => tc_batch
  | OpTCEntity => tc_entity
  | OpTCEntityArray => tc_entity_array
  end.

(** [variable_type_map.get(variable_type, self.raw)] *)
Definition variable_type_map (variable_type : str)
  : option str -> pyval -> bool -> bool -> M pyval :=
  if bool_decide (variable_type = "binary") then binary
  else if bool_decide (variable_type = "binaryarray") then binary_array
  else if bool_decide (variable_type = "keyvalue") then key_value
  else if bool_decide (variable_type = "keyvaluearray") then key_value_array
  else if bool_decide (variable_type = "string") then string
  else if bool_decide (variable_type = "stringarray") then string_array
  else if bool_decide (variable_type = "tcentity") then tc_entity
  else if bool_decide (variable_type = "tcentityarray") then tc_entity_array
  else if bool_decide (variable_type = "tcbatch") then tc_batch
  else raw.

Definition any (key : option str) (value : pyval) (validate : bool)
    (variable_type : option str) (when_requested : bool) : M pyval :=
  do null <- _check_null key value;
  if null then ret VNone else
  match _get_variable key variable_type with
  | None => ret VNone
  | Some variable =>
      if negb (_check_requested variable when_requested) then ret VNone
      else
        let variable_type := lower (get_playbook_variable_type variable) in
        variable_type_map variable_type (Some variable) value validate
                          when_requested
  end.

Definition variable (key : option str) (value : pyval)
    (variable_type : option str) : M pyval :=
  do null <- _check_null key value;
  if null then ret VNone else
  match output_variables self with
  | [] => ret VNone
  | _ =>
      match _get_variable key variable_type with
      | None => ret VNone
      | Some variable =>
          if negb (bool_decide (variable ∈ output_variables self))
          then ret VNone
          else any (Some variable) value true None true
      end
  end.

End Methods.
End PlaybookCreate.

(** ** playbook_read.py *)

Module PlaybookRead.
Import PyStr Builtin.

(** The instance: [self.context]; the store [self.key_value_store] is the
    [KeyValueStore] in scope. *)
Record t : Type := {
  context : string
}.

Section Methods.
Context `{Util} `{Host} `{KeyValueStore}.
Variable self : t.

(** [str(value)] *)
Definition py_str (value : pyval) : str :=
  match value with
  | VStr s | VStringVariable s => s
  | VBool b => str_bool b
  | VInt z => pretty z
  | VFloat t => t
  | VNone => "None"
  | _ => str_other value
  end.

(** The text of an exception inside an f-string. *)
Definition exn_text (e : exn) : str :=
  match e with
  | RuntimeError m | TypeError m | ValueError m | UnicodeDecodeError m
  | OtherError m | Unmodelled m => m
  | KeyError k => "'" +:+ k +:+ "'"
  | RecursionDepth => "maximum recursion depth exceeded"
  end.

Definition _check_variable_type (variable : str) (type_ : str) : M unit :=
  if negb (bool_decide (lower (get_playbook_variable_type variable) = lower type_))
  then raise (RuntimeError ("Invalid variable provided (" +:+ variable
                            +:+ "), variable must be of type " +:+ type_ +:+ "."))
  else ret tt.

Definition _coerce_string_value (value : pyval) : pyval :=
  match value with
  | VBool b => VStr (lower (str_bool b))
  | VInt z => VStr (pretty z)
  | VFloat t => VStr t
  | _ => value
  end.

Definition _decode_binary (data : list byte) : M pyval :=
  match decode_utf8 data with
  | Returned s => ret (VStr s)
  | Raised (UnicodeDecodeError _) => ret (VStr (decode_latin1 data))
  | Raised e => raise e
  end.

Definition _deserialize_data (value : pyval) : M pyval :=
  match json_loads value with
  | Returned v => ret v
  | Raised e =>
      if is_ValueError e
      then raise (RuntimeError
                    ("Failed to JSON load data " +:+ String dquote (py_str value)
                     +:+ String dquote (" (" +:+ exn_text e +:+ ").")))
      else raise e
  end.

(** The static [_load_data]: the same decoding of a text, not called by
    any method. *)
Definition _load_data (value : str) : M pyval := _deserialize_data (VStr value).

Definition _get_data (key : str) : M pyval :=
  except_RuntimeError (call_read (context self) (strip key)) (ret VNone).

Definition _null_key_check (key : option str) : bool :=
  match key with
  | None => true
  | Some _ => false
  end.

(** [re.sub(r'(?<!\\)\\s', ' ', string)]: a backslash followed by [s] and
    not preceded by a backslash becomes one space. [after_backslash] tells
    whether the character before [cs] in the subject is a backslash. *)
Fixpoint sub_space (after_backslash : bool) (cs : list ascii) : list ascii :=
  match cs with
  | [] => []
  | c :: r =>
      match r with
      | c2 :: r' =>
          if bool_decide (c = backslash) && bool_decide (c2 = "s"%char)
             && negb after_backslash
          then " "%char :: sub_space false r'
          else c :: sub_space (bool_decide (c = backslash)) r
      | [] => [c]
      end
  end.

(** [re.sub(r'\\\\s', r'\\s', string)]: two backslashes followed by [s]
    become one backslash followed by [s]. *)
Fixpoint sub_escaped (cs : list ascii) : list ascii :=
  match cs with
  | [] => []
  | c :: r =>
      match r with
      | c2 :: c3 :: r' =>
          if bool_decide (c = backslash) && bool_decide (c2 = backslash)
             && bool_decide (c3 = "s"%char)
          then backslash :: "s"%char :: sub_escaped r'
          else c :: sub_escaped r
      | _ => c :: sub_escaped r
      end
  end.

Definition _process_space_patterns (string : str) : str :=
  let string := text (sub_space false (chars string)) in
  text (sub_escaped (chars string)).

Definition _to_array (value : pyval) : pyval :=
  match value with
  | VNone => VList []
  | VList _ => value
  | _ => VList [value]
  end.

(** [data['value']] *)
Definition get_value (data : pyval) : M pyval :=
  match data with
  | VDict d =>
      match dict_get d "value" with
      | Some v => ret v
      | None => raise (KeyError "value")
      end
  | _ => raise (TypeError (type_repr data +:+ " object is not subscriptable"))
  end.

(** [data['value'] = v], for a [data] that [get_value] accepted. *)
Definition set_value (data : pyval) (v : pyval) : pyval :=
  match data with
  | VDict d => VDict (Json.dict_set d "value" v)
  | _ => data
  end.

(** A value passed where the callee calls [key.strip()]. *)
Definition as_key (value : pyval) : M (option str) :=
  match value with
  | VNone => ret None
  | VStr s | VStringVariable s => ret (Some s)
  | _ => raise (OtherError ("AttributeError: " +:+ type_repr value
                            +:+ " object has no attribute 'strip'"))
  end.

(** [value_ == variable], the right side being a [str]; a [Sensitive]
    compares by identity and is equal to no [str]. *)
Definition eq_str (value_ : pyval) (variable : str) : bool :=
  match value_ with
  | VStr s | VStringVariable s => bool_decide (s = variable)
  | _ => false
  end.

Definition is_binary_type (ty : option str) : bool :=
  match ty with
  | Some ty => bool_decide (ty = "Binary") || bool_decide (ty = "BinaryArray")
  | None => false
  end.

(** [bytes(value)], as [BinaryVariable(value)] builds its content. *)
Definition to_bytes (value : pyval) : M (list byte) :=
  let small (x : pyval) : option byte :=
    match x with
    | VInt z => if ((0 <=? z) && (z <? 256))%Z then Byte.of_N (Z.to_N z) else None
    | VBool b => Some (if b then x01 else x00)
    | _ => None
    end in
  match value with
  | VBytes b | VBinaryVariable b => ret b
  | VInt z =>
      if (z <? 0)%Z then raise (ValueError "negative count")
      else ret (repeat x00 (Z.to_nat z))
  | VBool b => ret (if b then [x00] else [])
  | VList l =>
      match mapM small l with
      | Some bs => ret bs
      | None => raise (TypeError "an integer in range(0, 256) is required")
      end
  | VDict [] => ret []
  | _ => raise (TypeError ("cannot convert " +:+ type_repr value
                           +:+ " object to bytes"))
  end.

(** The read of one typed value: null key, type tag, store, then [post]
    on what the store holds. [None] is returned for a null key and for a
    key the store does not hold. *)
Definition read_typed (key : option str) (type_ : str)
    (post : pyval -> M pyval) : M pyval :=
  match key with
  | None => ret VNone
  | Some key =>
      run _check_variable_type key type_;
      do data <- _get_data key;
      if is_none data then ret VNone else post data
  end.

(** [if isinstance(data, bytes): data = data.decode()] *)
Definition decode_if_bytes (data : pyval) : M pyval :=
  match data with
  | VBytes b | VBinaryVariable b =>
      match decode_utf8 b with
      | Returned s => ret (VStr s)
      | Raised e => raise e
      end
  | _ => ret data
  end.

(** One element of a binary read: optional base64 decoding, optional text
    decoding. *)
Definition decode_element (b64decode decode : bool) (d : pyval) : M pyval :=
  match d with
  | VStr s | VStringVariable s =>
      if b64decode then
        do raw <- lift (Base64.b64decode s);
        if decode then _decode_binary raw else ret (VBinaryVariable raw)
      else ret d
  | _ => ret d
  end.

Definition binary (key : option str) (b64decode decode : bool) : M pyval :=
  read_typed key "Binary" (fun data =>
    do data <- _deserialize_data data;
    if b64decode && isinstance_str data then decode_element b64decode decode data
    else
      match data with
      | VBytes b | VBinaryVariable b => _decode_binary b
      | _ => ret data
      end).

Definition binary_array (key : option str) (b64decode decode : bool) : M pyval :=
  read_typed key "BinaryArray" (fun data =>
    do data <- decode_if_bytes data;
    do _data <- _deserialize_data data;
    do items <- lift (iterate _data);
    do values <- for_each items [] (fun values d =>
      do d_ <- decode_element b64decode decode d;
      ret (values ++ [d_]));
    ret (VList values)).

Definition raw (key : option str) : M pyval :=
  match key with
  | None => ret VNone
  | Some key => call_read (context self) (strip key)
  end.

Definition string_array (key : option str) : M pyval :=
  read_typed key "StringArray" (fun data =>
    do data <- decode_if_bytes data;
    do _data <- _deserialize_data data;
    do items <- lift (iterate _data);
    ret (VList (map (fun d =>
                       if is_none d then d
                       else VStringVariable (py_str (_coerce_string_value d)))
                    items))).

Definition tc_batch (key : option str) : M pyval :=
  read_typed key "TCBatch" (fun data =>
    do data <- decode_if_bytes data;
    _deserialize_data data).

Definition tc_entity (key : option str) : M pyval :=
  read_typed key "TCEntity" (fun data =>
    do data <- decode_if_bytes data;
    _deserialize_data data).

Definition tc_entity_array (key : option str) : M pyval :=
  read_typed key "TCEntityArray" (fun data =>
    do data <- decode_if_bytes data;
    _deserialize_data data).

(** The methods that call [self.any] take it as their first argument. *)
Section Recursive.
Variable any : option str -> M pyval.

(** The value one match stands for: the lookup by origin, the placeholder
    of the binary types, the text of a container and of a missing value. *)
Definition resolve_match (m : Match) : M pyval :=
  let variable := group0 m in
  do v <- (if bool_decide (group_origin m = "#") then any (Some variable)
           else if bool_decide (group_origin m = "&")
                then lift (resolve_variable variable)
                else ret VNone);
  let v := if is_binary_type (group_type m) then VStr "<binary>" else v in
  match v with
  | VDict _ | VList _ => do s <- lift (Json.dumps v); ret (VStr s)
  | VNone => ret (VStr "<null>")
  | _ => ret v
  end.

(** The new [value_] once [variable] stands for [v]. *)
Definition splice (value_ : pyval) (variable : str) (v : pyval) : pyval :=
  match v with
  | VSensitive secret =>
      if eq_str value_ variable then v
      else if isinstance_str value_
           then VStr (replace (py_str value_) variable secret)
           else value_
  | VStr s | VStringVariable s =>
      if isinstance_str value_
      then VStr (replace (py_str value_) variable s)
      else value_
  | _ => value_
  end.

(** The body of the loop of [_read_embedded] for one match. *)
Definition embed_match (value_ : pyval) (m : Match) : M pyval :=
  do v <- resolve_match m;
  ret (splice value_ (group0 m) v).

Definition _read_embedded (value : pyval) : M pyval :=
  if is_none value then ret value
  else for_each (variable_expansion_finditer (py_str value)) value embed_match.

Definition _process_key_value (data : pyval) (resolve_embedded : bool)
  : M pyval :=
  if resolve_embedded then
    do value <- get_value data;
    if is_playbook_variable value then
      do k <- as_key value;
      do v <- any k;
      ret (set_value data v)
    else
      do v <- _read_embedded value;
      ret (set_value data v)
  else ret data.

Definition key_value (key : option str) (resolve_embedded : bool) : M pyval :=
  read_typed key "KeyValue" (fun data =>
    do data <- _deserialize_data data;
    _process_key_value data resolve_embedded).

Definition key_value_array (key : option str) (resolve_embedded : bool)
  : M pyval :=
  read_typed key "KeyValueArray" (fun data =>
    do data <- decode_if_bytes data;
    do _data <- _deserialize_data data;
    do items <- lift (iterate _data);
    do values <- for_each items [] (fun values d =>
      do d_ <- _process_key_value d resolve_embedded;
      ret (values ++ [d_]));
    ret (VList values)).

Definition string (key : option str) (resolve_embedded : bool) : M pyval :=
  read_typed key "String" (fun data =>
    do data <- decode_if_bytes data;
    do data <- _deserialize_data data;
    do data <- (if resolve_embedded && negb (is_playbook_variable data)
                then _read_embedded data else ret data);
    ret (_coerce_string_value data)).

(** [variable_type_map.get(variable_type, self.raw)(key)] *)
Definition variable_type_map (variable_type : str) (key : option str)
  : M pyval :=
  if bool_decide (variable_type = "binary") then binary key true false
  else if bool_decide (variable_type = "binaryarray") then binary_array key true false
  else if bool_decide (variable_type = "keyvalue") then key_value key true
  else if bool_decide (variable_type = "keyvaluearray") then key_value_array key true
  else if bool_decide (variable_type = "string") then string key true
  else if bool_decide (variable_type = "stringarray") then string_array key
  else if bool_decide (variable_type = "tcbatch") then tc_batch key
  else if bool_decide (variable_type = "tcentity") then tc_entity key
  else if bool_decide (variable_type = "tcentityarray") then tc_entity_array key
  else raw key.

(** The body of [any]. *)
Definition any_body (key : option str) : M pyval :=
  match key with
  | None => ret VNone
  | Some key =>
      let key := strip key in
      let variable_type := lower (get_playbook_variable_type key) in
      do value <- variable_type_map variable_type (Some key);
      if is_none value then ret value
      else if bool_decide (variable_type = "binary") then
        do b <- to_bytes value; ret (VBinaryVariable b)
      else if bool_decide (variable_type = "binaryarray") then
        do items <- lift (iterate value);
        do vs <- for_each items [] (fun acc v =>
          if is_none v then ret (acc ++ [v])
          else do b <- to_bytes v; ret (acc ++ [VBinaryVariable b]));
        ret (VList vs)
      else if bool_decide (variable_type = "string") then
        ret (VStringVariable (py_str value))
      else if bool_decide (variable_type = "stringarray") then
        do items <- lift (iterate value);
        ret (VList (map (fun v => if is_none v then v
                                  else VStringVariable (py_str v)) items))
      else ret value
  end.

Definition variable (key : option str) (array : bool) : M pyval :=
  do value <-
    match key with
    | Some key0 =>
        let key := strip key0 in
        if variable_playbook_match key then any (Some key)
        else
          let value := _process_space_patterns key0 in
          _read_embedded (VStr value)
    | None => ret VNone
    end;
  if array then
    match value with
    | VList _ | VStr _ | VStringVariable _ => ret (_to_array value)
    | VNone => ret (VList [])
    | _ => ret value
    end
  else ret value.

End Recursive.

(** [self.any], with the depth of calls still allowed: the nested calls of
    a read end only if the stored values stop referring to one another. *)
Fixpoint any (depth : nat) (key : option str) : M pyval :=
  match depth with
  | O => raise RecursionDepth
  | S depth => any_body (any depth) key
  end.

(** The typed read operations that check a type tag. *)
Inductive typed_op : Type :=
| OpBinary (b64decode decode : bool)
| OpBinaryArray (b64decode decode : bool)
| OpKeyValue (resolve_embedded : bool)
| OpKeyValueArray (resolve_embedded : bool)
| OpString (resolve_embedded : bool)
| OpStringArray | OpTCBatch | OpTCEntity | OpTCEntityArray.

Definition op_type (op : typed_op) : str :=
  match op with
  | OpBinary _ _ => "Binary"
  | OpBinaryArray _ _ => "BinaryArray"
  | OpKeyValue _ => "KeyValue"
  | OpKeyValueArray _ => "KeyValueArray"
  | OpString _ => "String"
  | OpStringArray => "StringArray"
  | OpTCBatch => "TCBatch"
  | OpTCEntity => "TCEntity"
  | OpTCEntityArray => "TCEntityArray"
  end.

Definition read (depth : nat) (op : typed_op) (key : option str) : M pyval :=
  match op with
  | OpBinary b64decode decode => binary key b64decode decode
  | OpBinaryArray b64decode decode => binary_array key b64decode decode
  | OpKeyValue resolve_embedded => key_value (any depth) key resolve_embedded
  | OpKeyValueArray resolve_embedded =>
      key_value_array (any depth) key resolve_embedded
  | OpString resolve_embedded => string (any depth) key resolve_embedded
  | OpStringArray => string_array key
  | OpTCBatch => tc_batch key
  | OpTCEntity => tc_entity key
  | OpTCEntityArray => tc_entity_array key
  end.

End Methods.
End PlaybookRead.

(** ** Concrete collaborators *)

(** Modelled from the spec: [tcex.util.Util] is not part of the two source
    files; this instance follows the variable text grammar of the spec,
    origin, producer id, context id, key and type tag, written
    origin producer:context:key!Type, the origin being # for a playbook
    variable and & for a platform variable, the type one of the nine wire
    types. A text that is no variable classifies as String. *)
Module SpecUtil.
Import PyStr.

Definition types : list string :=
  ["StringArray"; "BinaryArray"; "KeyValueArray"; "TCEntityArray";
   "String"; "Binary"; "KeyValue"; "TCEntity"; "TCBatch"].

Definition is_alpha (c : ascii) : bool :=
  let n := code c in
  ((65 <=? n) && (n <=? 90) || (97 <=? n) && (n <=? 122))%N.

Definition is_digit (c : ascii) : bool :=
  let n := code c in ((48 <=? n) && (n <=? 57))%N.

Definition is_word (c : ascii) : bool :=
  is_alpha c || is_digit c || bool_decide (c = "_"%char).

Definition is_key_char (c : ascii) : bool :=
  is_word c || bool_decide (c = "."%char) || bool_decide (c = "-"%char)
  || bool_decide (c = "["%char) || bool_decide (c = "]"%char).

Fixpoint span (p : ascii -> bool) (cs : list ascii) : list ascii * list ascii :=
  match cs with
  | c :: r => if p c then let '(a, b) := span p r in (c :: a, b) else ([], cs)
  | [] => ([], [])
  end.

Record token : Type := {
  tok_origin : ascii;
  tok_producer : list ascii;
  tok_context : list ascii;
  tok_key : list ascii;
  tok_type : string
}.

Definition token_text (t : token) : list ascii :=
  tok_origin t :: tok_producer t ++ ":"%char :: tok_context t
  ++ ":"%char :: tok_key t ++ "!"%char :: chars (tok_type t).

(** A variable at the head of [cs], with what follows it. *)
Definition parse_token (origins : list ascii) (cs : list ascii)
  : option (token * list ascii) :=
  match cs with
  | o :: r =>
      if bool_decide (o ∈ origins) then
        match span is_alpha r with
        | ((_ :: _) as producer, ":"%char :: r2) =>
            match span is_word r2 with
            | ((_ :: _) as ctx, ":"%char :: r4) =>
                match span is_key_char r4 with
                | ((_ :: _) as key, "!"%char :: r6) =>
                    match find (fun t => starts_with (chars t) r6) types with
                    | Some ty =>
                        Some ({| tok_origin := o; tok_producer := producer;
                                 tok_context := ctx; tok_key := key;
                                 tok_type := ty |},
                              drop (String.length ty) r6)
                    | None => None
                    end
                | _ => None
                end
            | _ => None
            end
        | _ => None
        end
      else None
  | [] => None
  end.

(** The whole of [s] is one variable of an origin in [origins]. *)
Definition full_match (origins : list ascii) (s : string) : option token :=
  match parse_token origins (chars s) with
  | Some (t, []) => Some t
  | _ => None
  end.

Definition match_of (t : token) : Match :=
  {| group0 := text (token_text t);
     group_origin := String (tok_origin t) EmptyString;
     group_type := Some (tok_type t) |}.

(** All non-overlapping variables of [cs], left to right; [skip] counts
    the characters of the last match that are still ahead. *)
Fixpoint scan (skip : nat) (cs : list ascii) : list Match :=
  match cs with
  | [] => []
  | _ :: r =>
      match skip with
      | S k => scan k r
      | O =>
          match parse_token ["#"%char; "&"%char] cs with
          | Some (t, _) => match_of t :: scan (length (token_text t) - 1) r
          | None => scan 0 r
          end
      end
  end.

#[export] Instance util : Util := {|
  is_playbook_variable v :=
    match v with
    | VStr s | VStringVariable s =>
        match full_match ["#"%char] s with Some _ => true | None => false end
    | _ => false
    end;
  get_playbook_variable_type s :=
    match full_match ["#"%char] (strip s) with
    | Some t => tok_type t
    | None => "String"
    end;
  get_playbook_variable_model s :=
    match full_match ["#"%char] (strip s) with
    | Some t =>
        Some {| model_app_type := text (tok_producer t);
                model_job_id := text (tok_context t);
                model_key := text (tok_key t);
                model_type := tok_type t |}
    | None => None
    end;
  variable_expansion_finditer s := scan 0 (chars s);
  variable_playbook_match s :=
    match full_match ["#"%char] s with Some _ => true | None => false end
|}.

End SpecUtil.

(** An in-memory key value store: the entries written so far, the latest
    first, each under its context and key; a read returns the latest entry
    of the key, and none when there is no entry. [redis] tells whether the
    client counts as [KeyValueRedis]. *)
Module MemoryStore.

Definition entry : Type := (string * string * pyval)%type.

Fixpoint lookup (entries : list entry) (context key : string) : pyval :=
  match entries with
  | [] => VNone
  | (c, k, v) :: rest =>
      if bool_decide (c = context) && bool_decide (k = key) then v
      else lookup rest context key
  end.

Definition instance (redis : bool) : KeyValueStore := {|
  kv_state := list entry;
  client_create ctx key value s := (Returned (VInt 1), (ctx, key, value) :: s);
  client_read ctx key s := (Returned (lookup s ctx key), s);
  redis_client_hset ctx key value s :=
    (Returned (VInt 1), (ctx, key, value) :: s);
  client_is_KeyValueRedis := redis
|}.

End MemoryStore.

(** A host with a fixed table of platform variables and a fixed value of
    the environment variable [TC_PLAYBOOK_WRITE_NULL]. *)
Module FixedHost.

Definition instance (write_null : option string)
    (platform : list (string * pyval)) : Host := {|
  resolve_variable v :=
    Returned (default VNone (Builtin.dict_get platform v));
  str_other _ := "<object>";
  getenv name :=
    if bool_decide (name = "TC_PLAYBOOK_WRITE_NULL") then write_null else None
|}.

End FixedHost.

(** A store out of reach: every call raises [e]. *)
Module FailingStore.

Definition instance (e : exn) : KeyValueStore := {|
  kv_state := unit;
  client_create _ _ _ s := (Raised e, s);
  client_read _ _ s := (Raised e, s);
  redis_client_hset _ _ _ s := (Raised e, s);
  client_is_KeyValueRedis := false
|}.

End FailingStore.

(** ** A worked configuration

    One context, a writer with two requested variables, a reader, and a
    store that holds some String variables, one of which embeds another
    and one of which embeds a variable that embeds a third. *)
Module Example.

(** The JSON text of a string, as the String write stores it. *)
Definition js (s : string) : pyval :=
  VStr (PyStr.text (Json.encode_string s)).

Definition redis : KeyValueStore := MemoryStore.instance true.

Definition platform : list (string * pyval) :=
  [("&TC:1:secret!String", VSensitive "hunter2")].

(** A host in production, and one under the test framework. *)
Definition host : Host := FixedHost.instance None platform.
Definition test_host : Host := FixedHost.instance (Some "1") platform.

Definition held : list MemoryStore.entry :=
  [("ctx", "#App:1:a!String", js "x #App:1:b!String");
   ("ctx", "#App:1:b!String", js "y #App:1:c!String");
   ("ctx", "#App:1:c!String", js "z");
   ("ctx", "#App:1:o!String", js "hello #App:1:x!String world");
   ("ctx", "#App:1:x!String", js "there");
   ("ctx", "#App:1:t!String", js "a\sb")].

(** A store whose one String variable embeds itself. *)
Definition looping : list MemoryStore.entry :=
  [("ctx", "#App:1:l!String", js "again #App:1:l!String")].

Definition world : @World redis := @Build_World redis held [].

Definition writer : PlaybookCreate.t :=
  {| PlaybookCreate.context := "ctx";
     PlaybookCreate.output_variables :=
       ["#App:1:bin!Binary"; "#App:1:s!String"] |}.

Definition reader : PlaybookRead.t := {| PlaybookRead.context := "ctx" |}.

(** The JSON text of a value, as a typed write stores it. *)
Definition stored (v : pyval) : pyval :=
  match Json.dumps v with
  | Returned t => VStr t
  | Raised _ => VNone
  end.

(** A store with variables of the other types, and one text that is not
    JSON. *)
Definition shelf : list MemoryStore.entry :=
  [("ctx", "#App:1:bad!String", VStr "{oops");
   ("ctx", "#App:1:v!String", js "#App:1:x!String");
   ("ctx", "#App:1:x!String", js "there");
   ("ctx", "#App:1:blob!Binary", js "AAH/");
   ("ctx", "#App:1:names!StringArray", stored (VList [VStr "a"; VStr "b"]));
   ("ctx", "#App:1:half!KeyValue", stored (VDict [("key", VStr "k")]));
   ("ctx", "#App:1:kv!KeyValue",
    stored (VDict [("key", VStr "k"); ("value", VStr "#App:1:x!String")]))].

Definition library : @World redis := @Build_World redis shelf [].

(** A store whose connection is lost. *)
Definition offline : KeyValueStore :=
  FailingStore.instance (OtherError "ConnectionError").

(** A writer that was asked for nothing. *)
Definition idle : PlaybookCreate.t :=
  {| PlaybookCreate.context := "ctx"; PlaybookCreate.output_variables := [] |}.

(** The Util of a platform with one variable of a type of its own,
    [#App:1:e!Custom], besides the variables of [SpecUtil.util]. *)
Definition custom_variable : string := "#App:1:e!Custom".

Definition custom_util : Util := {|
  is_playbook_variable v :=
    match v with
    | VStr s | VStringVariable s =>
        bool_decide (s = custom_variable)
        || @is_playbook_variable SpecUtil.util v
    | _ => false
    end;
  get_playbook_variable_type s :=
    if bool_decide (PyStr.strip s = custom_variable) then "Custom"
    else @get_playbook_variable_type SpecUtil.util s;
  get_playbook_variable_model s :=
    if bool_decide (PyStr.strip s = custom_variable)
    then Some {| model_app_type := "App"; model_job_id := "1";
                 model_key := "e"; model_type := "Custom" |}
    else @get_playbook_variable_model SpecUtil.util s;
  variable_expansion_finditer := @variable_expansion_finditer SpecUtil.util;
  variable_playbook_match s :=
    bool_decide (s = custom_variable)
    || @variable_playbook_match SpecUtil.util s
|}.

End Example.

(** ** The claims in the words of the spec *)

Module Spec.
Import PyStr.

(** The space-escape transform as the spec words it, in one pass from left
    to right: two backslashes and [s] give a backslash and [s]; a backslash
    and [s] not preceded by a backslash give one space. *)
Fixpoint space_escape (after_backslash : bool) (cs : list ascii) : list ascii :=
  match cs with
  | [] => []
  | c :: r =>
      let unchanged := c :: space_escape (bool_decide (c = backslash)) r in
      match r with
      | c2 :: r' =>
          let single :=
            if bool_decide (c = backslash) && bool_decide (c2 = "s"%char)
               && negb after_backslash
            then " "%char :: space_escape false r'
            else unchanged in
          match r' with
          | c3 :: r'' =>
              if bool_decide (c = backslash) && bool_decide (c2 = backslash)
                 && bool_decide (c3 = "s"%char)
              then backslash :: "s"%char :: space_escape false r''
              else single
          | [] => single
          end
      | [] => unchanged
      end
  end.

(** An entry of the requested set matches a bare key: it is a variable
    with that key and, under a type hint, exactly that type. *)
Definition entry_matches `{Util} (key : str) (type_hint : option str)
    (entry : str) : Prop :=
  exists model,
    get_playbook_variable_model entry = Some model
    /\ model_key model = key
    /\ match type_hint with
       | None => True
       | Some ty => model_type model = ty
       end.

(** The first entry of [outputs] that matches is [v]. *)
Definition first_match `{Util} (key : str) (type_hint : option str)
    (outputs : list str) (v : str) : Prop :=
  exists before after,
    outputs = before ++ v :: after
    /\ entry_matches key type_hint v
    /\ Forall (fun e => ~ entry_matches key type_hint e) before.

(** The iterable check of the array writes refuses [value]. *)
Definition not_an_array (value : pyval) : bool :=
  match value with
  | VDict _ | VStr _ | VStringVariable _ => true
  | _ => negb (Builtin.is_iterable value)
  end.

(** The null shadow write is enabled: the environment variable is set and
    the store client is the Redis client. *)
Definition null_shadow_enabled `{Host} `{KeyValueStore} : bool :=
  match getenv "TC_PLAYBOOK_WRITE_NULL" with Some _ => true | None => false end
  && client_is_KeyValueRedis.

(** The store keeps what is created: in state [s], a create under the key
    succeeds, and a read of the key then returns the value created. *)
Definition keeps `{KeyValueStore} (context key : str) (s : kv_state) : Prop :=
  forall value, exists h s1,
    client_create context key value s = (Returned h, s1)
    /\ exists s2, client_read context key s1 = (Returned value, s2).

(** A call of the store's create operation. *)
Definition is_create (c : Call) : bool :=
  match c with
  | CallCreate _ _ _ => true
  | _ => false
  end.

(** A character [json.dumps] writes as it is. *)
Definition plain (c : ascii) : bool :=
  negb (bool_decide (c = dquote)) && negb (bool_decide (c = backslash))
  && ((32 <=? code c) && (code c <=? 126))%N.

(** The commit of a write: one create call; a runtime error of the store
    is a soft failure and gives none, any other outcome is passed on. *)
Definition commit `{KeyValueStore} (context key : str) (value : pyval)
    (w : World) : outcome pyval * World :=
  let '(r, s) := client_create context key value (store w) in
  let w' := {| store := s;
               calls := calls w ++ [CallCreate context key value] |} in
  match r with
  | Raised (RuntimeError _) => (Returned VNone, w')
  | _ => (r, w')
  end.

(** An entry of a KeyValueArray that passes validation: an object, plain
    or a model, with the fields key and value. *)
Definition key_value_entry (v : pyval) : bool :=
  match v with
  | VDict d | VModel d =>
      forallb (fun x => match Builtin.dict_get d x with
                        | Some _ => true
                        | None => false
                        end) ["key"; "value"]
  | _ => false
  end.

(** What the object writes store for an entry: a model as its dict. *)
Definition as_dict (v : pyval) : pyval :=
  match v with
  | VModel fields => VDict fields
  | _ => v
  end.

(** The values [json.loads] gives back as they were dumped: null, bools,
    texts, and lists and objects of such values, the keys of an object
    being distinct. Numbers are left out. *)
Fixpoint json_data (v : pyval) : bool :=
  match v with
  | VNone | VBool _ | VStr _ => true
  | VList l => forallb json_data l
  | VDict d =>
      bool_decide (NoDup (map fst d))
      && forallb (fun kv => json_data (snd kv)) d
  | _ => false
  end.

(** A bound on the depth of calls the decoder needs for a value. *)
Fixpoint json_size (v : pyval) : nat :=
  match v with
  | VList l => S (list_sum (map (fun x => S (json_size x)) l))
  | VDict d => S (list_sum (map (fun kv => S (json_size (snd kv))) d))
  | _ => 1
  end.

(** The items of a list and the members of an object, as [json.dumps]
    joins them. *)
Fixpoint dump_items (l : list pyval) : outcome (list ascii) :=
  match l with
  | [] => Returned []
  | x :: r => Json.join_items (Json.dumps_chars x) (dump_items r)
  end.

Fixpoint dump_members (d : list (str * pyval)) : outcome (list ascii) :=
  match d with
  | [] => Returned []
  | (k, x) :: r =>
      Json.join_items
        (match Json.dumps_chars x with
         | Returned t => Returned (Json.encode_string k ++ chars ": " ++ t)
         | Raised e => Raised e
         end)
        (dump_members r)
  end.

(** The characters a dumped value can start with. *)
Definition starter (c : ascii) : Prop :=
  c = dquote \/ c = "["%char \/ c = "{"%char \/ c = "n"%char
  \/ c = "t"%char \/ c = "f"%char.

(** A list of texts and nulls as the caller passes it, and as the
    StringArray read returns it. *)
Definition texts_in (items : list (option str)) : pyval :=
  VList (map (fun o => match o with Some s => VStr s | None => VNone end) items).

Definition texts_out (items : list (option str)) : pyval :=
  VList (map (fun o => match o with
                       | Some s => VStringVariable s
                       | None => VNone
                       end) items).

(** A list of byte sequences and nulls, passed and returned. *)
Definition blobs_in (items : list (option (list byte))) : pyval :=
  VList (map (fun o => match o with Some b => VBytes b | None => VNone end) items).

Definition blobs_out (items : list (option (list byte))) : pyval :=
  VList (map (fun o => match o with
                       | Some b => VBinaryVariable b
                       | None => VNone
                       end) items).

(** The world after one read call that left the store in state [s]. *)
Definition after_read `{KeyValueStore} (context key : str) (s : kv_state)
    (w : World) : World :=
  {| store := s; calls := calls w ++ [CallRead context key] |}.

End Spec.

(** * Properties *)

(** ** Text *)

Section TextFacts.
Import PyStr.

Lemma chars_text cs : chars (text cs) = cs.
Proof. apply list_ascii_of_string_of_list_ascii. Qed.

Lemma text_chars s : text (chars s) = s.
Proof. apply string_of_list_ascii_of_string. Qed.

End TextFacts.

Section Base64Facts.
Import Base64.

Lemma sextet_table :
  forallb (fun n => bool_decide (a2b (b2a n) = Some n)
                    && negb (bool_decide (b2a n = pad))
                    && (N_of_ascii (b2a n) <? 128)%N
                    && Spec.plain (b2a n))
          (map N.of_nat (seq 0 64)) = true.
Proof. vm_compute. reflexivity. Qed.

Lemma b2a_spec n :
  (n < 64)%N ->
  a2b (b2a n) = Some n /\ b2a n <> pad /\ (N_of_ascii (b2a n) < 128)%N
  /\ Spec.plain (b2a n) = true.
Proof.
  intros Hn. pose proof sextet_table as H.
  rewrite forallb_forall in H. specialize (H n).
  assert (Hin : In n (map N.of_nat (seq 0 64))).
  { apply in_map_iff. exists (N.to_nat n). split; [lia|]. apply in_seq. lia. }
  apply H in Hin. apply andb_prop in Hin as [Hin H4].
  apply andb_prop in Hin as [Hin H3]. apply andb_prop in Hin as [H1 H2].
  apply bool_decide_eq_true in H1. apply negb_true_iff in H2.
  apply bool_decide_eq_false in H2. apply N.ltb_lt in H3. done.
Qed.

Lemma byte_of_to_N b : byte_of (Byte.to_N b) = b.
Proof.
  unfold byte_of.
  rewrite N.mod_small by (pose proof (Byte.to_N_bounded b); lia).
  by rewrite Byte.of_to_N.
Qed.

Lemma div_combine x y k : (y < k -> (x * k + y) / k = x)%N.
Proof. intros. symmetry. apply (N.div_unique _ _ _ y); lia. Qed.

Lemma mod_combine x y k : (y < k -> (x * k + y) mod k = y)%N.
Proof. intros. symmetry. apply (N.mod_unique _ _ x); lia. Qed.

Lemma div_mod_join a k : (k <> 0 -> a / k * k + a mod k = a)%N.
Proof. intros. rewrite (N.div_mod a k) at 3 by assumption. lia. Qed.

Lemma div_below a k m : (k <> 0 -> a < k * m -> a / k < m)%N.
Proof. intros. apply N.Div0.div_lt_upper_bound; lia. Qed.

(** One step of the decoder on a character the encoder produced. *)
Lemma a2b_scan_b2a n r q lc p out :
  (n < 64)%N ->
  a2b_scan (b2a n :: r) q lc p out =
  match q with
  | 0 => a2b_scan r 1 n 0 out
  | 1 => a2b_scan r 2 (n mod 16)%N 0 (out ++ [byte_of (lc * 4 + n / 16)])
  | 2 => a2b_scan r 3 (n mod 4)%N 0 (out ++ [byte_of (lc * 16 + n / 4)])
  | _ => a2b_scan r 0 0%N 0 (out ++ [byte_of (lc * 64 + n)])
  end.
Proof.
  intros Hn. destruct (b2a_spec n Hn) as (Ha & Hp & _ & _).
  cbn [a2b_scan]. rewrite bool_decide_eq_false_2 by done. by rewrite Ha.
Qed.

Lemma a2b_scan_pad r q lc p out :
  a2b_scan (pad :: r) q lc p out =
  if (2 <=? q)%nat then
    if (4 <=? q + S p)%nat then Returned out
    else a2b_scan r q lc (S p) out
  else a2b_scan r q lc p out.
Proof. cbn [a2b_scan]. by rewrite bool_decide_eq_true_2. Qed.

(** The decoder undoes the encoder, whatever was decoded before. *)
Lemma a2b_scan_b2a_base64 bs : forall out,
  a2b_scan (b2a_base64 bs) 0 0 0 out = Returned (out ++ bs).
Proof.
  assert (H : forall n bs, (length bs < n)%nat -> forall out,
             a2b_scan (b2a_base64 bs) 0 0 0 out = Returned (out ++ bs)).
  { clear bs. induction n as [|n IH]; intros bs Hlen out; [lia|].
    destruct bs as [|a [|b [|c r]]].
    - cbn. by rewrite app_nil_r.
    - pose proof (Byte.to_N_bounded a) as Ba.
      cbn [b2a_base64].
      rewrite a2b_scan_b2a by (apply div_below; lia).
      rewrite a2b_scan_b2a
        by (pose proof (N.mod_upper_bound (Byte.to_N a) 4); lia).
      rewrite !a2b_scan_pad. cbn.
      rewrite N.div_mul, div_mod_join by lia.
      by rewrite byte_of_to_N.
    - pose proof (Byte.to_N_bounded a) as Ba.
      pose proof (Byte.to_N_bounded b) as Bb.
      pose proof (N.mod_upper_bound (Byte.to_N a) 4).
      pose proof (N.mod_upper_bound (Byte.to_N b) 16).
      assert (Byte.to_N b / 16 < 16)%N by (apply div_below; lia).
      cbn [b2a_base64].
      rewrite a2b_scan_b2a by (apply div_below; lia).
      rewrite a2b_scan_b2a by lia.
      rewrite a2b_scan_b2a by lia.
      rewrite a2b_scan_pad. cbn.
      rewrite (div_combine _ (Byte.to_N b / 16)) by lia.
      rewrite (mod_combine _ (Byte.to_N b / 16)) by lia.
      rewrite div_mod_join by lia.
      rewrite N.div_mul, div_mod_join by lia.
      rewrite !byte_of_to_N. by rewrite <- app_assoc.
    - pose proof (Byte.to_N_bounded a) as Ba.
      pose proof (Byte.to_N_bounded b) as Bb.
      pose proof (Byte.to_N_bounded c) as Bc.
      pose proof (N.mod_upper_bound (Byte.to_N a) 4).
      pose proof (N.mod_upper_bound (Byte.to_N b) 16).
      pose proof (N.mod_upper_bound (Byte.to_N c) 64).
      assert (Byte.to_N b / 16 < 16)%N by (apply div_below; lia).
      assert (Byte.to_N c / 64 < 4)%N by (apply div_below; lia).
      cbn [b2a_base64 app].
      rewrite a2b_scan_b2a by (apply div_below; lia).
      rewrite a2b_scan_b2a by lia.
      rewrite a2b_scan_b2a by lia.
      rewrite a2b_scan_b2a by lia.
      rewrite (div_combine _ (Byte.to_N b / 16)) by lia.
      rewrite (mod_combine _ (Byte.to_N b / 16)) by lia.
      rewrite (div_combine _ (Byte.to_N c / 64)) by lia.
      rewrite (mod_combine _ (Byte.to_N c / 64)) by lia.
      rewrite !div_mod_join by lia.
      rewrite !byte_of_to_N.
      rewrite IH by (cbn in Hlen; lia).
      by rewrite <- !app_assoc. }
  intros out. apply (H (S (length bs))). lia.
Qed.

Lemma b2a_base64_chars bs : Forall b64_char (b2a_base64 bs).
Proof.
  assert (H : forall n bs, (length bs < n)%nat ->
                           Forall b64_char (b2a_base64 bs)).
  { clear bs. induction n as [|n IH]; intros bs Hlen; [lia|].
    assert (Hb : forall x k, (k <> 0)%N -> (x < k * 64)%N -> b64_char (b2a (x / k))).
    { intros x k ? ?. left. eexists. split; [|done]. by apply div_below. }
    assert (Hc : forall x, (x < 64)%N -> b64_char (b2a x)).
    { intros x ?. left. by exists x. }
    destruct bs as [|a [|b [|c r]]]; cbn [b2a_base64].
    - constructor.
    - pose proof (Byte.to_N_bounded a).
      pose proof (N.mod_upper_bound (Byte.to_N a) 4).
      repeat (match goal with |- Forall _ _ => constructor end);
        first [by right | apply Hc; lia | apply Hb; lia].
    - pose proof (Byte.to_N_bounded a). pose proof (Byte.to_N_bounded b).
      pose proof (N.mod_upper_bound (Byte.to_N a) 4).
      pose proof (N.mod_upper_bound (Byte.to_N b) 16).
      assert (Byte.to_N b / 16 < 16)%N by (apply div_below; lia).
      repeat (match goal with |- Forall _ _ => constructor end);
        first [by right | apply Hc; lia | apply Hb; lia].
    - pose proof (Byte.to_N_bounded a). pose proof (Byte.to_N_bounded b).
      pose proof (Byte.to_N_bounded c).
      pose proof (N.mod_upper_bound (Byte.to_N a) 4).
      pose proof (N.mod_upper_bound (Byte.to_N b) 16).
      pose proof (N.mod_upper_bound (Byte.to_N c) 64).
      assert (Byte.to_N b / 16 < 16)%N by (apply div_below; lia).
      assert (Byte.to_N c / 64 < 4)%N by (apply div_below; lia).
      apply Forall_app. split.
      + repeat (match goal with |- Forall _ _ => constructor end);
          first [apply Hc; lia | apply Hb; lia].
      + apply IH. cbn in Hlen. lia. }
  apply (H (S (length bs))). lia.
Qed.

Lemma b64_char_plain c :
  b64_char c -> Spec.plain c = true /\ (N_of_ascii c < 128)%N.
Proof.
  intros [(n & Hn & ->) | ->].
  - by destruct (b2a_spec n Hn) as (_ & _ & ? & ?).
  - split; [done|]. vm_compute. done.
Qed.

End Base64Facts.

(** ** Writing *)

Section WriteFacts.
Context `{Util} `{Host} `{KeyValueStore}.
Import PyStr Builtin PlaybookCreate.
Variable self : PlaybookCreate.t.

Lemma world_eta (w : World) : {| store := store w; calls := calls w |} = w.
Proof. by destruct w. Qed.

Lemma check_null_value key value w :
  is_none value = false ->
  _check_null self (Some key) value w = (Returned false, w).
Proof. intros Hv. unfold _check_null. by rewrite Hv. Qed.

Lemma check_null_none key w :
  Spec.null_shadow_enabled = false ->
  _check_null self key VNone w = (Returned true, w).
Proof.
  unfold Spec.null_shadow_enabled, _check_null. cbn [is_none].
  by intros ->.
Qed.

Lemma check_null_shadow key w h s' :
  Spec.null_shadow_enabled = true ->
  redis_client_hset (context self)
    (fmt (_get_variable self key None) +:+ "_NULL_VALIDATION")
    (VStr EmptyString) (store w) = (Returned h, s') ->
  _check_null self key VNone w =
  (Returned true,
   {| store := s';
      calls := calls w ++ [CallHset (context self)
                 (fmt (_get_variable self key None) +:+ "_NULL_VALIDATION")
                 (VStr EmptyString)] |}).
Proof.
  unfold Spec.null_shadow_enabled, _check_null. cbn [is_none].
  intros -> Hset. unfold bind, call_hset. by rewrite Hset.
Qed.

Lemma check_requested_false variable :
  variable ∉ output_variables self ->
  _check_requested self variable true = false.
Proof.
  intros Hn. unfold _check_requested, is_requested.
  by rewrite bool_decide_eq_false_2.
Qed.

Lemma resolve_for_write_unrequested key type_ variable body w :
  _get_variable self key (Some type_) = Some variable ->
  variable ∉ output_variables self ->
  resolve_for_write self key type_ true body w = (Returned VNone, w).
Proof.
  intros Hv Hn. unfold resolve_for_write.
  by rewrite Hv, check_requested_false.
Qed.

Lemma check_iterable_spec value validate w :
  _check_iterable value validate w =
  (if validate && Spec.not_an_array value
   then Raised (RuntimeError "Invalid data provided for KeyValueArray.")
   else Returned tt, w).
Proof.
  unfold _check_iterable, Spec.not_an_array.
  destruct validate, value; reflexivity.
Qed.

Lemma is_none_false value : value <> VNone -> is_none value = false.
Proof. by destruct value. Qed.

(** C2, as amended. A typed write with [when_requested] set, of a value
    that is not null, under a key that resolves to a variable outside the
    requested set, calls the store not at all and leaves it as it was. It
    returns none, except that the four array writes, whose iterable check
    comes before the resolution, raise the shape error when [validate] is
    set and the value is a dict, a string or not iterable. *)
Theorem C2_unrequested_write_is_dropped op key value validate variable w :
  _get_variable self (Some key) (Some (op_type op)) = Some variable ->
  variable ∉ output_variables self ->
  value <> VNone ->
  write self op (Some key) value validate true w =
  (if op_is_array op && validate && Spec.not_an_array value
   then Raised (RuntimeError "Invalid data provided for KeyValueArray.")
   else Returned VNone, w).
Proof.
  intros Hv Hn Hval. apply is_none_false in Hval.
  destruct op; cbn [write op_type op_is_array andb] in *;
    unfold binary, binary_array, key_value, key_value_array, string,
      string_array, tc_batch, tc_entity, tc_entity_array;
    unfold bind at 1; rewrite (check_null_value _ _ _ Hval);
    try (by apply resolve_for_write_unrequested with variable);
    unfold bind at 1; rewrite check_iterable_spec;
    destruct (validate && Spec.not_an_array value); try reflexivity;
    by apply resolve_for_write_unrequested with variable.
Qed.

(** C4. A typed write of a null value returns none. It makes no call to
    the store, unless the null shadow write is enabled (the environment
    variable is set and the client is the Redis client): then its one call
    writes the empty text under the shadow key, the text of the resolved
    variable followed by [_NULL_VALIDATION], and it still returns none. *)
Theorem C4_null_value_is_not_written op key validate when_requested w :
  let shadow := fmt (_get_variable self key None) +:+ "_NULL_VALIDATION" in
  (Spec.null_shadow_enabled = false ->
   write self op key VNone validate when_requested w = (Returned VNone, w))
  /\ (Spec.null_shadow_enabled = true ->
      forall h s',
        redis_client_hset (context self) shadow (VStr EmptyString) (store w)
        = (Returned h, s') ->
        write self op key VNone validate when_requested w =
        (Returned VNone,
         {| store := s';
            calls := calls w
                     ++ [CallHset (context self) shadow (VStr EmptyString)] |})).
Proof.
  cbn zeta. split.
  - intros Hoff.
    destruct op; cbn [write];
      unfold binary, binary_array, key_value, key_value_array, string,
        string_array, tc_batch, tc_entity, tc_entity_array;
      unfold bind at 1; by rewrite (check_null_none _ _ Hoff).
  - intros Hon h s' Hset.
    destruct op; cbn [write];
      unfold binary, binary_array, key_value, key_value_array, string,
        string_array, tc_batch, tc_entity, tc_entity_array;
      unfold bind at 1; by rewrite (check_null_shadow _ _ _ _ Hon Hset).
Qed.

(** C10, as amended. For a key and a value that are not null, [raw] makes
    exactly one call to the store, the create of the value as it is under
    the key stripped of surrounding whitespace, whatever [validate],
    [when_requested], the requested set and the type tag of the key are.
    It returns what the store returns, and none if the store raises a
    runtime error. *)
Theorem C10_raw_writes_unconditionally key value validate when_requested w :
  value <> VNone ->
  raw self (Some key) value validate when_requested w =
  (let '(r, s) := client_create (context self) (strip key) value (store w) in
   let w' := {| store := s;
                calls := calls w
                         ++ [CallCreate (context self) (strip key) value] |} in
   match r with
   | Raised (RuntimeError _) => (Returned VNone, w')
   | _ => (r, w')
   end).
Proof.
  intros Hval. apply is_none_false in Hval.
  unfold raw. unfold bind at 1. rewrite (check_null_value _ _ _ Hval).
  unfold _create_data, except_RuntimeError, call_create.
  destruct (client_create _ _ _ _) as [[h|e] s]; [done|].
  by destruct e.
Qed.

(** The loop of [_get_variable] stops at an entry exactly when the entry
    matches the bare key. *)
Lemma lookup_requested_spec key type_hint outputs :
  match lookup_requested (Some key) type_hint outputs with
  | Some v => Spec.first_match key type_hint outputs v
  | None => Forall (fun e => ~ Spec.entry_matches key type_hint e) outputs
  end.
Proof.
  induction outputs as [|e rest IH]; cbn [lookup_requested].
  { constructor. }
  assert (Hno : ~ Spec.entry_matches key type_hint e ->
    match lookup_requested (Some key) type_hint rest with
    | Some v => Spec.first_match key type_hint (e :: rest) v
    | None => Forall (fun e => ~ Spec.entry_matches key type_hint e) (e :: rest)
    end).
  { intros Hne. destruct (lookup_requested _ _ rest) as [v|].
    - destruct IH as (before & after & -> & Hm & Hb).
      exists (e :: before), after. repeat split; [done|by constructor].
    - by constructor. }
  destruct (get_playbook_variable_model e) as [model|] eqn:Hmodel.
  - destruct (bool_decide (Some (model_key model) = Some key)) eqn:Hk;
      cbn [andb].
    + apply bool_decide_eq_true in Hk. injection Hk as Hk.
      destruct type_hint as [ty|].
      * destruct (bool_decide (model_type model = ty)) eqn:Hty.
        -- apply bool_decide_eq_true in Hty.
           exists [], rest. repeat split; [|constructor].
           by exists model.
        -- apply bool_decide_eq_false in Hty. apply Hno.
           intros (m' & Hm' & _ & Ht). congruence.
      * exists [], rest. repeat split; [|constructor]. by exists model.
    + apply bool_decide_eq_false in Hk. apply Hno.
      intros (m' & Hm' & Hk' & _). apply Hk. congruence.
  - apply Hno. intros (m' & Hm' & _). congruence.
Qed.

Lemma first_match_unique key type_hint outputs v v' :
  Spec.first_match key type_hint outputs v ->
  Spec.first_match key type_hint outputs v' -> v = v'.
Proof.
  intros (b & a & -> & Hm & Hb) (b' & a' & E & Hm' & Hb').
  revert b' E Hb'. induction b as [|x b IH]; intros [|x' b'] E Hb'; cbn in E.
  - congruence.
  - injection E as <- _. by apply Forall_cons in Hb' as [? _].
  - injection E as -> _. by apply Forall_cons in Hb as [? _].
  - injection E as _ E. apply Forall_cons in Hb as [_ Hb].
    apply Forall_cons in Hb' as [_ Hb']. by apply (IH Hb b').
Qed.

(** C8. A key that is a variable already resolves to itself under any type
    hint. A bare key resolves to the first entry of the requested set, in
    the order of declaration, that is a variable with this key and, under
    a type hint, exactly the hinted type; it resolves to none exactly when
    no entry matches. *)
Theorem C8_key_resolution key type_hint :
  (is_playbook_variable (VStr key) = true ->
   _get_variable self (Some key) type_hint = Some key)
  /\ (is_playbook_variable (VStr key) = false ->
      (forall v, _get_variable self (Some key) type_hint = Some v
                 <-> Spec.first_match key type_hint (output_variables self) v)
      /\ (_get_variable self (Some key) type_hint = None
          <-> forall e, e ∈ output_variables self ->
                        ~ Spec.entry_matches key type_hint e)).
Proof.
  unfold _get_variable. cbn [key_value_of]. split.
  - by intros ->.
  - intros ->. cbn [negb].
    pose proof (lookup_requested_spec key type_hint (output_variables self))
      as Hspec.
    destruct (lookup_requested _ _ _) as [v0|]; split.
    + intros v. split.
      * by intros [= <-].
      * intros Hv. f_equal. by apply (first_match_unique _ _ _ _ _ Hspec).
    + split; [done|]. intros Hall.
      destruct Hspec as (b & a & E & Hm & _). exfalso.
      apply (Hall v0); [|done]. rewrite E. apply elem_of_app. right. apply list_elem_of_here.
    + intros v. split; [done|].
      intros (b & a & E & Hm & _). exfalso.
      rewrite Forall_forall in Hspec. apply (Hspec v); [|done].
      rewrite E. apply elem_of_app. right. apply list_elem_of_here.
    + split; [|done]. intros _ e He. rewrite Forall_forall in Hspec. by apply Hspec.
Qed.

End WriteFacts.

(** ** Reading *)

Section ReadFacts.
Context `{Util} `{Host} `{KeyValueStore}.
Import PyStr Builtin PlaybookRead.
Variable self : PlaybookRead.t.

Lemma read_typed_wrong_type key type_ post w :
  lower (get_playbook_variable_type key) <> lower type_ ->
  read_typed self (Some key) type_ post w =
  (Raised (RuntimeError ("Invalid variable provided (" +:+ key
                         +:+ "), variable must be of type " +:+ type_ +:+ ".")),
   w).
Proof.
  intros Hne. unfold read_typed, _check_variable_type.
  rewrite bool_decide_eq_false_2 by done. reflexivity.
Qed.

(** C5. A typed read of a key whose type tag is not the type of the
    operation raises the wrong-type error, and the store with the log of
    the calls made to it is as before: no read was issued. *)
Theorem C5_wrong_type_raises_before_any_read depth op key w :
  lower (get_playbook_variable_type key) <> lower (op_type op) ->
  read self depth op (Some key) w =
  (Raised (RuntimeError ("Invalid variable provided (" +:+ key
                         +:+ "), variable must be of type " +:+ op_type op
                         +:+ ".")),
   w).
Proof.
  intros Hne.
  destruct op; cbn [read op_type] in *;
    by apply read_typed_wrong_type.
Qed.

(** *** The space-escape transform *)

Lemma sub_space_after_backslash c r :
  sub_space true (c :: r) = c :: sub_space (bool_decide (c = backslash)) r.
Proof.
  destruct r as [|c2 r']; [done|].
  cbn [sub_space negb]. by rewrite andb_false_r.
Qed.

Lemma sub_space_other p c r :
  c <> backslash -> sub_space p (c :: r) = c :: sub_space false r.
Proof.
  intros Hc. destruct r as [|c2 r']; [done|].
  cbn [sub_space]. by rewrite (bool_decide_eq_false_2 _ Hc).
Qed.

Lemma sub_escaped_other c Y :
  c <> backslash -> sub_escaped (c :: Y) = c :: sub_escaped Y.
Proof.
  intros Hc. destruct Y as [|c2 [|c3 r']]; try done.
  cbn [sub_escaped]. by rewrite (bool_decide_eq_false_2 _ Hc).
Qed.

Lemma sub_escaped_keep c Y :
  (forall z, Y <> backslash :: "s"%char :: z) ->
  sub_escaped (c :: Y) = c :: sub_escaped Y.
Proof.
  intros HY. destruct Y as [|c2 [|c3 r']]; try done.
  cbn [sub_escaped].
  destruct (bool_decide (c = backslash)); [|done].
  destruct (bool_decide (c2 = backslash)) eqn:E2; [|done].
  destruct (bool_decide (c3 = "s"%char)) eqn:E3; [|done].
  apply bool_decide_eq_true in E2, E3. subst. by destruct (HY r').
Qed.

Lemma sub_space_true_head c2 r' z :
  sub_space true (c2 :: r') = backslash :: "s"%char :: z ->
  c2 = backslash /\ exists r'', r' = "s"%char :: r''.
Proof.
  rewrite sub_space_after_backslash. intros [= -> E]. split; [done|].
  rewrite bool_decide_eq_true_2 in E by done.
  destruct r' as [|c3 r'']; [done|].
  rewrite sub_space_after_backslash in E. injection E as -> _. by eexists.
Qed.

Lemma backslash_not_s : backslash <> "s"%char.
Proof. done. Qed.

Lemma space_not_backslash : " "%char <> backslash.
Proof. done. Qed.

(** The two substitutions of the source, one after the other, are the one
    pass of the spec. *)
Lemma sub_escaped_sub_space cs : forall p,
  sub_escaped (sub_space p cs) = Spec.space_escape p cs.
Proof.
  assert (Hlen : forall n cs, (length cs < n)%nat -> forall p,
            sub_escaped (sub_space p cs) = Spec.space_escape p cs).
  { clear cs. induction n as [|n IH]; intros cs Hn p; [lia|].
    destruct cs as [|c [|c2 r']]; [done|done|].
    cbn [length] in Hn.
    destruct (bool_decide (c = backslash) && bool_decide (c2 = "s"%char)
              && negb p) eqn:Hsingle.
    - (* a backslash and s, not after a backslash: one space *)
      apply andb_prop in Hsingle as [Hsingle Hp].
      apply andb_prop in Hsingle as [Hc Hc2].
      apply bool_decide_eq_true in Hc, Hc2. subst c c2.
      apply negb_true_iff in Hp. subst p.
      cbn [sub_space].
      rewrite (bool_decide_eq_true_2 (backslash = backslash)) by done.
      rewrite (bool_decide_eq_true_2 ("s"%char = "s"%char)) by done.
      cbn [andb negb].
      rewrite (sub_escaped_other _ _ space_not_backslash).
      rewrite IH by (cbn [length] in *; lia).
      cbn [Spec.space_escape].
      rewrite (bool_decide_eq_true_2 (backslash = backslash)) by done.
      rewrite (bool_decide_eq_true_2 ("s"%char = "s"%char)) by done.
      rewrite (bool_decide_eq_false_2 ("s"%char = backslash)) by done.
      cbn [andb negb]. by destruct r'.
    - assert (Hsub : sub_space p (c :: c2 :: r')
                     = c :: sub_space (bool_decide (c = backslash)) (c2 :: r')).
      { cbn [sub_space]. by rewrite Hsingle. }
      rewrite Hsub.
      destruct (bool_decide (c = backslash)) eqn:Hc.
      + apply bool_decide_eq_true in Hc. subst c.
        destruct (bool_decide (c2 = backslash)) eqn:Hc2.
        * apply bool_decide_eq_true in Hc2. subst c2.
          destruct r' as [|c3 r''].
          { done. }
          destruct (bool_decide (c3 = "s"%char)) eqn:Hc3.
          -- (* two backslashes and s *)
             apply bool_decide_eq_true in Hc3. subst c3.
             rewrite !sub_space_after_backslash.
             rewrite (bool_decide_eq_false_2 ("s"%char = backslash)) by done.
             cbn [sub_escaped].
             rewrite (bool_decide_eq_true_2 (backslash = backslash)) by done.
             rewrite (bool_decide_eq_true_2 ("s"%char = "s"%char)) by done.
             cbn [andb]. rewrite IH by (cbn [length] in *; lia).
             cbn [Spec.space_escape].
             rewrite (bool_decide_eq_true_2 (backslash = backslash)) by done.
             by rewrite (bool_decide_eq_true_2 ("s"%char = "s"%char)).
          -- apply bool_decide_eq_false in Hc3.
             rewrite sub_escaped_keep.
             ++ rewrite IH by (cbn [length] in *; lia).
                cbn [Spec.space_escape].
                rewrite (bool_decide_eq_true_2 (backslash = backslash)) by done.
                rewrite (bool_decide_eq_false_2 (c3 = "s"%char)) by done.
                rewrite (bool_decide_eq_false_2 (backslash = "s"%char)) by done.
                done.
             ++ intros z Hz. apply sub_space_true_head in Hz as [_ [r3 [= ? ?]]].
                done.
        * apply bool_decide_eq_false in Hc2.
          rewrite sub_escaped_keep.
          -- rewrite IH by (cbn [length] in *; lia).
             cbn [Spec.space_escape].
             rewrite (bool_decide_eq_true_2 (backslash = backslash)) by done.
             rewrite (bool_decide_eq_false_2 (c2 = backslash)) by done.
             cbn [andb] in *. rewrite Hsingle. by destruct r'.
          -- intros z Hz. by apply sub_space_true_head in Hz as [? _].
      + apply bool_decide_eq_false in Hc.
        rewrite (sub_escaped_other _ _ Hc). rewrite IH by (cbn [length] in *; lia).
        cbn [Spec.space_escape]. rewrite (bool_decide_eq_false_2 _ Hc).
        cbn [andb]. by destruct r'. }
  intros p. apply (Hlen (S (length cs))). lia.
Qed.

End ReadFacts.

(** ** Codecs *)

Section CodecFacts.
Import PyStr Builtin.

Lemma byte_of_ascii_code c :
  Byte.to_N (byte_of_ascii c) = code c /\ ascii_of_byte (byte_of_ascii c) = c.
Proof. destruct c as [[] [] [] [] [] [] [] []]; vm_compute; done. Qed.

(** ASCII bytes decode to the same characters. *)
Lemma utf8_chars_ascii cs :
  Forall (fun c => (code c < 128)%N) cs ->
  utf8_chars (map byte_of_ascii cs) = Returned cs.
Proof.
  induction 1 as [|c cs Hc _ IH]; [done|].
  cbn [map utf8_chars].
  destruct (byte_of_ascii_code c) as [-> ->].
  apply N.ltb_lt in Hc. rewrite Hc. by rewrite IH.
Qed.

Lemma escape_plain cs :
  Forall (fun c => Spec.plain c = true) cs ->
  flat_map Json.escape_char cs = cs.
Proof.
  induction 1 as [|c cs Hc _ IH]; [done|].
  cbn [flat_map]. rewrite IH. unfold Spec.plain in Hc.
  apply andb_prop in Hc as [Hc Hr]. apply andb_prop in Hc as [Hq Hb].
  apply negb_true_iff in Hq, Hb.
  apply andb_prop in Hr as [Hlo Hhi].
  apply N.leb_le in Hlo, Hhi.
  unfold Json.escape_char. rewrite Hq, Hb.
  repeat match goal with
         | |- context [(?n =? ?k)%N] =>
             rewrite (proj2 (N.eqb_neq n k)) by lia
         end.
  apply N.leb_le in Hlo, Hhi. by rewrite Hlo, Hhi.
Qed.

Lemma scan_string_plain cs rest :
  Forall (fun c => Spec.plain c = true) cs ->
  Json.scan_string (cs ++ dquote :: rest) = Returned (cs, rest).
Proof.
  induction 1 as [|c cs Hc _ IH].
  - cbn. by rewrite bool_decide_eq_true_2.
  - cbn [app Json.scan_string]. rewrite IH. unfold Spec.plain in Hc.
    apply andb_prop in Hc as [Hc Hr]. apply andb_prop in Hc as [Hq Hb].
    apply negb_true_iff in Hq, Hb. rewrite Hq, Hb.
    apply andb_prop in Hr as [Hlo _]. apply N.leb_le in Hlo.
    by rewrite (proj2 (N.ltb_ge (code c) 32)) by lia.
Qed.

(** A text of plain characters survives [json.dumps] and [json.loads]. *)
Lemma dumps_plain cs :
  Forall (fun c => Spec.plain c = true) cs ->
  Json.dumps (VStr (text cs)) = Returned (text (dquote :: cs ++ [dquote])).
Proof.
  intros Hp. unfold Json.dumps. cbn [Json.dumps_chars].
  unfold Json.encode_string. by rewrite chars_text, escape_plain.
Qed.

Lemma decode_plain cs :
  Forall (fun c => Spec.plain c = true) cs ->
  Json.decode (text (dquote :: cs ++ [dquote])) = Returned (VStr (text cs)).
Proof.
  intros Hp. unfold Json.decode. rewrite chars_text.
  cbn [Json.skip_ws]. change (Json.is_ws dquote) with false. cbn iota.
  cbn [Json.scan_value]. rewrite bool_decide_eq_true_2 by done.
  by rewrite scan_string_plain.
Qed.

Lemma b64_text_plain b :
  Forall (fun c => Spec.plain c = true) (Base64.b2a_base64 b)
  /\ Forall (fun c => (code c < 128)%N) (Base64.b2a_base64 b).
Proof.
  pose proof (b2a_base64_chars b) as Hc.
  split; eapply Forall_impl; try exact Hc; intros c Hb;
    by destruct (b64_char_plain c Hb).
Qed.

Lemma decode_utf8_b64encode b :
  decode_utf8 (Base64.b64encode b) = Returned (text (Base64.b2a_base64 b)).
Proof.
  unfold decode_utf8, Base64.b64encode.
  by rewrite utf8_chars_ascii by apply b64_text_plain.
Qed.

(** [base64.b64decode] undoes [base64.b64encode]. *)
Lemma b64decode_b64encode b :
  Base64.b64decode (text (Base64.b2a_base64 b)) = Returned b.
Proof.
  unfold Base64.b64decode, Base64.is_ascii_text. rewrite chars_text.
  assert (Ha : forallb (fun c => (N_of_ascii c <? 128)%N)
                       (Base64.b2a_base64 b) = true).
  { apply forallb_forall. intros c Hc.
    destruct (b64_text_plain b) as [_ Hlt].
    rewrite Forall_forall in Hlt. apply N.ltb_lt. apply Hlt.
    by apply list_elem_of_In. }
  rewrite Ha. by rewrite a2b_scan_b2a_base64.
Qed.

End CodecFacts.

(** ** Writing, then reading *)

Section RoundTrip.
Context `{Util} `{Host} `{KeyValueStore}.
Import PyStr Builtin.

(** C3. Writing a byte sequence through [binary] under a key that resolves
    to a requested variable of type Binary, and then reading that variable
    through [binary] with [b64decode] set and [decode] unset, returns the
    bytes written (as a [BinaryVariable], a [bytes] with the same
    content), on any store that keeps what is created. *)
Theorem C3_binary_round_trip (cr : PlaybookCreate.t) (rd : PlaybookRead.t)
    key variable b validate w :
  PlaybookRead.context rd = PlaybookCreate.context cr ->
  PlaybookCreate._get_variable cr (Some key) (Some "Binary") = Some variable ->
  variable ∈ PlaybookCreate.output_variables cr ->
  lower (get_playbook_variable_type variable) = lower "Binary" ->
  Spec.keeps (PlaybookCreate.context cr) (strip variable) (store w) ->
  exists h w1 w2,
    PlaybookCreate.binary cr (Some key) (VBytes b) validate true w
    = (Returned h, w1)
    /\ PlaybookRead.binary rd (Some variable) true false w1
       = (Returned (VBinaryVariable b), w2).
Proof.
  intros Hctx Hvar Hreq Hty Hkeep.
  destruct (b64_text_plain b) as [Hplain _].
  destruct (Hkeep (VStr (text (dquote :: Base64.b2a_base64 b ++ [dquote]))))
    as (h & s1 & Hcreate & s2 & Hread).
  eexists h, _, _. split.
  - unfold PlaybookCreate.binary. unfold bind at 1.
    rewrite check_null_value by done.
    unfold PlaybookCreate.resolve_for_write. rewrite Hvar.
    unfold PlaybookCreate._check_requested, PlaybookCreate.is_requested.
    rewrite bool_decide_eq_true_2 by done. cbn [andb negb].
    unfold PlaybookCreate._check_variable_type.
    rewrite bool_decide_eq_true_2 by done. cbn [negb].
    unfold bind at 1. cbn [ret isinstance_bytes negb].
    rewrite andb_false_r.
    unfold PlaybookCreate.b64_text. rewrite decode_utf8_b64encode.
    unfold bind at 1. cbn [ret].
    unfold PlaybookCreate._serialize_data. rewrite dumps_plain by done.
    unfold bind at 1. cbn [ret].
    unfold PlaybookCreate._create_data, except_RuntimeError, call_create.
    rewrite Hcreate. reflexivity.
  - unfold PlaybookRead.binary, PlaybookRead.read_typed.
    unfold PlaybookRead._check_variable_type.
    rewrite bool_decide_eq_true_2 by done. cbn [negb].
    unfold bind at 1. cbn [ret].
    unfold PlaybookRead._get_data, except_RuntimeError, call_read.
    unfold bind at 1. cbn [store calls]. rewrite Hctx, Hread.
    cbn [is_none].
    unfold PlaybookRead._deserialize_data. cbn [json_loads].
    rewrite decode_plain by done.
    unfold bind at 1. cbn [ret isinstance_str andb].
    unfold PlaybookRead.decode_element.
    rewrite b64decode_b64encode. reflexivity.
Qed.

End RoundTrip.

(** ** Embedded variables *)

Section EmbeddedFacts.
Context `{Util} `{Host} `{KeyValueStore}.
Import PyStr Builtin PlaybookRead.
Variable self : PlaybookRead.t.
Variable any : option str -> M pyval.

Lemma bind_ret {A} (m : M A) w : bind m (fun a => ret a) w = m w.
Proof. unfold bind, ret. by destruct (m w) as [[a|e] w']. Qed.

(** The loop over exactly one match. *)
Lemma read_embedded_one s m w :
  variable_expansion_finditer s = [m] ->
  _read_embedded any (VStr s) w =
  match resolve_match any m w with
  | (Returned v, w') => (Returned (splice (VStr s) (group0 m) v), w')
  | (Raised e, w') => (Raised e, w')
  end.
Proof.
  intros Hm. unfold _read_embedded. cbn [is_none py_str]. rewrite Hm.
  cbn [for_each]. unfold embed_match, bind, ret.
  by destruct (resolve_match any m w) as [[v|e] w'].
Qed.

Lemma read_embedded_none s w :
  variable_expansion_finditer s = [] ->
  _read_embedded any (VStr s) w = (Returned (VStr s), w).
Proof. intros Hm. unfold _read_embedded. cbn [is_none py_str]. by rewrite Hm. Qed.

(** A typed read of a String variable that holds the JSON text of [s],
    [s] itself being no variable: the text is read, decoded, and handed to
    the embedded resolution. *)
Lemma string_read key raw s st' w :
  lower (get_playbook_variable_type key) = lower "String" ->
  client_read (context self) (strip key) (store w) = (Returned (VStr raw), st') ->
  Json.decode raw = Returned (VStr s) ->
  is_playbook_variable (VStr s) = false ->
  string self any (Some key) true w =
  match _read_embedded any (VStr s)
          {| store := st';
             calls := calls w ++ [CallRead (context self) (strip key)] |} with
  | (Returned d, w') => (Returned (_coerce_string_value d), w')
  | (Raised e, w') => (Raised e, w')
  end.
Proof.
  intros Hty Hread Hjson Hvar.
  unfold string, read_typed, _check_variable_type.
  rewrite bool_decide_eq_true_2 by done. cbn [negb].
  unfold bind at 1. cbn [ret].
  unfold _get_data, except_RuntimeError, call_read.
  unfold bind at 1. rewrite Hread. cbn [is_none].
  unfold bind at 1. cbn [decode_if_bytes ret].
  unfold _deserialize_data. cbn [json_loads]. rewrite Hjson.
  unfold bind at 1. cbn [ret]. rewrite Hvar. cbn [andb negb].
  unfold bind, ret.
  by destruct (_read_embedded any (VStr s) _) as [[d|e] w'].
Qed.

(** C6. A String variable holds a text [s] that is no variable itself and
    contains one embedded playbook variable, which reads as the text [r]:
    the read of the outer variable returns [s] with the embedded variable
    replaced by [r]. *)
Theorem C6_embedded_variable_is_substituted key raw s st' m r w w2 :
  lower (get_playbook_variable_type key) = lower "String" ->
  client_read (context self) (strip key) (store w) = (Returned (VStr raw), st') ->
  Json.decode raw = Returned (VStr s) ->
  is_playbook_variable (VStr s) = false ->
  variable_expansion_finditer s = [m] ->
  group_origin m = "#" ->
  is_binary_type (group_type m) = false ->
  any (Some (group0 m))
      {| store := st';
         calls := calls w ++ [CallRead (context self) (strip key)] |}
  = (Returned (VStringVariable r), w2) ->
  string self any (Some key) true w
  = (Returned (VStr (replace s (group0 m) r)), w2).
Proof.
  intros Hty Hread Hjson Hvar Hm Ho Hb Hany.
  rewrite (string_read key raw s st') by done.
  rewrite (read_embedded_one s m) by done.
  unfold resolve_match. rewrite Ho.
  rewrite bool_decide_eq_true_2 by done.
  unfold bind at 1. rewrite Hany, Hb. reflexivity.
Qed.

(** The lookup of a platform variable that is not of a binary type. *)
Lemma resolve_match_platform m v w :
  group_origin m = "&" ->
  is_binary_type (group_type m) = false ->
  resolve_variable (group0 m) = Returned (VSensitive v) ->
  resolve_match any m w = (Returned (VSensitive v), w).
Proof.
  intros Ho Hb Hr. unfold resolve_match. rewrite Ho.
  rewrite bool_decide_eq_false_2 by done.
  rewrite bool_decide_eq_true_2 by done.
  unfold bind, lift. by rewrite Hr, Hb.
Qed.

(** C7. The text [s] holds one variable, and the variable resolves to a
    confidential value: when [s] is exactly the variable, the embedded
    resolution returns the confidential value itself; when the variable is
    only a part of [s], it returns [s] with the variable replaced, as text,
    by the text the confidential value wraps. *)
Theorem C7_confidential_value_is_kept s m secret w w' :
  variable_expansion_finditer s = [m] ->
  resolve_match any m w = (Returned (VSensitive secret), w') ->
  _read_embedded any (VStr s) w =
  (Returned (if bool_decide (s = group0 m) then VSensitive secret
             else VStr (replace s (group0 m) secret)), w').
Proof.
  intros Hm Hr. rewrite (read_embedded_one s m) by done. rewrite Hr.
  by cbn [splice eq_str isinstance_str py_str].
Qed.

(** C9. The two substitutions of [_process_space_patterns] are the
    space-escape transform of the spec. [variable] applies it to a key
    that is no variable, before the embedded resolution, and not to a key
    that is a variable; the typed read of a String does not apply it: a
    stored text without embedded variables is returned as it is. *)
Theorem C9_space_escape_on_free_text_only :
  (forall s,
     _process_space_patterns s = text (Spec.space_escape false (chars s)))
  /\ (forall key w,
        variable_playbook_match (strip key) = false ->
        variable any (Some key) false w
        = _read_embedded any (VStr (_process_space_patterns key)) w)
  /\ (forall key w,
        variable_playbook_match (strip key) = true ->
        variable any (Some key) false w = any (Some (strip key)) w)
  /\ (forall key raw s st' w,
        lower (get_playbook_variable_type key) = lower "String" ->
        client_read (context self) (strip key) (store w)
        = (Returned (VStr raw), st') ->
        Json.decode raw = Returned (VStr s) ->
        is_playbook_variable (VStr s) = false ->
        variable_expansion_finditer s = [] ->
        string self any (Some key) true w
        = (Returned (VStr s),
           {| store := st';
              calls := calls w ++ [CallRead (context self) (strip key)] |})).
Proof.
  repeat split.
  - intros s. unfold _process_space_patterns.
    by rewrite chars_text, sub_escaped_sub_space.
  - intros key w Hm. unfold variable. rewrite Hm. apply bind_ret.
  - intros key w Hm. unfold variable. rewrite Hm. apply bind_ret.
  - intros key raw s st' w Hty Hread Hjson Hvar Hm.
    rewrite (string_read key raw s st') by done.
    by rewrite read_embedded_none.
Qed.

End EmbeddedFacts.

(** ** The worked configuration *)

Section Worked.
Import PyStr Builtin Example.
#[local] Existing Instance SpecUtil.util.
#[local] Existing Instance Example.redis.

Lemma memory_store_keeps (context key : string)
    (s : list MemoryStore.entry) :
  @Spec.keeps Example.redis context key s.
Proof.
  intros value. eexists _, _. split; [reflexivity|].
  eexists. cbn. by rewrite !bool_decide_eq_true_2.
Qed.

(** C1, on the code. The variable [a] embeds [b], and the value of [b]
    embeds [c]: the read of [a] resolves both levels, because the nested
    read of [b] goes through [any] and [string], which scans the value it
    fetched for embedded variables again. *)
Theorem C1_fetched_value_is_scanned_again :
  @PlaybookRead.string _ host redis reader (@PlaybookRead.any _ host redis reader 3)
    (Some "#App:1:a!String") true world
  = (Returned (VStr "x y z"),
     @Build_World redis held
       [CallRead "ctx" "#App:1:a!String";
        CallRead "ctx" "#App:1:b!String";
        CallRead "ctx" "#App:1:c!String"]).
Proof. vm_compute. reflexivity. Qed.

#[local] Existing Instance Example.host.

(** No depth of calls is enough for a variable whose value embeds the
    variable itself: every nested read scans what it fetched and reads
    again. *)
Lemma self_reference_exhausts_any_depth depth : forall log,
  fst (PlaybookRead.any reader depth (Some "#App:1:l!String")
         (@Build_World redis looping log))
  = Raised RecursionDepth.
Proof.
  induction depth as [|depth IH]; intros log; [reflexivity|].
  cbn [PlaybookRead.any].
  generalize dependent (PlaybookRead.any reader depth). intros f Hf.
  unfold PlaybookRead.any_body.
  change (strip "#App:1:l!String") with "#App:1:l!String".
  change (lower (get_playbook_variable_type "#App:1:l!String")) with "string".
  change (PlaybookRead.variable_type_map reader f "string"
            (Some "#App:1:l!String"))
    with (PlaybookRead.string reader f (Some "#App:1:l!String") true).
  unfold bind at 1.
  rewrite (string_read reader f "#App:1:l!String"
             (text (Json.encode_string "again #App:1:l!String"))
             "again #App:1:l!String" (looping : @kv_state redis))
    by reflexivity.
  rewrite (read_embedded_one f "again #App:1:l!String"
             {| group0 := "#App:1:l!String"; group_origin := "#";
                group_type := Some "String" |}) by reflexivity.
  unfold PlaybookRead.resolve_match. cbn [group0 group_origin group_type].
  change (bool_decide ("#" = "#")) with true. cbn iota.
  unfold bind at 1.
  match goal with
  | |- context [f ?a ?b] =>
      let E := fresh in
      assert (E : fst (f a b) = Raised RecursionDepth) by apply Hf;
      destruct (f a b) as [[v|e] w']; cbn in E; [discriminate E|]
  end.
  cbn. congruence.
Qed.

(** C2, a witness: a String write under a variable that was not
    requested returns none and leaves the store alone. *)
Lemma C2_witness :
  PlaybookCreate.write writer PlaybookCreate.OpString
    (Some "#App:1:zz!String") (VStr "v") true true world
  = (Returned VNone, world).
Proof.
  apply (C2_unrequested_write_is_dropped writer PlaybookCreate.OpString
           "#App:1:zz!String" (VStr "v") true "#App:1:zz!String" world).
  - reflexivity.
  - unfold writer; cbn [PlaybookCreate.output_variables].
    rewrite !not_elem_of_cons. repeat split; try discriminate.
    apply not_elem_of_nil.
  - discriminate.
Defined.

(** C2 as stated fails: the key resolves to a variable outside the
    requested set, and the StringArray write of a text, with the default
    flags, raises instead of returning none. *)
Lemma C2_counterexample :
  PlaybookCreate._get_variable writer (Some "#App:1:zz!StringArray")
    (Some "StringArray") = Some "#App:1:zz!StringArray"
  /\ ("#App:1:zz!StringArray" ∉ PlaybookCreate.output_variables writer)
  /\ PlaybookCreate.string_array writer (Some "#App:1:zz!StringArray")
       (VStr "abc") true true world
     = (Raised (RuntimeError "Invalid data provided for KeyValueArray."),
        world)
  /\ Raised (RuntimeError "Invalid data provided for KeyValueArray.")
     <> Returned VNone.
Proof.
  split; [reflexivity|]. split.
  { unfold writer; cbn [PlaybookCreate.output_variables].
    rewrite !not_elem_of_cons. repeat split; try discriminate.
    apply not_elem_of_nil. }
  split; [reflexivity|discriminate].
Qed.

(** C4, a witness: in production the null write does nothing; under the
    test framework, with the Redis client, it writes the shadow key. *)
Lemma C4_witness :
  PlaybookCreate.write writer PlaybookCreate.OpString (Some "s") VNone
    true true world
  = (Returned VNone, world)
  /\ @PlaybookCreate.write _ test_host redis writer PlaybookCreate.OpString
       (Some "s") VNone true true world
     = (Returned VNone,
        @Build_World redis
          (("ctx", "#App:1:s!String_NULL_VALIDATION", VStr EmptyString)
             :: held)
          [CallHset "ctx" "#App:1:s!String_NULL_VALIDATION"
                    (VStr EmptyString)]).
Proof.
  split.
  - apply (proj1 (C4_null_value_is_not_written writer PlaybookCreate.OpString
                    (Some "s") true true world)).
    reflexivity.
  - exact (proj2 (@C4_null_value_is_not_written _ test_host redis writer
                    PlaybookCreate.OpString (Some "s") true true world)
             eq_refl (VInt 1)
             (("ctx", "#App:1:s!String_NULL_VALIDATION", VStr EmptyString)
                :: held)
             eq_refl).
Defined.

(** C5, a witness: a key tagged String read through [binary]. *)
Lemma C5_witness :
  PlaybookRead.read reader 3 (PlaybookRead.OpBinary true false)
    (Some "#App:1:x!String") world
  = (Raised (RuntimeError
       "Invalid variable provided (#App:1:x!String), variable must be of type Binary."),
     world).
Proof.
  apply (C5_wrong_type_raises_before_any_read reader 3
           (PlaybookRead.OpBinary true false) "#App:1:x!String" world).
  vm_compute. discriminate.
Defined.

(** C3, a witness: the bytes 00 01 ff written under the bare key of a
    requested Binary variable and read back. *)
Lemma C3_witness :
  exists h w1 w2,
    PlaybookCreate.binary writer (Some "bin") (VBytes [x00; x01; xff])
      true true world = (Returned h, w1)
    /\ PlaybookRead.binary reader (Some "#App:1:bin!Binary") true false w1
       = (Returned (VBinaryVariable [x00; x01; xff]), w2).
Proof.
  apply (C3_binary_round_trip writer reader "bin" "#App:1:bin!Binary"
           [x00; x01; xff] true world).
  - reflexivity.
  - reflexivity.
  - apply list_elem_of_here.
  - reflexivity.
  - apply memory_store_keeps.
Defined.

(** C6, a witness: the example of the spec. *)
Lemma C6_witness :
  PlaybookRead.string reader (PlaybookRead.any reader 2)
    (Some "#App:1:o!String") true world
  = (Returned (VStr "hello there world"),
     @Build_World redis held
       [CallRead "ctx" "#App:1:o!String"; CallRead "ctx" "#App:1:x!String"]).
Proof.
  apply (@C6_embedded_variable_is_substituted SpecUtil.util host redis reader
           (PlaybookRead.any reader 2) "#App:1:o!String"
           (text (Json.encode_string "hello #App:1:x!String world"))
           "hello #App:1:x!String world" held
           {| group0 := "#App:1:x!String"; group_origin := "#";
              group_type := Some "String" |}
           "there" world);
    vm_compute; reflexivity.
Defined.

(** C7, a witness: a platform variable that resolves to a confidential
    value, alone and inside a larger text. *)
Lemma C7_witness :
  PlaybookRead._read_embedded (PlaybookRead.any reader 2)
    (VStr "&TC:1:secret!String") world
  = (Returned (VSensitive "hunter2"), world)
  /\ PlaybookRead._read_embedded (PlaybookRead.any reader 2)
       (VStr "pw=&TC:1:secret!String") world
     = (Returned (VStr "pw=hunter2"), world).
Proof.
  split.
  - apply (C7_confidential_value_is_kept (PlaybookRead.any reader 2)
             "&TC:1:secret!String"
             {| group0 := "&TC:1:secret!String"; group_origin := "&";
                group_type := Some "String" |} "hunter2" world world);
      vm_compute; reflexivity.
  - apply (C7_confidential_value_is_kept (PlaybookRead.any reader 2)
             "pw=&TC:1:secret!String"
             {| group0 := "&TC:1:secret!String"; group_origin := "&";
                group_type := Some "String" |} "hunter2" world world);
      vm_compute; reflexivity.
Defined.

(** C8, a witness: a full variable resolves to itself under a hint of
    another type; a bare key resolves to the first entry with that key. *)
Lemma C8_witness :
  PlaybookCreate._get_variable writer (Some "#App:1:zz!String")
    (Some "Binary") = Some "#App:1:zz!String"
  /\ Spec.first_match "s" None (PlaybookCreate.output_variables writer)
       "#App:1:s!String".
Proof.
  split.
  - apply (proj1 (C8_key_resolution writer "#App:1:zz!String" (Some "Binary"))).
    reflexivity.
  - destruct (proj2 (C8_key_resolution writer "s" None)) as [Hfirst _];
      [reflexivity|].
    apply Hfirst. reflexivity.
Defined.

(** C9, a witness: an escaped space, an escaped backslash. *)
Lemma C9_witness :
  PlaybookRead._process_space_patterns
    (text ["a"; backslash; "s"; "b"; backslash; backslash; "s"; "c"]%char)
  = text ["a"; " "; "b"; backslash; "s"; "c"]%char
  /\ PlaybookRead.string reader (PlaybookRead.any reader 2)
       (Some "#App:1:t!String") true world
     = (Returned (VStr (text ["a"; backslash; "s"; "b"]%char)),
        @Build_World redis held [CallRead "ctx" "#App:1:t!String"]).
Proof.
  destruct (C9_space_escape_on_free_text_only reader
              (PlaybookRead.any reader 2)) as (Hspec & _ & _ & Hstring).
  split.
  - rewrite Hspec. reflexivity.
  - apply (Hstring "#App:1:t!String"
             (text (Json.encode_string "a\sb")) "a\sb"
             (held : @kv_state redis) world);
      vm_compute; reflexivity.
Defined.

(** C10, a witness: [raw] with both flags unset, under a key that is no
    variable and was not requested. *)
Lemma C10_witness :
  PlaybookCreate.raw writer (Some " k") (VStr "v") false false world
  = (Returned (VInt 1),
     @Build_World redis (("ctx", "k", VStr "v") :: held)
       [CallCreate "ctx" "k" (VStr "v")]).
Proof.
  etransitivity.
  - apply (C10_raw_writes_unconditionally writer " k" (VStr "v") false false
             world).
    discriminate.
  - reflexivity.
Defined.

(** C10 as stated fails: the value is committed under the stripped key,
    and the store holds nothing under the key as given. *)
Lemma C10_counterexample :
  calls (snd (PlaybookCreate.raw writer (Some " k") (VStr "v") true true world))
  = [CallCreate "ctx" "k" (VStr "v")]
  /\ MemoryStore.lookup
       (store (snd (PlaybookCreate.raw writer (Some " k") (VStr "v") true true
                      world))) "ctx" " k" = VNone
  /\ MemoryStore.lookup
       (store (snd (PlaybookCreate.raw writer (Some " k") (VStr "v") true true
                      world))) "ctx" "k" = VStr "v".
Proof. vm_compute. done. Qed.

End Worked.

(** * Further properties *)

(** ** Writing: resolution, type tags, validation *)

Section MoreWriteFacts.
Context `{Util} `{Host} `{KeyValueStore}.
Import PyStr Builtin PlaybookCreate.
Variable self : PlaybookCreate.t.

Lemma create_data_commit key value w :
  _create_data self key value w
  = Spec.commit (context self) (strip key) value w.
Proof.
  unfold _create_data, Spec.commit, except_RuntimeError, call_create.
  destruct (client_create _ _ _ _) as [[h|e] s]; [done|]. by destruct e.
Qed.

Lemma check_requested_true variable when_requested :
  when_requested = false \/ variable ∈ output_variables self ->
  _check_requested self variable when_requested = true.
Proof.
  unfold _check_requested, is_requested. intros [->|Hin]; [done|].
  rewrite bool_decide_eq_true_2 by done. by rewrite andb_false_r.
Qed.

Lemma resolve_for_write_resolved key type_ variable when_requested body w :
  _get_variable self key (Some type_) = Some variable ->
  when_requested = false \/ variable ∈ output_variables self ->
  resolve_for_write self key type_ when_requested body w
  = (if bool_decide (lower (get_playbook_variable_type variable) = lower type_)
     then body variable w
     else (Raised (RuntimeError ("Invalid variable provided (" +:+ variable
                     +:+ "), variable must be of type " +:+ type_ +:+ ".")),
           w)).
Proof.
  intros Hv Hreq. unfold resolve_for_write. rewrite Hv.
  rewrite check_requested_true by done. cbn [negb].
  unfold _check_variable_type. by destruct (bool_decide _).
Qed.

(** Every typed write starts the same way: with a value that is not null
    and, for the array types, passes the iterable check, it is the
    resolution for the type of the operation followed by the rest of the
    operation. *)
Lemma write_enters op key value validate when_requested w :
  value <> VNone ->
  op_is_array op && validate && Spec.not_an_array value = false ->
  exists body,
    write self op (Some key) value validate when_requested w
    = resolve_for_write self (Some key) (op_type op) when_requested body w.
Proof.
  intros Hval Harr. apply is_none_false in Hval.
  destruct op; cbn [write op_type op_is_array andb] in *;
    unfold binary, binary_array, key_value, key_value_array, string,
      string_array, tc_batch, tc_entity, tc_entity_array;
    unfold bind at 1; rewrite (check_null_value _ _ _ _ Hval);
    try (eexists; reflexivity);
    unfold bind at 1; rewrite check_iterable_spec, Harr;
    eexists; reflexivity.
Qed.

(** X1. A typed write under a key that resolves to a variable of another
    type than the operation writes raises the wrong-type error and leaves
    the store alone, provided the variable would be written at all (it was
    requested, or [when_requested] is unset). *)
Theorem write_wrong_type_raises op key variable value validate when_requested w :
  value <> VNone ->
  op_is_array op && validate && Spec.not_an_array value = false ->
  _get_variable self (Some key) (Some (op_type op)) = Some variable ->
  when_requested = false \/ variable ∈ output_variables self ->
  lower (get_playbook_variable_type variable) <> lower (op_type op) ->
  write self op (Some key) value validate when_requested w
  = (Raised (RuntimeError ("Invalid variable provided (" +:+ variable
               +:+ "), variable must be of type " +:+ op_type op +:+ ".")),
     w).
Proof.
  intros Hval Harr Hv Hreq Hty.
  destruct (write_enters op key value validate when_requested w Hval Harr)
    as [body ->].
  rewrite (resolve_for_write_resolved _ _ variable) by done.
  by rewrite bool_decide_eq_false_2.
Qed.

(** X2. A typed write under a key that does not resolve (a bare key with
    no matching entry in the requested set) returns none and leaves the
    store alone, also when [when_requested] is unset: only a full
    variable can be written without having been requested. *)
Theorem write_unresolved_key_is_dropped op key value validate when_requested w :
  value <> VNone ->
  _get_variable self (Some key) (Some (op_type op)) = None ->
  write self op (Some key) value validate when_requested w
  = (if op_is_array op && validate && Spec.not_an_array value
     then Raised (RuntimeError "Invalid data provided for KeyValueArray.")
     else Returned VNone, w).
Proof.
  intros Hval Hv.
  destruct (op_is_array op && validate && Spec.not_an_array value) eqn:Harr.
  - apply is_none_false in Hval.
    destruct op; cbn [op_is_array andb] in Harr; try discriminate;
      cbn [write];
      unfold binary_array, key_value_array, string_array, tc_entity_array;
      unfold bind at 1; rewrite (check_null_value _ _ _ _ Hval);
      unfold bind at 1; by rewrite check_iterable_spec, Harr.
  - destruct (write_enters op key value validate when_requested w Hval Harr)
      as [body ->].
    unfold resolve_for_write. by rewrite Hv.
Qed.

Lemma string_enters key value validate when_requested w :
  value <> VNone ->
  string self (Some key) value validate when_requested w
  = resolve_for_write self (Some key) "String" when_requested
      (fun variable =>
         let value := _coerce_string_value value in
         if validate && negb (isinstance_str value)
         then raise (RuntimeError ("Invalid data provided for String ("
                                   +:+ py_str value +:+ ")."))
         else bind (_serialize_data value)
                   (fun data => _create_data self variable data)) w.
Proof.
  intros Hval. apply is_none_false in Hval. unfold string.
  unfold bind at 1. by rewrite (check_null_value _ _ _ _ Hval).
Qed.

(** The String write, once the key resolves and the type tag fits: one
    commit of the JSON text. *)
Lemma string_commits key variable value s validate when_requested w :
  _get_variable self (Some key) (Some "String") = Some variable ->
  when_requested = false \/ variable ∈ output_variables self ->
  lower (get_playbook_variable_type variable) = lower "String" ->
  _coerce_string_value value = VStr s ->
  string self (Some key) value validate when_requested w
  = Spec.commit (context self) (strip variable)
      (VStr (text (Json.encode_string s))) w.
Proof.
  intros Hv Hreq Hty Hs.
  assert (Hval : value <> VNone) by (intros ->; discriminate Hs).
  rewrite string_enters by done.
  rewrite (resolve_for_write_resolved _ _ variable) by done.
  rewrite bool_decide_eq_true_2 by done. cbn zeta. rewrite Hs.
  cbn [isinstance_str negb]. rewrite andb_false_r.
  unfold bind, _serialize_data. cbn [Json.dumps Json.dumps_chars ret].
  apply create_data_commit.
Qed.

(** X3. A String write that goes through (the key resolves to a String
    variable that was requested, or [when_requested] is unset) commits,
    under the stripped variable, the JSON text of the value coerced to
    text: a bool as lower-case true or false, a number as its decimal
    text. It returns what the store returns, and none on a runtime error
    of the store. *)
Theorem string_write_commits_json key variable value s validate when_requested w :
  _get_variable self (Some key) (Some "String") = Some variable ->
  when_requested = false \/ variable ∈ output_variables self ->
  lower (get_playbook_variable_type variable) = lower "String" ->
  _coerce_string_value value = VStr s ->
  string self (Some key) value validate when_requested w
  = Spec.commit (context self) (strip variable)
      (VStr (text (Json.encode_string s))) w.
Proof. apply string_commits. Qed.

(** X4. Under [validate], a String write of a value that is no text after
    coercion (bytes, a list, an object) raises the shape error and leaves
    the store alone. *)
Theorem string_write_rejects_non_text key variable value when_requested w :
  value <> VNone ->
  _get_variable self (Some key) (Some "String") = Some variable ->
  when_requested = false \/ variable ∈ output_variables self ->
  lower (get_playbook_variable_type variable) = lower "String" ->
  isinstance_str (_coerce_string_value value) = false ->
  string self (Some key) value true when_requested w
  = (Raised (RuntimeError ("Invalid data provided for String ("
               +:+ py_str (_coerce_string_value value) +:+ ").")),
     w).
Proof.
  intros Hval Hv Hreq Hty Hs.
  rewrite string_enters by done.
  rewrite (resolve_for_write_resolved _ _ variable) by done.
  rewrite bool_decide_eq_true_2 by done. cbn zeta. by rewrite Hs.
Qed.

(** The loop of [key_value_array] over entries that pass, or that are not
    validated: each entry is kept, a model as its dict. *)
Lemma key_value_loop_keeps validate l : forall acc w,
  validate = false \/ forallb Spec.key_value_entry l = true ->
  for_each l acc (fun acc v =>
    bind (_process_object_types v validate true) (fun v_ =>
      if validate && negb (is_key_value v_)
      then raise (RuntimeError "Invalid data provided for KeyValueArray.")
      else ret (acc ++ [v_]))) w
  = (Returned (acc ++ map Spec.as_dict l), w).
Proof.
  induction l as [|v l IH]; intros acc w Hok.
  { cbn. by rewrite app_nil_r. }
  cbn [for_each map]. unfold bind at 1.
  assert (Hstep : bind (_process_object_types v validate true) (fun v_ =>
            if validate && negb (is_key_value v_)
            then raise (RuntimeError "Invalid data provided for KeyValueArray.")
            else ret (acc ++ [v_])) w
          = (Returned (acc ++ [Spec.as_dict v]), w)).
  { destruct Hok as [->|Hall].
    - unfold bind, _process_object_types. cbn [andb]. by destruct v.
    - cbn [forallb] in Hall. apply andb_prop in Hall as [Hv _].
      unfold bind, _process_object_types.
      destruct v; try discriminate Hv; cbn [negb andb Spec.as_dict];
        rewrite andb_false_r; unfold ret;
        match goal with
        | |- context [is_key_value ?x] =>
            replace (is_key_value x) with true by (symmetry; exact Hv)
        end;
        by rewrite andb_false_r. }
  rewrite Hstep. rewrite IH.
  - by rewrite <- app_assoc.
  - destruct Hok as [->|Hall]; [by left|right].
    cbn [forallb] in Hall. by apply andb_prop in Hall as [_ ?].
Qed.

(** The loop under validation stops at the first entry that does not
    pass, with a runtime error. *)
Lemma key_value_loop_rejects l : forall acc w,
  existsb (fun v => negb (Spec.key_value_entry v)) l = true ->
  exists msg,
    for_each l acc (fun acc v =>
      bind (_process_object_types v true true) (fun v_ =>
        if true && negb (is_key_value v_)
        then raise (RuntimeError "Invalid data provided for KeyValueArray.")
        else ret (acc ++ [v_]))) w
    = (Raised (RuntimeError msg), w).
Proof.
  induction l as [|v l IH]; intros acc w Hbad; [discriminate|].
  cbn [existsb] in Hbad. cbn [for_each].
  destruct (Spec.key_value_entry v) eqn:Hv.
  - cbn [negb orb] in Hbad. unfold bind at 1.
    pose proof (key_value_loop_keeps true [v] acc w) as Hone.
    cbn [for_each forallb map] in Hone. rewrite Hv in Hone.
    unfold bind at 1 in Hone.
    destruct (bind (_process_object_types v true true) _ w) as [[a|e] w1].
    + specialize (Hone (or_intror eq_refl)). cbn in Hone.
      injection Hone as -> ->. by apply IH.
    + by specialize (Hone (or_intror eq_refl)).
  - unfold bind at 1. unfold bind, _process_object_types.
    destruct v; cbn [negb andb]; unfold raise, ret; try (by eexists);
      match goal with
      | |- context [is_key_value ?x] =>
          replace (is_key_value x) with false by (symmetry; exact Hv)
      end;
      by eexists.
Qed.

Lemma key_value_array_enters key l validate when_requested w :
  key_value_array self (Some key) (VList l) validate when_requested w
  = resolve_for_write self (Some key) "KeyValueArray" when_requested
      (fun variable =>
         bind (for_each l [] (fun acc v =>
                 bind (_process_object_types v validate true) (fun v_ =>
                   if validate && negb (is_key_value v_)
                   then raise (RuntimeError
                                 "Invalid data provided for KeyValueArray.")
                   else ret (acc ++ [v_]))))
              (fun _value =>
                 bind (_serialize_data (VList _value))
                      (fun data => _create_data self variable data))) w.
Proof.
  unfold key_value_array. unfold bind at 1.
  rewrite check_null_value by done.
  unfold bind at 1. rewrite check_iterable_spec.
  cbn [Spec.not_an_array is_iterable negb]. rewrite andb_false_r.
  reflexivity.
Qed.

(** X5. Under [validate], a KeyValueArray write of a list with an entry
    that is not an object with the fields key and value (a null entry
    too, although null passes the type check of the entries) raises a
    validation error and leaves the store alone. *)
Theorem key_value_array_rejects_bad_entry key variable l when_requested w :
  _get_variable self (Some key) (Some "KeyValueArray") = Some variable ->
  when_requested = false \/ variable ∈ output_variables self ->
  lower (get_playbook_variable_type variable) = lower "KeyValueArray" ->
  existsb (fun v => negb (Spec.key_value_entry v)) l = true ->
  exists msg,
    key_value_array self (Some key) (VList l) true when_requested w
    = (Raised (RuntimeError msg), w).
Proof.
  intros Hv Hreq Hty Hbad.
  rewrite key_value_array_enters.
  rewrite (resolve_for_write_resolved _ _ variable) by done.
  rewrite bool_decide_eq_true_2 by done.
  destruct (key_value_loop_rejects l [] w Hbad) as [msg Hloop].
  exists msg. unfold bind at 1. by rewrite Hloop.
Qed.

(** X6. A KeyValueArray write of a list whose entries all pass, or with
    [validate] unset whatever the entries are, commits the JSON text of
    the list, a model entry written as its dict and nothing else
    changed. *)
Theorem key_value_array_commits_entries key variable l validate when_requested t w :
  _get_variable self (Some key) (Some "KeyValueArray") = Some variable ->
  when_requested = false \/ variable ∈ output_variables self ->
  lower (get_playbook_variable_type variable) = lower "KeyValueArray" ->
  validate = false \/ forallb Spec.key_value_entry l = true ->
  Json.dumps (VList (map Spec.as_dict l)) = Returned t ->
  key_value_array self (Some key) (VList l) validate when_requested w
  = Spec.commit (context self) (strip variable) (VStr t) w.
Proof.
  intros Hv Hreq Hty Hok Hjson.
  rewrite key_value_array_enters.
  rewrite (resolve_for_write_resolved _ _ variable) by done.
  rewrite bool_decide_eq_true_2 by done.
  unfold bind at 1. rewrite key_value_loop_keeps by done. cbn [app].
  unfold bind at 1. unfold _serialize_data. rewrite Hjson. cbn [ret].
  apply create_data_commit.
Qed.

(** X7. The generic write resolves the key once, and then is the typed
    write whose type is the type tag of the resolved variable, compared
    without regard to case, under that variable. *)
Theorem any_write_dispatches op key variable value validate variable_type
    when_requested w :
  value <> VNone ->
  _get_variable self (Some key) variable_type = Some variable ->
  when_requested = false \/ variable ∈ output_variables self ->
  lower (get_playbook_variable_type variable) = lower (op_type op) ->
  any self (Some key) value validate variable_type when_requested w
  = write self op (Some variable) value validate when_requested w.
Proof.
  intros Hval Hv Hreq Hty. apply is_none_false in Hval.
  unfold any. unfold bind at 1. rewrite (check_null_value _ _ _ _ Hval).
  rewrite Hv, check_requested_true by done. cbn [negb]. rewrite Hty.
  by destruct op.
Qed.

(** X8. A type tag that is none of the nine wire types sends the generic
    write to [raw]: the value is committed as it is under the resolved
    variable. *)
Theorem any_write_falls_back_to_raw key variable value validate variable_type
    when_requested w :
  value <> VNone ->
  _get_variable self (Some key) variable_type = Some variable ->
  when_requested = false \/ variable ∈ output_variables self ->
  (forall op, lower (get_playbook_variable_type variable) <> lower (op_type op)) ->
  any self (Some key) value validate variable_type when_requested w
  = Spec.commit (context self) (strip variable) value w.
Proof.
  intros Hval Hv Hreq Hty.
  rewrite <- create_data_commit. apply is_none_false in Hval.
  unfold any. unfold bind at 1. rewrite (check_null_value _ _ _ _ Hval).
  rewrite Hv, check_requested_true by done. cbn [negb].
  unfold variable_type_map.
  rewrite (bool_decide_eq_false_2 _ (Hty OpBinary)).
  rewrite (bool_decide_eq_false_2 _ (Hty OpBinaryArray)).
  rewrite (bool_decide_eq_false_2 _ (Hty OpKeyValue)).
  rewrite (bool_decide_eq_false_2 _ (Hty OpKeyValueArray)).
  rewrite (bool_decide_eq_false_2 _ (Hty OpString)).
  rewrite (bool_decide_eq_false_2 _ (Hty OpStringArray)).
  rewrite (bool_decide_eq_false_2 _ (Hty OpTCEntity)).
  rewrite (bool_decide_eq_false_2 _ (Hty OpTCEntityArray)).
  rewrite (bool_decide_eq_false_2 _ (Hty OpTCBatch)).
  unfold raw. unfold bind at 1. by rewrite (check_null_value _ _ _ _ Hval).
Qed.

(** X27. The variable write writes nothing that was not requested: when
    the key resolves to no variable, or to one outside the requested set,
    it returns none and leaves the store alone, whatever the value and
    its type. *)
Theorem variable_write_needs_request key value variable_type w :
  value <> VNone ->
  (forall v, _get_variable self (Some key) variable_type = Some v ->
             v ∉ output_variables self) ->
  PlaybookCreate.variable self (Some key) value variable_type w
  = (Returned VNone, w).
Proof.
  intros Hval Hout. apply is_none_false in Hval.
  unfold PlaybookCreate.variable. unfold bind at 1.
  rewrite (check_null_value _ _ _ _ Hval).
  destruct (_get_variable self (Some key) variable_type) as [v|] eqn:Hv.
  - rewrite (bool_decide_eq_false_2 _ (Hout v eq_refl)). cbn [negb].
    by destruct (output_variables self).
  - by destruct (output_variables self).
Qed.

(** X28. The variable write of a requested variable is the typed write of
    the type tag of that variable, with [validate] and [when_requested]
    set; the type hint serves the resolution only. *)
Theorem variable_write_is_typed_write op key v value variable_type w :
  value <> VNone ->
  _get_variable self (Some key) variable_type = Some v ->
  v ∈ output_variables self ->
  is_playbook_variable (VStr v) = true ->
  lower (get_playbook_variable_type v) = lower (op_type op) ->
  PlaybookCreate.variable self (Some key) value variable_type w
  = write self op (Some v) value true true w.
Proof.
  intros Hval Hv Hin Hfull Hty. apply is_none_false in Hval.
  unfold PlaybookCreate.variable. unfold bind at 1.
  rewrite (check_null_value _ _ _ _ Hval).
  assert (Hreq : _check_requested self v true = true).
  { apply check_requested_true. by right. }
  assert (Hself : _get_variable self (Some v) None = Some v).
  { unfold _get_variable. cbn [key_value_of]. by rewrite Hfull. }
  rewrite Hv, (bool_decide_eq_true_2 _ Hin). cbn [negb].
  destruct (output_variables self) as [|o rest].
  { by apply elem_of_nil in Hin. }
  unfold any. unfold bind at 1. rewrite (check_null_value _ _ _ _ Hval).
  rewrite Hself, Hreq. cbn [negb].
  rewrite Hty. by destruct op.
Qed.

End MoreWriteFacts.

(** ** Reading: misses, failures, unresolved text *)

Section MoreReadFacts.
Context `{Util} `{Host} `{KeyValueStore}.
Import PyStr Builtin PlaybookRead.
Variable self : PlaybookRead.t.

(** A typed read whose type tag matches: one read call, then none for a
    miss or a runtime error of the store, the exception for any other
    failure, and [post] on the data otherwise. *)
Lemma read_typed_matching key type_ post w :
  lower (get_playbook_variable_type key) = lower type_ ->
  read_typed self (Some key) type_ post w =
  match client_read (context self) (strip key) (store w) with
  | (Returned data, s) =>
      if is_none data
      then (Returned VNone, Spec.after_read (context self) (strip key) s w)
      else post data (Spec.after_read (context self) (strip key) s w)
  | (Raised e, s) =>
      (if is_RuntimeError e then Returned VNone else Raised e,
       Spec.after_read (context self) (strip key) s w)
  end.
Proof.
  intros Hty. unfold read_typed, _check_variable_type.
  rewrite bool_decide_eq_true_2 by done. cbn [negb].
  unfold bind at 1. cbn [ret]. unfold bind at 1.
  unfold _get_data, except_RuntimeError, call_read, Spec.after_read.
  destruct (client_read _ _ _) as [[data|e] s].
  - by destruct (is_none data).
  - by destruct e.
Qed.

Lemma read_as_typed depth op key w :
  exists post,
    read self depth op (Some key) w
    = read_typed self (Some key) (op_type op) post w
    /\ forall raw e w',
         Json.decode raw = Raised e -> is_ValueError e = true ->
         post (VStr raw) w'
         = (Raised (RuntimeError
              ("Failed to JSON load data " +:+ String dquote raw
               +:+ String dquote (" (" +:+ exn_text e +:+ ")."))), w').
Proof.
  destruct op; cbn [read op_type];
    unfold binary, binary_array, key_value, key_value_array, string,
      string_array, tc_batch, tc_entity, tc_entity_array;
    (eexists; split; [reflexivity|]);
    intros raw e w' Hraw He;
    cbn [decode_if_bytes]; unfold bind, ret, _deserialize_data;
    cbn [json_loads py_str]; rewrite Hraw, He; reflexivity.
Qed.

(** X9. A typed read of a key with the right type tag that the store does
    not hold, or whose read the store fails with a runtime error, returns
    none, after the one read call. *)
Theorem read_miss_returns_none depth op key s w :
  lower (get_playbook_variable_type key) = lower (op_type op) ->
  client_read (context self) (strip key) (store w) = (Returned VNone, s)
  \/ (exists msg, client_read (context self) (strip key) (store w)
                  = (Raised (RuntimeError msg), s)) ->
  read self depth op (Some key) w
  = (Returned VNone, Spec.after_read (context self) (strip key) s w).
Proof.
  intros Hty Hread.
  destruct (read_as_typed depth op key w) as (post & -> & _).
  rewrite read_typed_matching by done.
  by destruct Hread as [->|[msg ->]].
Qed.

(** X10. Any other exception of the store passes through a typed read
    unchanged. *)
Theorem read_store_failure_propagates depth op key e s w :
  lower (get_playbook_variable_type key) = lower (op_type op) ->
  client_read (context self) (strip key) (store w) = (Raised e, s) ->
  is_RuntimeError e = false ->
  read self depth op (Some key) w
  = (Raised e, Spec.after_read (context self) (strip key) s w).
Proof.
  intros Hty Hread He.
  destruct (read_as_typed depth op key w) as (post & -> & _).
  rewrite read_typed_matching by done. by rewrite Hread, He.
Qed.


Section WithAny.
Variable any : option str -> M pyval.

(** The String read of a value it does not scan. *)
Lemma string_unresolved key raw d s resolve_embedded w :
  lower (get_playbook_variable_type key) = lower "String" ->
  client_read (context self) (strip key) (store w) = (Returned (VStr raw), s) ->
  Json.decode raw = Returned d ->
  resolve_embedded = false \/ is_playbook_variable d = true ->
  string self any (Some key) resolve_embedded w
  = (Returned (_coerce_string_value d),
     Spec.after_read (context self) (strip key) s w).
Proof.
  intros Hty Hread Hraw Hkeep.
  unfold string. rewrite read_typed_matching by done.
  rewrite Hread. cbn [is_none decode_if_bytes].
  unfold bind at 1. cbn [ret].
  unfold bind at 1. unfold _deserialize_data. cbn [json_loads].
  rewrite Hraw. cbn [ret].
  assert (Hc : resolve_embedded && negb (is_playbook_variable d) = false).
  { destruct Hkeep as [->| ->]; [done|]. by rewrite andb_false_r. }
  rewrite Hc. reflexivity.
Qed.


(** X13. A variable that resolves to nothing is replaced by the text
    [<null>]. *)
Theorem embedded_none_is_null_placeholder s m w w2 :
  variable_expansion_finditer s = [m] ->
  group_origin m = "#" ->
  is_binary_type (group_type m) = false ->
  any (Some (group0 m)) w = (Returned VNone, w2) ->
  _read_embedded any (VStr s) w
  = (Returned (VStr (replace s (group0 m) "<null>")), w2).
Proof.
  intros Hm Ho Hb Hany. rewrite (read_embedded_one any s m) by done.
  unfold resolve_match. rewrite Ho, bool_decide_eq_true_2 by done.
  unfold bind at 1. by rewrite Hany, Hb.
Qed.

(** X14. A variable of type Binary or BinaryArray is replaced by the text
    [<binary>], whatever it resolves to; its value is read all the same. *)
Theorem embedded_binary_is_placeholder s m v w w2 :
  variable_expansion_finditer s = [m] ->
  group_origin m = "#" ->
  is_binary_type (group_type m) = true ->
  any (Some (group0 m)) w = (Returned v, w2) ->
  _read_embedded any (VStr s) w
  = (Returned (VStr (replace s (group0 m) "<binary>")), w2).
Proof.
  intros Hm Ho Hb Hany. rewrite (read_embedded_one any s m) by done.
  unfold resolve_match. rewrite Ho, bool_decide_eq_true_2 by done.
  unfold bind at 1. by rewrite Hany, Hb.
Qed.

(** X15. A variable that resolves to a list or an object is replaced by
    its JSON text. *)
Theorem embedded_container_is_json_text s m v t w w2 :
  variable_expansion_finditer s = [m] ->
  group_origin m = "#" ->
  is_binary_type (group_type m) = false ->
  any (Some (group0 m)) w = (Returned v, w2) ->
  (exists l, v = VList l) \/ (exists d, v = VDict d) ->
  Json.dumps v = Returned t ->
  _read_embedded any (VStr s) w
  = (Returned (VStr (replace s (group0 m) t)), w2).
Proof.
  intros Hm Ho Hb Hany Hv Ht. rewrite (read_embedded_one any s m) by done.
  unfold resolve_match. rewrite Ho, bool_decide_eq_true_2 by done.
  unfold bind at 1. rewrite Hany, Hb.
  destruct Hv as [[l ->]|[d ->]]; unfold bind, lift; by rewrite Ht.
Qed.




(** X17. The KeyValue read of a stored object that has no field [value]
    raises a KeyError when the embedded resolution is on, and returns the
    object as it is when the resolution is off. *)
Theorem key_value_read_without_value_field key raw d s resolve_embedded w :
  lower (get_playbook_variable_type key) = lower "KeyValue" ->
  client_read (context self) (strip key) (store w) = (Returned (VStr raw), s) ->
  Json.decode raw = Returned (VDict d) ->
  dict_get d "value" = None ->
  key_value self any (Some key) resolve_embedded w
  = (if resolve_embedded then Raised (KeyError "value")
     else Returned (VDict d),
     Spec.after_read (context self) (strip key) s w).
Proof.
  intros Hty Hread Hraw Hd.
  unfold key_value. rewrite read_typed_matching by done.
  rewrite Hread. cbn [is_none].
  unfold bind at 1. unfold _deserialize_data. cbn [json_loads].
  rewrite Hraw. cbn [ret]. unfold _process_key_value.
  destruct resolve_embedded; [|done].
  unfold bind at 1. cbn [get_value]. by rewrite Hd.
Qed.

(** X18. The KeyValue read of a stored object whose field [value] is a
    variable replaces the field, in its place, by what the generic read of
    that variable returns; the other fields stay. *)
Theorem key_value_read_resolves_value key raw d tok v s w2 w :
  lower (get_playbook_variable_type key) = lower "KeyValue" ->
  client_read (context self) (strip key) (store w) = (Returned (VStr raw), s) ->
  Json.decode raw = Returned (VDict d) ->
  dict_get d "value" = Some (VStr tok) ->
  is_playbook_variable (VStr tok) = true ->
  any (Some tok) (Spec.after_read (context self) (strip key) s w)
  = (Returned v, w2) ->
  key_value self any (Some key) true w
  = (Returned (VDict (Json.dict_set d "value" v)), w2).
Proof.
  intros Hty Hread Hraw Hd Hvar Hany.
  unfold key_value. rewrite read_typed_matching by done.
  rewrite Hread. cbn [is_none].
  unfold bind at 1. unfold _deserialize_data. cbn [json_loads].
  rewrite Hraw. cbn [ret]. unfold _process_key_value.
  unfold bind at 1. cbn [get_value]. rewrite Hd. cbn [ret]. rewrite Hvar.
  unfold bind at 1. cbn [as_key ret]. unfold bind at 1. by rewrite Hany.
Qed.

(** X19. The generic read of free text (a key that is no variable) with
    no embedded variable returns the text after the space-escape
    transform, without any call to the store; with [array] set, as a list
    of that one text. *)
Theorem variable_read_of_free_text key array w :
  variable_playbook_match (strip key) = false ->
  variable_expansion_finditer (_process_space_patterns key) = [] ->
  variable any (Some key) array w
  = (Returned (if array then VList [VStr (_process_space_patterns key)]
               else VStr (_process_space_patterns key)), w).
Proof.
  intros Hm Hf. unfold variable. rewrite Hm.
  unfold bind at 1. rewrite (read_embedded_none any) by done.
  by destruct array.
Qed.

End WithAny.

(** X20. The generic read of a String variable returns what the String
    read returns, tagged as a [StringVariable]; none stays none. *)
Theorem any_read_tags_string depth key v w w' :
  lower (get_playbook_variable_type (strip key)) = "string" ->
  string self (any self depth) (Some (strip key)) true w = (Returned v, w') ->
  any self (S depth) (Some key) w
  = (Returned (if is_none v then VNone else VStringVariable (py_str v)), w').
Proof.
  intros Hty Hs. cbn [any]. unfold any_body. rewrite Hty.
  change (variable_type_map self (any self depth) "string" (Some (strip key)))
    with (string self (any self depth) (Some (strip key)) true).
  unfold bind at 1. rewrite Hs. by destruct v.
Qed.

End MoreReadFacts.

(** ** JSON: what is dumped is loaded back *)

Section JsonFacts.
Import PyStr Builtin.

(** One character, escaped and scanned again. *)
Lemma scan_string_escape c tail :
  Json.scan_string (Json.escape_char c ++ tail)
  = match Json.scan_string tail with
    | Returned (s, r) => Returned (c :: s, r)
    | Raised e => Raised e
    end.
Proof. destruct c as [[] [] [] [] [] [] [] []]; reflexivity. Qed.

Lemma scan_string_encode cs rest :
  Json.scan_string (flat_map Json.escape_char cs ++ dquote :: rest)
  = Returned (cs, rest).
Proof.
  induction cs as [|c cs IH].
  - cbn. by rewrite bool_decide_eq_true_2.
  - cbn [flat_map]. rewrite <- app_assoc, scan_string_escape. by rewrite IH.
Qed.

(** Every text survives [json.dumps] followed by [json.loads]. *)
Lemma decode_encode_string s :
  Json.decode (text (Json.encode_string s)) = Returned (VStr s).
Proof.
  unfold Json.decode, Json.encode_string. rewrite chars_text.
  cbn [Json.skip_ws]. change (Json.is_ws dquote) with false. cbn iota.
  cbn [Json.scan_value]. rewrite bool_decide_eq_true_2 by done.
  rewrite (scan_string_encode (chars s) []). by rewrite text_chars.
Qed.

Lemma dumps_list l :
  Json.dumps_chars (VList l)
  = match Spec.dump_items l with
    | Returned body => Returned ("["%char :: body ++ ["]"%char])
    | Raised e => Raised e
    end.
Proof. reflexivity. Qed.

Lemma dumps_dict d :
  Json.dumps_chars (VDict d)
  = match Spec.dump_members d with
    | Returned body => Returned ("{"%char :: body ++ ["}"%char])
    | Raised e => Raised e
    end.
Proof. reflexivity. Qed.

Lemma join_items_returned a b body :
  Json.join_items a b = Returned body ->
  exists x y, a = Returned x /\ b = Returned y
              /\ body = match y with
                        | [] => x
                        | _ => x ++ chars ", " ++ y
                        end.
Proof.
  destruct a as [x|e], b as [y|e']; try discriminate.
  destruct y; intros [= <-]; by eexists _, _.
Qed.

Lemma dumps_head v cs :
  Spec.json_data v = true ->
  Json.dumps_chars v = Returned cs ->
  exists c r, cs = c :: r /\ Spec.starter c.
Proof.
  unfold Spec.starter. intros Hv Hcs. destruct v; try discriminate Hv.
  - injection Hcs as <-. eexists _, _. split; [reflexivity|]. tauto.
  - destruct b; injection Hcs as <-; eexists _, _;
      (split; [reflexivity|]); tauto.
  - injection Hcs as <-. eexists _, _. split; [reflexivity|]. tauto.
  - rewrite dumps_list in Hcs. destruct (Spec.dump_items l); [|done].
    injection Hcs as <-. eexists _, _. split; [reflexivity|]. tauto.
  - rewrite dumps_dict in Hcs. destruct (Spec.dump_members d); [|done].
    injection Hcs as <-. eexists _, _. split; [reflexivity|]. tauto.
Qed.

Lemma skip_ws_starter c X :
  Spec.starter c -> Json.skip_ws (c :: X) = c :: X.
Proof. intros [->|[->|[->|[->|[->| ->]]]]]; reflexivity. Qed.

(** The items of a non-empty list start with the start of a value. *)
Lemma dump_items_head x r body :
  Spec.json_data x = true ->
  Spec.dump_items (x :: r) = Returned body ->
  exists c b, body = c :: b /\ Spec.starter c.
Proof.
  intros Hx Hd. cbn [Spec.dump_items] in Hd.
  apply join_items_returned in Hd as (cx & y & Hcx & _ & ->).
  destruct (dumps_head x cx Hx Hcx) as (c & b & -> & Hc).
  destruct y; eexists _, _; (split; [reflexivity|done]).
Qed.

(** The loop of the decoder over the items of a list, given that each
    item is decoded from its dump. *)
Lemma scan_items_dump l : forall body acc fuel rest,
  l <> [] ->
  forallb Spec.json_data l = true ->
  (forall x, x ∈ l -> forall cs fuel rest,
     Json.dumps_chars x = Returned cs -> Spec.json_size x <= fuel ->
     Json.scan_value fuel (cs ++ rest) = Returned (x, rest)) ->
  Spec.dump_items l = Returned body ->
  list_sum (map (fun x => S (Spec.json_size x)) l) <= fuel ->
  Json.scan_items fuel (body ++ "]"%char :: rest) acc
  = Returned (VList (acc ++ l), rest).
Proof.
  induction l as [|x r IH]; intros body acc fuel rest Hne Hdata Hval Hdump Hfuel;
    [done|].
  cbn [forallb] in Hdata. apply andb_prop in Hdata as [Hx Hr].
  cbn [map list_sum fold_right] in Hfuel.
  destruct fuel as [|f]; [lia|].
  pose proof Hdump as Hjoin. cbn [Spec.dump_items] in Hjoin.
  apply join_items_returned in Hjoin as (cx & br & Hcx & Hbr & ->).
  cbn [Json.scan_items].
  destruct r as [|y r'].
  - injection Hbr as <-.
    rewrite (Hval x) by (first [apply list_elem_of_here | done | lia]).
    reflexivity.
  - cbn [forallb] in Hr. pose proof Hr as Hr'. apply andb_prop in Hr' as [Hy _].
    destruct (dump_items_head y r' br Hy Hbr) as (c & b & -> & Hc).
    rewrite <- !app_assoc.
    rewrite (Hval x) by (first [apply list_elem_of_here | done | lia]).
    cbn [chars list_ascii_of_string app Json.skip_ws].
    change (Json.is_ws ","%char) with false. cbn iota.
    change (Json.skip_ws (" "%char :: c :: b ++ "]"%char :: rest))
      with (Json.skip_ws (c :: b ++ "]"%char :: rest)).
    rewrite skip_ws_starter by done.
    change (c :: b ++ "]"%char :: rest) with ((c :: b) ++ "]"%char :: rest).
    rewrite (IH (c :: b) (acc ++ [x]) f rest); try done; try lia.
    + by rewrite <- app_assoc.
    + intros z Hz. apply Hval. by apply list_elem_of_further.
    + cbn [map list_sum fold_right] in *. lia.
Qed.

Lemma dict_set_fresh acc k v :
  k ∉ map fst acc -> Json.dict_set acc k v = acc ++ [(k, v)].
Proof.
  induction acc as [|[k' v'] acc IH]; intros Hk; [done|].
  cbn [map fst] in Hk. apply not_elem_of_cons in Hk as [Hne Hk].
  cbn [Json.dict_set]. rewrite bool_decide_eq_false_2 by done.
  by rewrite IH.
Qed.

Lemma dump_members_head k x r body :
  Spec.dump_members ((k, x) :: r) = Returned body ->
  exists b, body = dquote :: b.
Proof.
  intros Hd. cbn [Spec.dump_members] in Hd.
  apply join_items_returned in Hd as (cx & y & Hcx & _ & ->).
  destruct (Json.dumps_chars x); [|done]. injection Hcx as <-.
  destruct y; by eexists.
Qed.

(** The loop of the decoder over the members of an object. *)
Lemma scan_members_dump d : forall body acc fuel rest,
  d <> [] ->
  forallb (fun kv => Spec.json_data (snd kv)) d = true ->
  NoDup (map fst acc ++ map fst d) ->
  (forall kv, kv ∈ d -> forall cs fuel rest,
     Json.dumps_chars (snd kv) = Returned cs ->
     Spec.json_size (snd kv) <= fuel ->
     Json.scan_value fuel (cs ++ rest) = Returned (snd kv, rest)) ->
  Spec.dump_members d = Returned body ->
  list_sum (map (fun kv => S (Spec.json_size (snd kv))) d) <= fuel ->
  Json.scan_members fuel (body ++ "}"%char :: rest) acc
  = Returned (VDict (acc ++ d), rest).
Proof.
  induction d as [|[k x] r IH];
    intros body acc fuel rest Hne Hdata Hdup Hval Hdump Hfuel; [done|].
  cbn [forallb snd] in Hdata. apply andb_prop in Hdata as [Hx Hr].
  cbn [map list_sum fold_right snd] in Hfuel.
  destruct fuel as [|f]; [lia|].
  pose proof Hdump as Hjoin. cbn [Spec.dump_members] in Hjoin.
  apply join_items_returned in Hjoin as (cm & br & Hcm & Hbr & ->).
  destruct (Json.dumps_chars x) as [cx|] eqn:Hcx; [|done].
  injection Hcm as <-.
  destruct (dumps_head x cx Hx Hcx) as (c & b & -> & Hc).
  assert (Hfresh : k ∉ map fst acc).
  { cbn [map fst] in Hdup. apply NoDup_app in Hdup as (_ & Hdis & _).
    intros Hin. apply (Hdis k Hin). apply list_elem_of_here. }
  assert (Hscan : forall tail,
            Json.scan_members (S f)
              ((Json.encode_string k ++ chars ": " ++ c :: b) ++ tail) acc
            = match Json.skip_ws tail with
              | "}"%char :: rest' => Returned (VDict (acc ++ [(k, x)]), rest')
              | ","%char :: rest' =>
                  Json.scan_members f (Json.skip_ws rest') (acc ++ [(k, x)])
              | _ => Raised (Json.decode_error "Expecting ',' delimiter")
              end).
  { intros tail. unfold Json.encode_string.
    rewrite <- !app_assoc. cbn [app Json.scan_members].
    rewrite bool_decide_eq_true_2 by done.
    rewrite <- app_assoc. cbn [app].
    rewrite scan_string_encode.
    cbn [chars list_ascii_of_string app].
    change (Json.skip_ws (":"%char :: " "%char :: c :: b ++ tail))
      with (":"%char :: " "%char :: c :: b ++ tail).
    cbn iota.
    change (Json.skip_ws (" "%char :: c :: b ++ tail))
      with (Json.skip_ws (c :: b ++ tail)).
    rewrite skip_ws_starter by done.
    change (c :: b ++ tail) with ((c :: b) ++ tail).
    rewrite (Hval (k, x)) by (first [apply list_elem_of_here | done | cbn; lia]).
    cbn [snd]. rewrite text_chars. by rewrite dict_set_fresh. }
  destruct r as [|[k' y] r'].
  - injection Hbr as <-. rewrite Hscan. reflexivity.
  - destruct (dump_members_head k' y r' br Hbr) as (b' & ->).
    rewrite <- app_assoc. rewrite Hscan.
    cbn [chars list_ascii_of_string app].
    change (Json.skip_ws (","%char :: " "%char :: dquote :: b' ++ "}"%char :: rest))
      with (","%char :: " "%char :: dquote :: b' ++ "}"%char :: rest).
    cbn iota.
    change (Json.skip_ws (" "%char :: dquote :: b' ++ "}"%char :: rest))
      with ((dquote :: b') ++ "}"%char :: rest).
    rewrite (IH (dquote :: b') (acc ++ [(k, x)]) f rest); try done.
    + by rewrite <- app_assoc.
    + rewrite map_app, <- app_assoc. exact Hdup.
    + intros kv Hkv. apply Hval. by apply list_elem_of_further.
    + cbn [map list_sum fold_right snd] in *. lia.
Qed.

Lemma dump_items_total l :
  (forall x, x ∈ l -> exists cs, Json.dumps_chars x = Returned cs) ->
  exists body, Spec.dump_items l = Returned body.
Proof.
  induction l as [|x r IH]; intros Hall; [by eexists|].
  destruct (Hall x) as [cx Hcx]; [apply list_elem_of_here|].
  destruct IH as [br Hbr].
  { intros z Hz. apply Hall. by apply list_elem_of_further. }
  cbn [Spec.dump_items]. rewrite Hcx, Hbr. destruct br; by eexists.
Qed.

Lemma dump_members_total d :
  (forall kv, kv ∈ d -> exists cs, Json.dumps_chars (snd kv) = Returned cs) ->
  exists body, Spec.dump_members d = Returned body.
Proof.
  induction d as [|[k x] r IH]; intros Hall; [by eexists|].
  destruct (Hall (k, x)) as [cx Hcx]; [apply list_elem_of_here|].
  destruct IH as [br Hbr].
  { intros z Hz. apply Hall. by apply list_elem_of_further. }
  cbn [Spec.dump_members]. cbn [snd] in Hcx. rewrite Hcx, Hbr.
  destruct br; by eexists.
Qed.

Lemma json_size_pos v : 1 <= Spec.json_size v.
Proof. destruct v; cbn [Spec.json_size]; lia. Qed.

Lemma dump_items_length l : forall body,
  l <> [] ->
  (forall x, x ∈ l -> forall cs, Json.dumps_chars x = Returned cs ->
                                  Spec.json_size x <= length cs) ->
  Spec.dump_items l = Returned body ->
  list_sum (map (fun x => S (Spec.json_size x)) l) <= S (length body).
Proof.
  induction l as [|x r IH]; intros body Hne Hlen Hdump; [done|].
  cbn [Spec.dump_items] in Hdump.
  apply join_items_returned in Hdump as (cx & br & Hcx & Hbr & ->).
  pose proof (Hlen x (list_elem_of_here _ _) cx Hcx) as Hx.
  cbn [map list_sum fold_right].
  destruct r as [|y r'].
  - injection Hbr as <-. cbn. lia.
  - assert (Hr : list_sum (map (fun x => S (Spec.json_size x)) (y :: r'))
                 <= S (length br)).
    { apply IH; [done| |done].
      intros z Hz. apply Hlen. by apply list_elem_of_further. }
    pose proof (json_size_pos y).
    destruct br; rewrite ?length_app;
      cbn [length chars list_ascii_of_string map list_sum fold_right] in *;
      rewrite ?length_app; cbn [length]; lia.
Qed.

Lemma dump_members_length d : forall body,
  d <> [] ->
  (forall kv, kv ∈ d -> forall cs, Json.dumps_chars (snd kv) = Returned cs ->
                                    Spec.json_size (snd kv) <= length cs) ->
  Spec.dump_members d = Returned body ->
  list_sum (map (fun kv => S (Spec.json_size (snd kv))) d) <= S (length body).
Proof.
  induction d as [|[k x] r IH]; intros body Hne Hlen Hdump; [done|].
  cbn [Spec.dump_members] in Hdump.
  apply join_items_returned in Hdump as (cm & br & Hcm & Hbr & ->).
  destruct (Json.dumps_chars x) as [cx|] eqn:Hcx; [|done].
  injection Hcm as <-.
  pose proof (Hlen (k, x) (list_elem_of_here _ _) cx Hcx) as Hx.
  cbn [snd] in Hx. cbn [map list_sum fold_right snd].
  destruct r as [|[k' y] r'].
  - injection Hbr as <-. cbn [length map fold_right].
    rewrite !length_app. cbn [length]. lia.
  - assert (Hr : list_sum (map (fun kv => S (Spec.json_size (snd kv)))
                               ((k', y) :: r')) <= S (length br)).
    { apply IH; [done| |done].
      intros z Hz. apply Hlen. by apply list_elem_of_further. }
    pose proof (json_size_pos y).
    destruct br; rewrite ?length_app;
      cbn [length chars list_ascii_of_string map list_sum fold_right snd] in *;
      rewrite ?length_app; cbn [length]; rewrite ?length_app; cbn [length];
      lia.
Qed.

Lemma json_size_item x l :
  x ∈ l -> Spec.json_size x < S (list_sum (map (fun x => S (Spec.json_size x)) l)).
Proof.
  induction 1 as [x l|x y l _ IH]; unfold list_sum in *;
    cbn [map fold_right] in *; lia.
Qed.

Lemma json_size_member (kv : string * pyval) d :
  kv ∈ d ->
  Spec.json_size (snd kv)
  < S (list_sum (map (fun kv => S (Spec.json_size (snd kv))) d)).
Proof.
  induction 1 as [x l|x y l _ IH]; unfold list_sum in *;
    cbn [map fold_right] in *; lia.
Qed.

(** A value of [json_data] is dumped, its dump is at least as long as the
    depth the decoder needs, and the decoder reads the value back from
    the dump, whatever follows it. *)
Lemma scan_value_dumps n : forall v,
  Spec.json_size v < n ->
  Spec.json_data v = true ->
  exists cs,
    Json.dumps_chars v = Returned cs
    /\ Spec.json_size v <= length cs
    /\ forall fuel rest,
         Spec.json_size v <= fuel ->
         Json.scan_value fuel (cs ++ rest) = Returned (v, rest).
Proof.
  induction n as [|n IH]; intros v Hn Hv; [lia|].
  destruct v; try discriminate Hv.
  - eexists. split; [reflexivity|]. split; [cbn; lia|].
    intros [|f] rest Hf; [cbn in Hf; lia|reflexivity].
  - destruct b; (eexists; split; [reflexivity|]; split; [cbn; lia|]);
      intros [|f] rest Hf; (cbn in Hf; lia) || reflexivity.
  - eexists. split; [reflexivity|]. split.
    { unfold Json.encode_string. cbn [length Spec.json_size]. lia. }
    intros [|f] rest Hf; [cbn in Hf; lia|].
    unfold Json.encode_string. cbn [app Json.scan_value].
    rewrite bool_decide_eq_true_2 by done.
    rewrite <- app_assoc. cbn [app].
    rewrite scan_string_encode. by rewrite text_chars.
  - (* a list *)
    cbn [Spec.json_data] in Hv. cbn [Spec.json_size] in Hn.
    assert (Hitem : forall x, x ∈ l -> exists cs,
              Json.dumps_chars x = Returned cs
              /\ Spec.json_size x <= length cs
              /\ forall fuel rest, Spec.json_size x <= fuel ->
                   Json.scan_value fuel (cs ++ rest) = Returned (x, rest)).
    { intros x Hx. apply IH.
      - pose proof (json_size_item x l Hx). lia.
      - rewrite forallb_forall in Hv. apply Hv. by apply list_elem_of_In. }
    destruct (dump_items_total l) as [body Hbody].
    { intros x Hx. destruct (Hitem x Hx) as (cs & ? & _). by exists cs. }
    exists ("["%char :: body ++ ["]"%char]).
    split; [by rewrite dumps_list, Hbody|].
    destruct l as [|x r].
    + injection Hbody as <-. split; [cbn; lia|].
      intros [|f] rest Hf; [cbn in Hf; lia|reflexivity].
    + assert (Hlen : list_sum (map (fun x => S (Spec.json_size x)) (x :: r))
                     <= S (length body)).
      { apply dump_items_length; [done| |done].
        intros z Hz cs Hcs. destruct (Hitem z Hz) as (cs' & Hcs' & Hl & _).
        congruence. }
      split.
      { cbn [Spec.json_size length]. rewrite length_app. cbn [length]. lia. }
      intros [|f] rest Hf; [cbn in Hf; lia|].
      cbn [Spec.json_size] in Hf.
      pose proof Hv as Hx. cbn [forallb] in Hx. apply andb_prop in Hx as [Hx _].
      destruct (dump_items_head x r body Hx Hbody) as (c & b & -> & Hc).
      assert (Hgo : Json.scan_value (S f)
                      (("["%char :: (c :: b) ++ ["]"%char]) ++ rest)
                    = Json.scan_items f ((c :: b) ++ "]"%char :: rest) []).
      { rewrite <- app_comm_cons, <- app_assoc.
        cbn [app Json.scan_value].
        rewrite (bool_decide_eq_false_2 ("["%char = dquote)) by done.
        rewrite (bool_decide_eq_false_2 ("["%char = "{"%char)) by done.
        rewrite (bool_decide_eq_true_2 ("["%char = "["%char)) by done.
        rewrite skip_ws_starter by done.
        destruct Hc as [->|[->|[->|[->|[->| ->]]]]]; reflexivity. }
      rewrite Hgo.
      rewrite (scan_items_dump (x :: r) (c :: b) [] f rest); try done; [|lia].
      intros z Hz cs fuel rest' Hcs Hfuel.
      destruct (Hitem z Hz) as (cs' & Hcs' & _ & Hscan).
      assert (cs = cs') by congruence. subst cs'. by apply Hscan.
  - (* an object *)
    cbn [Spec.json_data] in Hv. apply andb_prop in Hv as [Hdup Hv].
    apply bool_decide_eq_true in Hdup. cbn [Spec.json_size] in Hn.
    assert (Hitem : forall kv, kv ∈ d -> exists cs,
              Json.dumps_chars (snd kv) = Returned cs
              /\ Spec.json_size (snd kv) <= length cs
              /\ forall fuel rest, Spec.json_size (snd kv) <= fuel ->
                   Json.scan_value fuel (cs ++ rest) = Returned (snd kv, rest)).
    { intros kv Hkv. apply IH.
      - pose proof (json_size_member kv d Hkv). lia.
      - rewrite forallb_forall in Hv. apply Hv. by apply list_elem_of_In. }
    destruct (dump_members_total d) as [body Hbody].
    { intros kv Hkv. destruct (Hitem kv Hkv) as (cs & ? & _). by exists cs. }
    exists ("{"%char :: body ++ ["}"%char]).
    split; [by rewrite dumps_dict, Hbody|].
    destruct d as [|[k x] r].
    + injection Hbody as <-. split; [cbn; lia|].
      intros [|f] rest Hf; [cbn in Hf; lia|reflexivity].
    + assert (Hlen : list_sum (map (fun kv => S (Spec.json_size (snd kv)))
                                   ((k, x) :: r)) <= S (length body)).
      { apply dump_members_length; [done| |done].
        intros z Hz cs Hcs. destruct (Hitem z Hz) as (cs' & Hcs' & Hl & _).
        congruence. }
      split.
      { cbn [Spec.json_size length]. rewrite length_app. cbn [length]. lia. }
      intros [|f] rest Hf; [cbn in Hf; lia|].
      cbn [Spec.json_size] in Hf.
      destruct (dump_members_head k x r body Hbody) as (b & ->).
      assert (Hgo : Json.scan_value (S f)
                      (("{"%char :: (dquote :: b) ++ ["}"%char]) ++ rest)
                    = Json.scan_members f ((dquote :: b) ++ "}"%char :: rest) []).
      { rewrite <- app_comm_cons, <- app_assoc. reflexivity. }
      rewrite Hgo.
      rewrite (scan_members_dump ((k, x) :: r) (dquote :: b) [] f rest);
        try done; [|lia].
      intros z Hz cs fuel rest' Hcs Hfuel.
      destruct (Hitem z Hz) as (cs' & Hcs' & _ & Hscan).
      assert (cs = cs') by congruence. subst cs'. by apply Hscan.
Qed.

(** [json.loads(json.dumps(v))] is [v], for every [v] of [json_data]. *)
Lemma loads_dumps v :
  Spec.json_data v = true ->
  exists t, Json.dumps v = Returned t /\ Json.decode t = Returned v.
Proof.
  intros Hv.
  destruct (scan_value_dumps (S (Spec.json_size v)) v) as (cs & Hcs & Hlen & Hscan);
    [lia|done|].
  exists (text cs). unfold Json.dumps. rewrite Hcs. split; [done|].
  unfold Json.decode. rewrite chars_text.
  destruct (dumps_head v cs Hv Hcs) as (c & b & -> & Hc).
  rewrite skip_ws_starter by done.
  pose proof (Hscan (S (length (c :: b))) [] ltac:(lia)) as Hrun.
  rewrite app_nil_r in Hrun. by rewrite Hrun.
Qed.

End JsonFacts.

(** ** Writing, then reading, for the other types *)

Section MoreRoundTrips.
Context `{Util} `{Host} `{KeyValueStore}.
Import PyStr Builtin.
Variable cr : PlaybookCreate.t.
Variable rd : PlaybookRead.t.
Hypothesis same_context : PlaybookRead.context rd = PlaybookCreate.context cr.

(** On a store that keeps what is created, a commit returns the handle of
    the store, and the next read of the key returns the value. *)
Lemma commit_kept key value w :
  Spec.keeps (PlaybookCreate.context cr) key (store w) ->
  exists h s1 s2,
    Spec.commit (PlaybookCreate.context cr) key value w
    = (Returned h,
       {| store := s1;
          calls := calls w
                   ++ [CallCreate (PlaybookCreate.context cr) key value] |})
    /\ client_read (PlaybookRead.context rd) key s1 = (Returned value, s2).
Proof.
  intros Hkeep. destruct (Hkeep value) as (h & s1 & Hcreate & s2 & Hread).
  exists h, s1, s2. unfold Spec.commit. rewrite Hcreate, same_context.
  by split.
Qed.

(** X21. A text written through the String write (a bool or a number is
    written as its text) and read through the String read comes back as
    it was written, when the read does not resolve ([resolve_embedded]
    unset, or the text is one variable as a whole) or has nothing to
    resolve (the text holds no variable). *)
Theorem string_round_trip any key variable value s validate when_requested
    resolve_embedded w :
  PlaybookCreate._get_variable cr (Some key) (Some "String") = Some variable ->
  when_requested = false \/ variable ∈ PlaybookCreate.output_variables cr ->
  lower (get_playbook_variable_type variable) = lower "String" ->
  PlaybookCreate._coerce_string_value value = VStr s ->
  Spec.keeps (PlaybookCreate.context cr) (strip variable) (store w) ->
  resolve_embedded = false \/ is_playbook_variable (VStr s) = true
  \/ variable_expansion_finditer s = [] ->
  exists h w1 w2,
    PlaybookCreate.string cr (Some key) value validate when_requested w
    = (Returned h, w1)
    /\ PlaybookRead.string rd any (Some variable) resolve_embedded w1
       = (Returned (VStr s), w2).
Proof.
  intros Hv Hreq Hty Hs Hkeep Hres.
  rewrite (string_commits cr key variable value s) by done.
  destruct (commit_kept (strip variable) (VStr (text (Json.encode_string s)))
              w Hkeep) as (h & s1 & s2 & -> & Hread).
  eexists h, _, _. split; [reflexivity|].
  destruct (bool_decide (resolve_embedded = false
                         \/ is_playbook_variable (VStr s) = true)) eqn:Hkeepb.
  - apply bool_decide_eq_true in Hkeepb.
    rewrite (string_unresolved rd any variable
               (text (Json.encode_string s)) (VStr s) s2); try done.
    apply decode_encode_string.
  - apply bool_decide_eq_false in Hkeepb.
    assert (resolve_embedded = true) as -> by (destruct resolve_embedded; tauto).
    assert (Hnv : is_playbook_variable (VStr s) = false).
    { destruct (is_playbook_variable (VStr s)); tauto. }
    assert (Hf : variable_expansion_finditer s = []).
    { destruct Hres as [?|[?|?]]; [discriminate|congruence|done]. }
    rewrite (string_read rd any variable (text (Json.encode_string s)) s s2);
      try done; [|apply decode_encode_string].
    by rewrite read_embedded_none.
Qed.

Lemma texts_in_json_data items : Spec.json_data (Spec.texts_in items) = true.
Proof.
  unfold Spec.texts_in. cbn [Spec.json_data].
  induction items as [|[s|] items IH]; [done| |]; cbn [map forallb]; by rewrite IH.
Qed.

Lemma string_array_loop validate (items : list (option str)) : forall acc w,
  for_each (map (fun o => match o with Some s => VStr s | None => VNone end)
                items)
    acc (fun acc v =>
      if validate
         && negb (is_none (PlaybookCreate._coerce_string_value v)
                  || isinstance_str (PlaybookCreate._coerce_string_value v))
      then raise (RuntimeError "Invalid data provided for StringArray.")
      else ret (acc ++ [PlaybookCreate._coerce_string_value v])) w
  = (Returned (acc ++ map (fun o => match o with
                                   | Some s => VStr s
                                   | None => VNone
                                   end) items), w).
Proof.
  induction items as [|o items IH]; intros acc w.
  { cbn. by rewrite app_nil_r. }
  cbn [map for_each]. unfold bind at 1.
  destruct o as [s|]; cbn; rewrite andb_false_r; cbn; rewrite IH;
    by rewrite <- app_assoc.
Qed.

(** X22. A list of texts and nulls written through the StringArray write
    and read through the StringArray read comes back with the same
    length and order, each text tagged as a [StringVariable] and each
    null still null. *)
Theorem string_array_round_trip key variable items validate when_requested w :
  PlaybookCreate._get_variable cr (Some key) (Some "StringArray")
  = Some variable ->
  when_requested = false \/ variable ∈ PlaybookCreate.output_variables cr ->
  lower (get_playbook_variable_type variable) = lower "StringArray" ->
  Spec.keeps (PlaybookCreate.context cr) (strip variable) (store w) ->
  exists h w1 w2,
    PlaybookCreate.string_array cr (Some key) (Spec.texts_in items) validate
      when_requested w = (Returned h, w1)
    /\ PlaybookRead.string_array rd (Some variable) w1
       = (Returned (Spec.texts_out items), w2).
Proof.
  intros Hv Hreq Hty Hkeep.
  destruct (loads_dumps (Spec.texts_in items) (texts_in_json_data items))
    as (t & Hdump & Hload).
  destruct (commit_kept (strip variable) (VStr t) w Hkeep)
    as (h & s1 & s2 & Hcommit & Hread).
  eexists h, _, _. split.
  - unfold PlaybookCreate.string_array. unfold bind at 1.
    rewrite check_null_value by done.
    unfold bind at 1. rewrite check_iterable_spec.
    unfold Spec.texts_in at 1.
    cbn [Spec.not_an_array is_iterable negb].
    rewrite andb_false_r.
    rewrite (resolve_for_write_resolved cr _ _ variable) by done.
    rewrite bool_decide_eq_true_2 by done.
    unfold bind at 1. unfold Spec.texts_in at 1. cbn [lift iterate].
    unfold bind at 1. rewrite string_array_loop. cbn [app].
    unfold bind at 1. unfold PlaybookCreate._serialize_data.
    unfold Spec.texts_in in Hdump. rewrite Hdump. cbn [ret].
    rewrite create_data_commit. exact Hcommit.
  - unfold PlaybookRead.string_array.
    rewrite read_typed_matching by done. cbn [store]. rewrite Hread. cbn [is_none].
    unfold bind at 1. cbn [PlaybookRead.decode_if_bytes ret].
    unfold bind at 1. unfold PlaybookRead._deserialize_data.
    cbn [json_loads]. rewrite Hload. cbn [ret Spec.texts_in].
    unfold bind at 1. cbn [lift iterate]. unfold ret, Spec.texts_out.
    do 3 f_equal. rewrite map_map. apply map_ext. by intros [s|].
Qed.

Lemma blobs_stored_json_data (items : list (option (list byte))) :
  Spec.json_data
    (VList (map (fun o => match o with
                          | Some b => VStr (text (Base64.b2a_base64 b))
                          | None => VNone
                          end) items)) = true.
Proof.
  cbn [Spec.json_data].
  induction items as [|[s|] items IH]; [done| |]; cbn [map forallb]; by rewrite IH.
Qed.

Lemma binary_array_write_loop validate (items : list (option (list byte))) :
  forall acc w,
  for_each (map (fun o => match o with Some b => VBytes b | None => VNone end)
                items)
    acc (fun acc v =>
      if is_none v then ret (acc ++ [v])
      else if validate && negb (isinstance_bytes v)
      then raise (RuntimeError "Invalid data provided for Binary.")
      else bind (PlaybookCreate.b64_text v) (fun v_ => ret (acc ++ [v_]))) w
  = (Returned (acc ++ map (fun o => match o with
                                   | Some b => VStr (text (Base64.b2a_base64 b))
                                   | None => VNone
                                   end) items), w).
Proof.
  induction items as [|o items IH]; intros acc w.
  { cbn. by rewrite app_nil_r. }
  cbn [map for_each]. unfold bind at 1.
  destruct o as [b|]; cbn [is_none isinstance_bytes negb].
  - rewrite andb_false_r. unfold PlaybookCreate.b64_text.
    rewrite decode_utf8_b64encode. unfold bind at 1. cbn [ret].
    rewrite IH. by rewrite <- app_assoc.
  - cbn [ret]. rewrite IH. by rewrite <- app_assoc.
Qed.

Lemma binary_array_read_loop (items : list (option (list byte))) : forall acc w,
  for_each (map (fun o => match o with
                          | Some b => VStr (text (Base64.b2a_base64 b))
                          | None => VNone
                          end) items)
    acc (fun values d =>
      bind (PlaybookRead.decode_element true false d)
           (fun d_ => ret (values ++ [d_]))) w
  = (Returned (acc ++ map (fun o => match o with
                                   | Some b => VBinaryVariable b
                                   | None => VNone
                                   end) items), w).
Proof.
  induction items as [|o items IH]; intros acc w.
  { cbn. by rewrite app_nil_r. }
  cbn [map for_each]. unfold bind at 1.
  destruct o as [b|]; cbn [PlaybookRead.decode_element].
  - unfold bind at 1. unfold bind at 1. unfold lift.
    rewrite b64decode_b64encode. cbn [ret].
    rewrite IH. by rewrite <- app_assoc.
  - unfold bind at 1. cbn [ret]. rewrite IH. by rewrite <- app_assoc.
Qed.

(** X23. A list of byte sequences and nulls written through the
    BinaryArray write and read through the BinaryArray read with the
    default flags comes back with the same bytes in the same order, each
    tagged as a [BinaryVariable], and each null still null. *)
Theorem binary_array_round_trip key variable items validate when_requested w :
  PlaybookCreate._get_variable cr (Some key) (Some "BinaryArray")
  = Some variable ->
  when_requested = false \/ variable ∈ PlaybookCreate.output_variables cr ->
  lower (get_playbook_variable_type variable) = lower "BinaryArray" ->
  Spec.keeps (PlaybookCreate.context cr) (strip variable) (store w) ->
  exists h w1 w2,
    PlaybookCreate.binary_array cr (Some key) (Spec.blobs_in items) validate
      when_requested w = (Returned h, w1)
    /\ PlaybookRead.binary_array rd (Some variable) true false w1
       = (Returned (Spec.blobs_out items), w2).
Proof.
  intros Hv Hreq Hty Hkeep.
  destruct (loads_dumps _ (blobs_stored_json_data items))
    as (t & Hdump & Hload).
  destruct (commit_kept (strip variable) (VStr t) w Hkeep)
    as (h & s1 & s2 & Hcommit & Hread).
  eexists h, _, _. split.
  - unfold PlaybookCreate.binary_array. unfold bind at 1.
    rewrite check_null_value by done.
    unfold bind at 1. rewrite check_iterable_spec.
    unfold Spec.blobs_in at 1.
    cbn [Spec.not_an_array is_iterable negb].
    rewrite andb_false_r.
    rewrite (resolve_for_write_resolved cr _ _ variable) by done.
    rewrite bool_decide_eq_true_2 by done.
    unfold bind at 1. unfold Spec.blobs_in at 1. cbn [lift iterate].
    unfold bind at 1. rewrite binary_array_write_loop. cbn [app].
    unfold bind at 1. unfold PlaybookCreate._serialize_data.
    rewrite Hdump. cbn [ret].
    rewrite create_data_commit. exact Hcommit.
  - unfold PlaybookRead.binary_array.
    rewrite read_typed_matching by done. cbn [store]. rewrite Hread. cbn [is_none].
    unfold bind at 1. cbn [PlaybookRead.decode_if_bytes ret].
    unfold bind at 1. unfold PlaybookRead._deserialize_data.
    cbn [json_loads]. rewrite Hload. cbn [ret].
    unfold bind at 1. cbn [lift iterate].
    unfold bind at 1. rewrite binary_array_read_loop. reflexivity.
Qed.

(** X24. An entity, an object of [json_data] with the fields id, value
    and type (or any object of [json_data] when [validate] is unset),
    written through the TCEntity write and read through the TCEntity read
    comes back as the same object, fields in the same order. *)
Theorem tc_entity_round_trip key variable d validate when_requested w :
  PlaybookCreate._get_variable cr (Some key) (Some "TCEntity") = Some variable ->
  when_requested = false \/ variable ∈ PlaybookCreate.output_variables cr ->
  lower (get_playbook_variable_type variable) = lower "TCEntity" ->
  Spec.json_data (VDict d) = true ->
  validate = false \/ PlaybookCreate.is_tc_entity (VDict d) = true ->
  Spec.keeps (PlaybookCreate.context cr) (strip variable) (store w) ->
  exists h w1 w2,
    PlaybookCreate.tc_entity cr (Some key) (VDict d) validate when_requested w
    = (Returned h, w1)
    /\ PlaybookRead.tc_entity rd (Some variable) w1 = (Returned (VDict d), w2).
Proof.
  intros Hv Hreq Hty Hdata Hvalid Hkeep.
  destruct (loads_dumps _ Hdata) as (t & Hdump & Hload).
  destruct (commit_kept (strip variable) (VStr t) w Hkeep)
    as (h & s1 & s2 & Hcommit & Hread).
  eexists h, _, _. split.
  - unfold PlaybookCreate.tc_entity. unfold bind at 1.
    rewrite check_null_value by done.
    rewrite (resolve_for_write_resolved cr _ _ variable) by done.
    rewrite bool_decide_eq_true_2 by done.
    unfold bind at 1. unfold PlaybookCreate._process_object_types.
    cbn [negb]. rewrite andb_false_r. cbn [ret].
    assert (Hc : validate && negb (PlaybookCreate.is_tc_entity (VDict d)) = false).
    { destruct Hvalid as [->| ->]; [done|]. by rewrite andb_false_r. }
    rewrite Hc. unfold bind at 1. unfold PlaybookCreate._serialize_data.
    rewrite Hdump. cbn [ret].
    rewrite create_data_commit. exact Hcommit.
  - unfold PlaybookRead.tc_entity.
    rewrite read_typed_matching by done. cbn [store]. rewrite Hread. cbn [is_none].
    unfold bind at 1. cbn [PlaybookRead.decode_if_bytes ret].
    unfold PlaybookRead._deserialize_data.
    cbn [json_loads]. by rewrite Hload.
Qed.

(** X25. A key value pair of [json_data] written through the KeyValue
    write and read through the KeyValue read without embedded resolution
    comes back as the same object. *)
Theorem key_value_round_trip any key variable d validate when_requested w :
  PlaybookCreate._get_variable cr (Some key) (Some "KeyValue") = Some variable ->
  when_requested = false \/ variable ∈ PlaybookCreate.output_variables cr ->
  lower (get_playbook_variable_type variable) = lower "KeyValue" ->
  Spec.json_data (VDict d) = true ->
  validate = false \/ PlaybookCreate.is_key_value (VDict d) = true ->
  Spec.keeps (PlaybookCreate.context cr) (strip variable) (store w) ->
  exists h w1 w2,
    PlaybookCreate.key_value cr (Some key) (VDict d) validate when_requested w
    = (Returned h, w1)
    /\ PlaybookRead.key_value rd any (Some variable) false w1
       = (Returned (VDict d), w2).
Proof.
  intros Hv Hreq Hty Hdata Hvalid Hkeep.
  destruct (loads_dumps _ Hdata) as (t & Hdump & Hload).
  destruct (commit_kept (strip variable) (VStr t) w Hkeep)
    as (h & s1 & s2 & Hcommit & Hread).
  eexists h, _, _. split.
  - unfold PlaybookCreate.key_value. unfold bind at 1.
    rewrite check_null_value by done.
    rewrite (resolve_for_write_resolved cr _ _ variable) by done.
    rewrite bool_decide_eq_true_2 by done.
    unfold bind at 1. unfold PlaybookCreate._process_object_types.
    cbn [negb]. rewrite andb_false_r. cbn [ret].
    assert (Hc : validate && negb (PlaybookCreate.is_key_value (VDict d)) = false).
    { destruct Hvalid as [->| ->]; [done|]. by rewrite andb_false_r. }
    rewrite Hc. unfold bind at 1. unfold PlaybookCreate._serialize_data.
    rewrite Hdump. cbn [ret].
    rewrite create_data_commit. exact Hcommit.
  - unfold PlaybookRead.key_value.
    rewrite read_typed_matching by done. cbn [store]. rewrite Hread. cbn [is_none].
    unfold bind at 1. unfold PlaybookRead._deserialize_data.
    cbn [json_loads]. by rewrite Hload.
Qed.

(** X26. With [b64decode] unset, the Binary read returns the base64 text
    the Binary write stored, not the bytes. *)
Theorem binary_read_without_b64decode key variable b validate when_requested
    decode w :
  PlaybookCreate._get_variable cr (Some key) (Some "Binary") = Some variable ->
  when_requested = false \/ variable ∈ PlaybookCreate.output_variables cr ->
  lower (get_playbook_variable_type variable) = lower "Binary" ->
  Spec.keeps (PlaybookCreate.context cr) (strip variable) (store w) ->
  exists h w1 w2,
    PlaybookCreate.binary cr (Some key) (VBytes b) validate when_requested w
    = (Returned h, w1)
    /\ PlaybookRead.binary rd (Some variable) false decode w1
       = (Returned (VStr (text (Base64.b2a_base64 b))), w2).
Proof.
  intros Hv Hreq Hty Hkeep.
  destruct (b64_text_plain b) as [Hplain _].
  destruct (commit_kept (strip variable)
              (VStr (text (dquote :: Base64.b2a_base64 b ++ [dquote]))) w Hkeep)
    as (h & s1 & s2 & Hcommit & Hread).
  eexists h, _, _. split.
  - unfold PlaybookCreate.binary. unfold bind at 1.
    rewrite check_null_value by done.
    rewrite (resolve_for_write_resolved cr _ _ variable) by done.
    rewrite bool_decide_eq_true_2 by done.
    cbn [isinstance_bytes negb]. rewrite andb_false_r.
    unfold PlaybookCreate.b64_text. rewrite decode_utf8_b64encode.
    unfold bind at 1. cbn [ret].
    unfold PlaybookCreate._serialize_data. rewrite dumps_plain by done.
    unfold bind at 1. cbn [ret].
    rewrite create_data_commit. exact Hcommit.
  - unfold PlaybookRead.binary.
    rewrite read_typed_matching by done. cbn [store]. rewrite Hread. cbn [is_none].
    unfold bind at 1. unfold PlaybookRead._deserialize_data.
    cbn [json_loads]. rewrite decode_plain by done. reflexivity.
Qed.

(** X29. A value written through the raw write and read through the raw
    read comes back as it is, with no encoding in between, under any key
    that is the same once stripped. *)
Theorem raw_round_trip key key' value validate when_requested w :
  value <> VNone ->
  strip key' = strip key ->
  Spec.keeps (PlaybookCreate.context cr) (strip key) (store w) ->
  exists h w1 w2,
    PlaybookCreate.raw cr (Some key) value validate when_requested w
    = (Returned h, w1)
    /\ PlaybookRead.raw rd (Some key') w1 = (Returned value, w2).
Proof.
  intros Hval Hkey Hkeep. apply is_none_false in Hval.
  destruct (commit_kept (strip key) value w Hkeep)
    as (h & s1 & s2 & Hcommit & Hread).
  eexists h, _, _. split.
  - unfold PlaybookCreate.raw. unfold bind at 1.
    rewrite (check_null_value _ _ _ _ Hval).
    rewrite create_data_commit. exact Hcommit.
  - unfold PlaybookRead.raw, call_read. cbn [store].
    rewrite Hkey, Hread. reflexivity.
Qed.

End MoreRoundTrips.

(** ** The further facts on the worked configuration *)

Section MoreWorked.
Import PyStr Builtin Example.
#[local] Existing Instance SpecUtil.util.
#[local] Existing Instance Example.redis.
#[local] Existing Instance Example.host.

(** X1, a witness: bytes written through [binary] under a requested
    String variable. *)
Lemma write_wrong_type_raises_witness :
  PlaybookCreate.write writer PlaybookCreate.OpBinary
    (Some "#App:1:s!String") (VBytes [x00]) true true world
  = (Raised (RuntimeError
       "Invalid variable provided (#App:1:s!String), variable must be of type Binary."),
     world).
Proof.
  apply (write_wrong_type_raises writer PlaybookCreate.OpBinary
           "#App:1:s!String" "#App:1:s!String" (VBytes [x00]) true true world).
  - discriminate.
  - reflexivity.
  - reflexivity.
  - right. apply list_elem_of_further, list_elem_of_here.
  - vm_compute. discriminate.
Defined.

(** X2, a witness: a bare key that was not requested, with
    [when_requested] unset. *)
Lemma write_unresolved_key_is_dropped_witness :
  PlaybookCreate.write writer PlaybookCreate.OpString (Some "nokey")
    (VStr "v") true false world
  = (Returned VNone, world).
Proof.
  apply (write_unresolved_key_is_dropped writer PlaybookCreate.OpString
           "nokey" (VStr "v") true false world).
  - discriminate.
  - reflexivity.
Defined.

(** X3, a witness: the bool True written under the bare key of a
    requested String variable is stored as the JSON text of [true]. *)
Lemma string_write_commits_json_witness :
  PlaybookCreate.string writer (Some "s") (VBool true) true true world
  = (Returned (VInt 1),
     @Build_World redis (("ctx", "#App:1:s!String", js "true") :: held)
       [CallCreate "ctx" "#App:1:s!String" (js "true")]).
Proof.
  etransitivity.
  - apply (string_write_commits_json writer "s" "#App:1:s!String"
             (VBool true) "true" true true world).
    + reflexivity.
    + right. apply list_elem_of_further, list_elem_of_here.
    + reflexivity.
    + reflexivity.
  - reflexivity.
Defined.

(** X4, a witness: a list written through [string]. *)
Lemma string_write_rejects_non_text_witness :
  PlaybookCreate.string writer (Some "s") (VList [VStr "a"]) true true world
  = (Raised (RuntimeError "Invalid data provided for String (<object>)."),
     world).
Proof.
  etransitivity.
  - apply (string_write_rejects_non_text writer "s" "#App:1:s!String"
             (VList [VStr "a"]) true world).
    + discriminate.
    + reflexivity.
    + right. apply list_elem_of_further, list_elem_of_here.
    + reflexivity.
    + reflexivity.
  - reflexivity.
Defined.

(** X5, a witness: a list of one pair and one null. *)
Lemma key_value_array_rejects_bad_entry_witness :
  exists msg,
    PlaybookCreate.key_value_array writer (Some "#App:1:kvs!KeyValueArray")
      (VList [VDict [("key", VStr "k"); ("value", VStr "v")]; VNone])
      true false world
    = (Raised (RuntimeError msg), world).
Proof.
  apply (key_value_array_rejects_bad_entry writer "#App:1:kvs!KeyValueArray"
           "#App:1:kvs!KeyValueArray"
           [VDict [("key", VStr "k"); ("value", VStr "v")]; VNone]
           false world).
  - reflexivity.
  - left. reflexivity.
  - reflexivity.
  - reflexivity.
Defined.

(** X6, a witness: a list of one pair. *)
Lemma key_value_array_commits_entries_witness :
  PlaybookCreate.key_value_array writer (Some "#App:1:kvs!KeyValueArray")
    (VList [VDict [("key", VStr "k"); ("value", VStr "v")]]) true false world
  = (Returned (VInt 1),
     @Build_World redis
       (("ctx", "#App:1:kvs!KeyValueArray",
         stored (VList [VDict [("key", VStr "k"); ("value", VStr "v")]]))
          :: held)
       [CallCreate "ctx" "#App:1:kvs!KeyValueArray"
          (stored (VList [VDict [("key", VStr "k"); ("value", VStr "v")]]))]).
Proof.
  etransitivity.
  - eapply (key_value_array_commits_entries writer "#App:1:kvs!KeyValueArray"
              "#App:1:kvs!KeyValueArray"
              [VDict [("key", VStr "k"); ("value", VStr "v")]]
              true false _ world).
    + reflexivity.
    + left. reflexivity.
    + reflexivity.
    + right. reflexivity.
    + vm_compute. reflexivity.
  - reflexivity.
Defined.

(** X7, a witness: the generic write under the bare key of a requested
    String variable is the String write under that variable. *)
Lemma any_write_dispatches_witness :
  PlaybookCreate.any writer (Some "s") (VStr "v") true None true world
  = PlaybookCreate.write writer PlaybookCreate.OpString
      (Some "#App:1:s!String") (VStr "v") true true world.
Proof.
  apply (any_write_dispatches writer PlaybookCreate.OpString "s"
           "#App:1:s!String" (VStr "v") true None true world).
  - discriminate.
  - reflexivity.
  - right. apply list_elem_of_further, list_elem_of_here.
  - reflexivity.
Defined.

(** X8, a witness: a variable of a type of the platform's own. *)
Lemma any_write_falls_back_to_raw_witness :
  @PlaybookCreate.any custom_util host redis writer (Some "#App:1:e!Custom")
    (VStr "v") true None false world
  = (Returned (VInt 1),
     @Build_World redis (("ctx", "#App:1:e!Custom", VStr "v") :: held)
       [CallCreate "ctx" "#App:1:e!Custom" (VStr "v")]).
Proof.
  etransitivity.
  - apply (@any_write_falls_back_to_raw custom_util host redis writer
             "#App:1:e!Custom" "#App:1:e!Custom" (VStr "v") true None false
             world).
    + discriminate.
    + reflexivity.
    + left. reflexivity.
    + intros []; vm_compute; discriminate.
  - reflexivity.
Defined.

(** X9, a witness: a String variable the store does not hold. *)
Lemma read_miss_returns_none_witness :
  PlaybookRead.read reader 2 (PlaybookRead.OpString true)
    (Some "#App:1:none!String") library
  = (Returned VNone,
     @Build_World redis shelf [CallRead "ctx" "#App:1:none!String"]).
Proof.
  apply (read_miss_returns_none reader 2 (PlaybookRead.OpString true)
           "#App:1:none!String" (shelf : @kv_state redis) library).
  - reflexivity.
  - left. reflexivity.
Defined.

(** X10, a witness: a read while the connection to the store is lost. *)
Lemma read_store_failure_propagates_witness :
  @PlaybookRead.read SpecUtil.util host offline reader 2
    (PlaybookRead.OpString true) (Some "#App:1:x!String")
    (@Build_World offline tt [])
  = (Raised (OtherError "ConnectionError"),
     @Build_World offline tt [CallRead "ctx" "#App:1:x!String"]).
Proof.
  apply (@read_store_failure_propagates SpecUtil.util host offline reader 2
           (PlaybookRead.OpString true) "#App:1:x!String"
           (OtherError "ConnectionError") tt (@Build_World offline tt [])).
  - reflexivity.
  - reflexivity.
  - reflexivity.
Defined.



(** X13, a witness: a text that embeds a variable the store does not
    hold. *)
Lemma embedded_none_is_null_placeholder_witness :
  PlaybookRead._read_embedded (PlaybookRead.any reader 2)
    (VStr "v=#App:1:none!String") library
  = (Returned (VStr "v=<null>"),
     @Build_World redis shelf [CallRead "ctx" "#App:1:none!String"]).
Proof.
  apply (embedded_none_is_null_placeholder (PlaybookRead.any reader 2)
           "v=#App:1:none!String"
           {| group0 := "#App:1:none!String"; group_origin := "#";
              group_type := Some "String" |}
           library
           (@Build_World redis shelf [CallRead "ctx" "#App:1:none!String"]));
    vm_compute; reflexivity.
Defined.

(** X14, a witness: a text that embeds a Binary variable the store
    holds. *)
Lemma embedded_binary_is_placeholder_witness :
  PlaybookRead._read_embedded (PlaybookRead.any reader 2)
    (VStr "b=#App:1:blob!Binary") library
  = (Returned (VStr "b=<binary>"),
     @Build_World redis shelf [CallRead "ctx" "#App:1:blob!Binary"]).
Proof.
  apply (embedded_binary_is_placeholder (PlaybookRead.any reader 2)
           "b=#App:1:blob!Binary"
           {| group0 := "#App:1:blob!Binary"; group_origin := "#";
              group_type := Some "Binary" |}
           (VBinaryVariable [x00; x01; xff])
           library
           (@Build_World redis shelf [CallRead "ctx" "#App:1:blob!Binary"]));
    vm_compute; reflexivity.
Defined.

(** X15, a witness: a text that embeds a StringArray variable gets the
    JSON text of the list. *)
Lemma embedded_container_is_json_text_witness :
  exists t,
    Json.dumps (VList [VStr "a"; VStr "b"]) = Returned t
    /\ PlaybookRead._read_embedded (PlaybookRead.any reader 2)
         (VStr "n=#App:1:names!StringArray") library
       = (Returned (VStr ("n=" +:+ t)),
          @Build_World redis shelf
            [CallRead "ctx" "#App:1:names!StringArray"]).
Proof.
  eexists. split; [vm_compute; reflexivity|].
  etransitivity.
  - eapply (embedded_container_is_json_text (PlaybookRead.any reader 2)
              "n=#App:1:names!StringArray"
              {| group0 := "#App:1:names!StringArray"; group_origin := "#";
                 group_type := Some "StringArray" |}
              (VList [VStringVariable "a"; VStringVariable "b"])
              _
              library
              (@Build_World redis shelf
                 [CallRead "ctx" "#App:1:names!StringArray"])).
    + vm_compute. reflexivity.
    + reflexivity.
    + reflexivity.
    + vm_compute. reflexivity.
    + left. eexists. reflexivity.
    + vm_compute. reflexivity.
  - vm_compute. reflexivity.
Defined.


(** X17, a witness: a stored pair that has only the field [key]. *)
Lemma key_value_read_without_value_field_witness :
  PlaybookRead.key_value reader (PlaybookRead.any reader 2)
    (Some "#App:1:half!KeyValue") true library
  = (Raised (KeyError "value"),
     @Build_World redis shelf [CallRead "ctx" "#App:1:half!KeyValue"])
  /\ PlaybookRead.key_value reader (PlaybookRead.any reader 2)
       (Some "#App:1:half!KeyValue") false library
     = (Returned (VDict [("key", VStr "k")]),
        @Build_World redis shelf [CallRead "ctx" "#App:1:half!KeyValue"]).
Proof.
  split.
  - eapply (key_value_read_without_value_field reader
              (PlaybookRead.any reader 2) "#App:1:half!KeyValue" _
              [("key", VStr "k")] (shelf : @kv_state redis) true library).
    + reflexivity.
    + vm_compute. reflexivity.
    + vm_compute. reflexivity.
    + reflexivity.
  - eapply (key_value_read_without_value_field reader
              (PlaybookRead.any reader 2) "#App:1:half!KeyValue" _
              [("key", VStr "k")] (shelf : @kv_state redis) false library).
    + reflexivity.
    + vm_compute. reflexivity.
    + vm_compute. reflexivity.
    + reflexivity.
Defined.

(** X18, a witness: a stored pair whose value is a String variable. *)
Lemma key_value_read_resolves_value_witness :
  PlaybookRead.key_value reader (PlaybookRead.any reader 2)
    (Some "#App:1:kv!KeyValue") true library
  = (Returned (VDict [("key", VStr "k"); ("value", VStringVariable "there")]),
     @Build_World redis shelf
       [CallRead "ctx" "#App:1:kv!KeyValue"; CallRead "ctx" "#App:1:x!String"]).
Proof.
  eapply (key_value_read_resolves_value reader (PlaybookRead.any reader 2)
            "#App:1:kv!KeyValue" _
            [("key", VStr "k"); ("value", VStr "#App:1:x!String")]
            "#App:1:x!String" (VStringVariable "there")
            (shelf : @kv_state redis)
            (@Build_World redis shelf
               [CallRead "ctx" "#App:1:kv!KeyValue";
                CallRead "ctx" "#App:1:x!String"])
            library).
  - reflexivity.
  - vm_compute. reflexivity.
  - vm_compute. reflexivity.
  - reflexivity.
  - reflexivity.
  - vm_compute. reflexivity.
Defined.

(** X19, a witness: free text with an escaped space, read as an array. *)
Lemma variable_read_of_free_text_witness :
  PlaybookRead.variable (PlaybookRead.any reader 2) (Some "hello\sworld")
    true library
  = (Returned (VList [VStr "hello world"]), library).
Proof.
  apply (variable_read_of_free_text (PlaybookRead.any reader 2)
           "hello\sworld" true library);
    vm_compute; reflexivity.
Defined.

(** X20, a witness: the generic read of a String variable given with
    spaces around it. *)
Lemma any_read_tags_string_witness :
  PlaybookRead.any reader 2 (Some " #App:1:x!String ") library
  = (Returned (VStringVariable "there"),
     @Build_World redis shelf [CallRead "ctx" "#App:1:x!String"]).
Proof.
  apply (any_read_tags_string reader 1 " #App:1:x!String " (VStr "there")
           library
           (@Build_World redis shelf [CallRead "ctx" "#App:1:x!String"]));
    vm_compute; reflexivity.
Defined.

(** X21, a witness: a text with no variable in it, written under the
    bare key of a requested String variable and read back with the
    embedded resolution on. *)
Lemma string_round_trip_witness :
  exists h w1 w2,
    PlaybookCreate.string writer (Some "s") (VStr "plain text") true true world
    = (Returned h, w1)
    /\ PlaybookRead.string reader (PlaybookRead.any reader 2)
         (Some "#App:1:s!String") true w1
       = (Returned (VStr "plain text"), w2).
Proof.
  apply (string_round_trip writer reader eq_refl (PlaybookRead.any reader 2)
           "s" "#App:1:s!String" (VStr "plain text") "plain text" true true
           true world).
  - reflexivity.
  - right. apply list_elem_of_further, list_elem_of_here.
  - reflexivity.
  - reflexivity.
  - apply memory_store_keeps.
  - right. right. reflexivity.
Defined.

(** X22, a witness: two texts with a null between them. *)
Lemma string_array_round_trip_witness :
  exists h w1 w2,
    PlaybookCreate.string_array writer (Some "#App:1:sa!StringArray")
      (VList [VStr "a"; VNone; VStr "b"]) true false world
    = (Returned h, w1)
    /\ PlaybookRead.string_array reader (Some "#App:1:sa!StringArray") w1
       = (Returned (VList [VStringVariable "a"; VNone; VStringVariable "b"]),
          w2).
Proof.
  apply (string_array_round_trip writer reader eq_refl
           "#App:1:sa!StringArray" "#App:1:sa!StringArray"
           [Some "a"; None; Some "b"] true false world).
  - reflexivity.
  - left. reflexivity.
  - reflexivity.
  - apply memory_store_keeps.
Defined.

(** X23, a witness: two byte sequences with a null between them. *)
Lemma binary_array_round_trip_witness :
  exists h w1 w2,
    PlaybookCreate.binary_array writer (Some "#App:1:ba!BinaryArray")
      (VList [VBytes [x00; xff]; VNone; VBytes []]) true false world
    = (Returned h, w1)
    /\ PlaybookRead.binary_array reader (Some "#App:1:ba!BinaryArray")
         true false w1
       = (Returned (VList [VBinaryVariable [x00; xff]; VNone;
                           VBinaryVariable []]), w2).
Proof.
  apply (binary_array_round_trip writer reader eq_refl
           "#App:1:ba!BinaryArray" "#App:1:ba!BinaryArray"
           [Some [x00; xff]; None; Some []] true false world).
  - reflexivity.
  - left. reflexivity.
  - reflexivity.
  - apply memory_store_keeps.
Defined.

(** X24, a witness: an address entity. *)
Lemma tc_entity_round_trip_witness :
  exists h w1 w2,
    PlaybookCreate.tc_entity writer (Some "#App:1:e!TCEntity")
      (VDict [("id", VStr "1"); ("value", VStr "1.2.3.4");
              ("type", VStr "Address")]) true false world
    = (Returned h, w1)
    /\ PlaybookRead.tc_entity reader (Some "#App:1:e!TCEntity") w1
       = (Returned (VDict [("id", VStr "1"); ("value", VStr "1.2.3.4");
                           ("type", VStr "Address")]), w2).
Proof.
  apply (tc_entity_round_trip writer reader eq_refl "#App:1:e!TCEntity"
           "#App:1:e!TCEntity"
           [("id", VStr "1"); ("value", VStr "1.2.3.4");
            ("type", VStr "Address")] true false world).
  - reflexivity.
  - left. reflexivity.
  - reflexivity.
  - reflexivity.
  - right. reflexivity.
  - apply memory_store_keeps.
Defined.

(** X25, a witness: a pair whose value is a variable, read back without
    resolution. *)
Lemma key_value_round_trip_witness :
  exists h w1 w2,
    PlaybookCreate.key_value writer (Some "#App:1:kv!KeyValue")
      (VDict [("key", VStr "k"); ("value", VStr "#App:1:x!String")])
      true false world
    = (Returned h, w1)
    /\ PlaybookRead.key_value reader (PlaybookRead.any reader 2)
         (Some "#App:1:kv!KeyValue") false w1
       = (Returned (VDict [("key", VStr "k");
                           ("value", VStr "#App:1:x!String")]), w2).
Proof.
  apply (key_value_round_trip writer reader eq_refl
           (PlaybookRead.any reader 2) "#App:1:kv!KeyValue"
           "#App:1:kv!KeyValue"
           [("key", VStr "k"); ("value", VStr "#App:1:x!String")]
           true false world).
  - reflexivity.
  - left. reflexivity.
  - reflexivity.
  - reflexivity.
  - right. reflexivity.
  - apply memory_store_keeps.
Defined.

(** X26, a witness: the bytes 00 01 ff read back as their base64 text. *)
Lemma binary_read_without_b64decode_witness :
  exists h w1 w2,
    PlaybookCreate.binary writer (Some "bin") (VBytes [x00; x01; xff])
      true true world = (Returned h, w1)
    /\ PlaybookRead.binary reader (Some "#App:1:bin!Binary") false false w1
       = (Returned (VStr "AAH/"), w2).
Proof.
  apply (binary_read_without_b64decode writer reader eq_refl "bin"
           "#App:1:bin!Binary" [x00; x01; xff] true true false world).
  - reflexivity.
  - right. apply list_elem_of_here.
  - reflexivity.
  - apply memory_store_keeps.
Defined.

(** X27, a witness: a full variable that was not requested. *)
Lemma variable_write_needs_request_witness :
  PlaybookCreate.variable writer (Some "#App:1:zz!String") (VStr "v") None
    world
  = (Returned VNone, world).
Proof.
  apply (variable_write_needs_request writer "#App:1:zz!String" (VStr "v")
           None world).
  - discriminate.
  - intros v Hv.
    change (Some "#App:1:zz!String" = Some v) in Hv. injection Hv as <-.
    unfold writer; cbn [PlaybookCreate.output_variables].
    rewrite !not_elem_of_cons. repeat split; try discriminate.
    apply not_elem_of_nil.
Defined.

(** X28, a witness: the bare key of a requested String variable. *)
Lemma variable_write_is_typed_write_witness :
  PlaybookCreate.variable writer (Some "s") (VStr "v") None world
  = PlaybookCreate.write writer PlaybookCreate.OpString
      (Some "#App:1:s!String") (VStr "v") true true world.
Proof.
  apply (variable_write_is_typed_write writer PlaybookCreate.OpString "s"
           "#App:1:s!String" (VStr "v") None world).
  - discriminate.
  - reflexivity.
  - apply list_elem_of_further, list_elem_of_here.
  - reflexivity.
  - reflexivity.
Defined.

(** X29, a witness: bytes written raw under a key with a space before it
    and read raw under the key with a space after it. *)
Lemma raw_round_trip_witness :
  exists h w1 w2,
    PlaybookCreate.raw writer (Some " k") (VBytes [x00; xff]) false false world
    = (Returned h, w1)
    /\ PlaybookRead.raw reader (Some "k ") w1
       = (Returned (VBytes [x00; xff]), w2).
Proof.
  apply (raw_round_trip writer reader eq_refl " k" "k " (VBytes [x00; xff])
           false false world).
  - discriminate.
  - reflexivity.
  - apply memory_store_keeps.
Defined.

End MoreWorked.
